(** * Ledger filters and aggregates of the fuel-station back office

    A shallow embedding of the client-side filter/aggregate code of the
    report pages (CustomerActivity.tsx with the price management page,
    ExpenseManagement.tsx, PaymentHistory, the sales history, lib/utils.ts)
    together with the ledger derivations (running balance, aging buckets)
    described by the specification.

    Conventions.
    - A JavaScript string is a [string]: ASCII text unit for unit, other
      text as its UTF-8 bytes; two strings are compared lexicographically
      unit by unit, as the relational operators of the language do.  Case
      folding belongs to the engine and is fixed on ASCII text only.
    - A JavaScript [number] is a binary64 [float].
    - An expression that may throw returns a [Completion].
    - An optional field ([f?: string], or a JSON [null]) is an [option]. *)

From Stdlib Require Import ZArith List Bool Ascii String Lia Sorted PrimFloat.
Import ListNotations.

Local Open Scope string_scope.
Local Open Scope bool_scope.

(* ================================================================== *)
(** ** The fragment of the JavaScript runtime the pages rely on *)
(* ================================================================== *)

Module JS.

(** Exceptions the modelled expressions can raise. *)
Inductive Exn : Type :=
| RangeError.   (* Date.prototype.toISOString on an Invalid Date *)

(** Completion of an expression: a value or an abrupt [throw]. *)
Inductive Completion (A : Type) : Type :=
| Normal (a : A)
| Throw (e : Exn).
Arguments Normal {A} a.
Arguments Throw {A} e.

Definition bind {A B} (c : Completion A) (k : A -> Completion B)
  : Completion B :=
  match c with
  | Normal a => k a
  | Throw e => Throw e
  end.

Definition cmap {A B} (f : A -> B) (c : Completion A) : Completion B :=
  bind c (fun a => Normal (f a)).

(** The result of [a?.m() || b?.m()]: a boolean or [undefined]. *)
Inductive Value : Type :=
| VBool (b : bool)
| VUndefined.

(** ToBoolean on such a value. *)
Definition truthy (v : Value) : bool :=
  match v with
  | VBool b => b
  | VUndefined => false
  end.

(** [a || b]: [a] when it is truthy, otherwise [b]. *)
Definition vor (a b : Value) : Value := if truthy a then a else b.

(** [a && b]: [a] when it is falsy, otherwise [b]. *)
Definition vand (a b : Value) : Value := if truthy a then b else a.

(** ToBoolean on a string: only the empty string is falsy. *)
Definition nonEmpty (s : string) : bool :=
  match s with
  | EmptyString => false
  | String _ _ => true
  end.

(** ToBoolean on an optional string: [undefined], [null] and [''] are
    falsy. *)
Definition present (o : option string) : bool :=
  match o with
  | Some s => nonEmpty s
  | None => false
  end.

(** Relational operators on two strings. *)
Definition slt (a b : string) : bool := String.ltb a b.
Definition sgt (a b : string) : bool := String.ltb b a.
Definition sle (a b : string) : bool := String.leb a b.
Definition sge (a b : string) : bool := String.leb b a.

(** Strict equality of two strings. *)
Definition streq (a b : string) : bool := String.eqb a b.

(** [x === s] where [x] may be [undefined]. *)
Definition seqOpt (x : option string) (s : string) : bool :=
  match x with
  | Some a => String.eqb a s
  | None => false
  end.

(** Case folding of the ASCII letters: [A]..[Z] become [a]..[z], every
    other character stays. *)
Definition isUpperLetter (c : ascii) : bool :=
  let n := nat_of_ascii c in (65 <=? n)%nat && (n <=? 90)%nat.

Definition letterToLower (c : ascii) : ascii :=
  ascii_of_nat (nat_of_ascii c + 32).

Definition asciiLowerChar (c : ascii) : ascii :=
  if isUpperLetter c then letterToLower c else c.

Fixpoint asciiLowerCase (s : string) : string :=
  match s with
  | EmptyString => EmptyString
  | String c r => String (asciiLowerChar c) (asciiLowerCase r)
  end.

(** Text made of ASCII characters only. *)
Definition isAsciiChar (c : ascii) : bool := (nat_of_ascii c <? 128)%nat.

Fixpoint isAscii (s : string) : bool :=
  match s with
  | EmptyString => true
  | String c r => isAsciiChar c && isAscii r
  end.

(** String.prototype.toLowerCase, left to the engine: it folds the
    letters of every script by the Unicode tables.  What the pages rely
    on, and all that is fixed here, is that on ASCII text it is the ASCII
    folding. *)
Class StringRuntime : Type := {
  toLowerCase : string -> string;
  toLowerCase_ascii :
    forall s, isAscii s = true -> toLowerCase s = asciiLowerCase s
}.

(** String.prototype.includes: [hay.includes(needle)]. *)
Fixpoint includes (hay needle : string) : bool :=
  String.prefix needle hay ||
  match hay with
  | EmptyString => false
  | String _ r => includes r needle
  end.

(** [needle] occurs in [hay]: the meaning of "substring". *)
Definition Substring (needle hay : string) : Prop :=
  exists pre post, hay = pre ++ needle ++ post.

(** Array.prototype.filter with a callback that may throw: elements are
    visited in order, an element is kept when the callback's result is
    truthy, and the first abrupt completion aborts the call.  The result
    is a new array; the receiver is only read. *)
Fixpoint Array_filter {A} (cb : A -> Completion Value) (l : list A)
  : Completion (list A) :=
  match l with
  | [] => Normal []
  | x :: r =>
      bind (cb x) (fun keep =>
      bind (Array_filter cb r) (fun r' =>
      Normal (if truthy keep then x :: r' else r')))
  end.

(** [opt?.toLowerCase().includes(term.toLowerCase())]: the whole chain is
    [undefined] when [opt] is [undefined] or [null]. *)
Definition optIncludes `{StringRuntime} (opt : option string)
  (term : string) : Value :=
  match opt with
  | Some s => VBool (includes (toLowerCase s) (toLowerCase term))
  | None => VUndefined
  end.

(** A reference engine for the worked examples: the ASCII folding on ASCII
    text; on other text, read as UTF-8, it also folds the capital letters
    of the Latin-1 supplement (the two bytes C3 80 .. C3 9E, the
    multiplication sign C3 97 excepted). *)
Module RefString.

Definition leadC3 : ascii := Eval cbv in ascii_of_nat 195.

Definition isLatinUpperTail (d : ascii) : bool :=
  let n := nat_of_ascii d in
  (128 <=? n)%nat && (n <=? 158)%nat && negb (n =? 151)%nat.

Fixpoint latinLowerCase (s : string) : string :=
  match s with
  | EmptyString => EmptyString
  | String c r =>
      if Ascii.eqb c leadC3 then
        match r with
        | String d r' =>
            if isLatinUpperTail d
            then String c (String (letterToLower d) (latinLowerCase r'))
            else String c (latinLowerCase r)
        | EmptyString => String c EmptyString
        end
      else String (asciiLowerChar c) (latinLowerCase r)
  end.

Definition lowerCase (s : string) : string :=
  if isAscii s then asciiLowerCase s else latinLowerCase s.

Definition runtime : StringRuntime :=
  {| toLowerCase := lowerCase;
     toLowerCase_ascii := fun (s : string) (H : isAscii s = true) =>
       @eq_ind_r bool true
         (fun b : bool =>
            (if b then asciiLowerCase s else latinLowerCase s)
            = asciiLowerCase s)
         eq_refl (isAscii s) H |}.

End RefString.

(** The Date built-in, as far as the filters use it.  [isoDay s] stands for
    [new Date(s).toISOString().split('T')[0]]: the UTC calendar day of the
    instant [s] denotes, or [None] when [new Date(s)] is an Invalid Date, in
    which case [toISOString] throws a RangeError.  Which strings parse is
    left to the engine. *)
Class DateRuntime : Type := { isoDay : string -> option string }.

Definition Date_isoDay `{DateRuntime} (s : string) : Completion string :=
  match isoDay s with
  | Some d => Normal d
  | None => Throw RangeError
  end.

(** A reference engine, used for the worked examples: it accepts the
    timestamps the API serialises, [YYYY-MM-DD] optionally followed by
    [THH:mm:ss.sssZ], and nothing else. *)
Module RefDate.

Definition isDigit (c : ascii) : bool :=
  let n := nat_of_ascii c in (48 <=? n)%nat && (n <=? 57)%nat.

Definition digit (c : ascii) : nat := nat_of_ascii c - 48.

Definition isLeap (y : nat) : bool :=
  ((y mod 4 =? 0)%nat && negb (y mod 100 =? 0)%nat) || (y mod 400 =? 0)%nat.

Definition daysInMonth (y m : nat) : nat :=
  match m with
  | 2 => if isLeap y then 29 else 28
  | 4 | 6 | 9 | 11 => 30
  | _ => 31
  end.

Definition timeOk (t : string) : bool :=
  match t with
  | String "T" (String h1 (String h2 (String ":" (String m1 (String m2
      (String ":" (String s1 (String s2 (String "." (String f1 (String f2
      (String f3 "Z")))))))))))) =>
      forallb isDigit [h1; h2; m1; m2; s1; s2; f1; f2; f3]
      && (digit h1 * 10 + digit h2 <? 24)%nat
      && (digit m1 * 10 + digit m2 <? 60)%nat
      && (digit s1 * 10 + digit s2 <? 60)%nat
  | _ => false
  end.

Definition isoDay (s : string) : option string :=
  match s with
  | String y1 (String y2 (String y3 (String y4 (String "-" (String m1
      (String m2 (String "-" (String d1 (String d2 rest))))))))) =>
      let y := digit y1 * 1000 + digit y2 * 100 + digit y3 * 10 + digit y4 in
      let m := digit m1 * 10 + digit m2 in
      let d := digit d1 * 10 + digit d2 in
      if forallb isDigit [y1; y2; y3; y4; m1; m2; d1; d2]
         && (1 <=? m)%nat && (m <=? 12)%nat
         && (1 <=? d)%nat && (d <=? daysInMonth y m)%nat
         && (negb (nonEmpty rest) || timeOk rest)
      then Some (substring 0 10 s)
      else None
  | _ => None
  end.

Definition runtime : DateRuntime := {| JS.isoDay := isoDay |}.

End RefDate.

End JS.

Notation "x <- c ;; k" := (JS.bind c (fun x => k))
  (at level 61, c at next level, right associativity).

Import JS.

(* ================================================================== *)
(** ** client/src/pages/CustomerActivity.tsx *)
(* ================================================================== *)

Module CustomerActivity.

(** [interface CustomerActivity].  [type] is one of ['sale'], ['payment'],
    ['credit'], ['adjustment'] and [status] one of ['completed'],
    ['pending'], ['cancelled']; both travel as strings. *)
Record Activity : Type := {
  id : string;
  customerId : string;
  customerName : string;
  type : string;
  description : string;
  amount : float;
  balance : float;
  date : string;
  referenceNumber : string;
  paymentMethod : option string;
  status : string;
  activityDate : option string
}.

(** The filter configuration held in the component's state. *)
Record Filters : Type := {
  searchTerm : string;
  typeFilter : string;
  fromDate : string;
  toDate : string
}.

Definition matchesSearch `{StringRuntime} (f : Filters)
  (activity : Activity) : bool :=
  includes (toLowerCase (customerName activity)) (toLowerCase (searchTerm f))
  || includes (toLowerCase (referenceNumber activity))
       (toLowerCase (searchTerm f))
  || includes (toLowerCase (description activity))
       (toLowerCase (searchTerm f)).

Definition matchesType (f : Filters) (activity : Activity) : bool :=
  streq (typeFilter f) "all" || streq (type activity) (typeFilter f).

Definition matchesDateRange `{DateRuntime} (f : Filters) (activity : Activity)
  : Completion bool :=
  if nonEmpty (fromDate f) || nonEmpty (toDate f) then
    activityDay <- (if nonEmpty (date activity)
                     then Date_isoDay (date activity)
                     else Normal "") ;;
    let m := true in
    let m := if nonEmpty (fromDate f) && slt activityDay (fromDate f)
             then false else m in
    let m := if nonEmpty (toDate f) && sgt activityDay (toDate f)
             then false else m in
    Normal m
  else Normal true.

(** The callback handed to [activities.filter]. *)
Definition keeps `{StringRuntime} `{DateRuntime} (f : Filters) (activity : Activity)
  : Completion Value :=
  let ms := matchesSearch f activity in
  let mt := matchesType f activity in
  md <- matchesDateRange f activity ;;
  Normal (VBool (ms && mt && md)).

(** The body of the filtering effect: the value passed to
    [setFilteredActivities]. *)
Definition filterActivities `{StringRuntime} `{DateRuntime} (f : Filters)
  (activities : list Activity) : Completion (list Activity) :=
  match activities with
  | [] => Normal []
  | _ => Array_filter (keeps f) activities
  end.

(** The component state the effect reads and writes. *)
Record State : Type := {
  activities : list Activity;
  filters : Filters;
  filteredActivities : list Activity
}.

Definition setFilteredActivities (s : State) (l : list Activity) : State :=
  {| activities := activities s;
     filters := filters s;
     filteredActivities := l |}.

(** One run of the effect: the state after [setFilteredActivities], when
    the filter completes. *)
Definition runEffect `{StringRuntime} `{DateRuntime} (s : State) : Completion State :=
  filtered <- filterActivities (filters s) (activities s) ;;
  Normal (setFilteredActivities s filtered).

(** [filteredActivities.filter(a => a.type === t).reduce((sum, a) => sum +
    a.amount, 0)] *)
Definition totalOfType (t : string) (filtered : list Activity) : float :=
  fold_left (fun sum a => (sum + amount a)%float)
    (List.filter (fun a => streq (type a) t) filtered) 0%float.

Definition totalSales (filtered : list Activity) : float :=
  totalOfType "sale" filtered.

Definition totalPayments (filtered : list Activity) : float :=
  totalOfType "payment" filtered.

End CustomerActivity.

(* ================================================================== *)
(** ** client/src/lib/utils.ts *)
(* ================================================================== *)

Module Utils.

Definition inISODateRange (dateISO fromISO toISO : string) : bool :=
  if negb (nonEmpty dateISO) || negb (nonEmpty fromISO)
     || negb (nonEmpty toISO)
  then false
  else sge dateISO fromISO && sle dateISO toISO.

End Utils.

(** [parseFloat], left to the engine: the binary64 value nearest to the
    decimal literal the string starts with, NaN when there is none. *)
Class NumberRuntime : Type := { parseFloat : string -> float }.

(* ================================================================== *)
(** ** client/src/pages/ExpenseManagement.tsx *)
(* ================================================================== *)

Module ExpenseManagement.

(** [interface Expense], the fields the list view reads.  The view guards
    [description] and [receiptNumber] with [?.], and compares a [category]
    the interface does not declare. *)
Record Expense : Type := {
  id : string;
  description : option string;
  amount : string;
  paymentMethod : string;
  expenseDate : string;
  receiptNumber : option string;
  category : option string;
  createdAt : string
}.

Record Filters : Type := {
  searchTerm : string;
  categoryFilter : string;
  fromDate : string;
  toDate : string
}.

Definition matchesSearch `{StringRuntime} (f : Filters)
  (expense : Expense) : Value :=
  vor (optIncludes (description expense) (searchTerm f))
      (optIncludes (receiptNumber expense) (searchTerm f)).

Definition matchesCategory (f : Filters) (expense : Expense) : bool :=
  streq (categoryFilter f) "all"
  || seqOpt (category expense) (categoryFilter f).

Definition matchesDateRange `{DateRuntime} (f : Filters) (expense : Expense)
  : Completion bool :=
  if nonEmpty (fromDate f) || nonEmpty (toDate f) then
    expenseDay <- (if nonEmpty (expenseDate expense)
                    then Date_isoDay (expenseDate expense)
                    else Normal "") ;;
    if nonEmpty (fromDate f) && nonEmpty (toDate f) then
      Normal (sge expenseDay (fromDate f) && sle expenseDay (toDate f))
    else if nonEmpty (fromDate f) then
      Normal (sge expenseDay (fromDate f))
    else if nonEmpty (toDate f) then
      Normal (sle expenseDay (toDate f))
    else Normal true
  else Normal true.

Definition keeps `{StringRuntime} `{DateRuntime} (f : Filters) (expense : Expense)
  : Completion Value :=
  let ms := matchesSearch f expense in
  let mc := matchesCategory f expense in
  md <- matchesDateRange f expense ;;
  Normal (vand (vand ms (VBool mc)) (VBool md)).

Definition filterExpenses `{StringRuntime} `{DateRuntime} (f : Filters)
  (expenses : list Expense) : Completion (list Expense) :=
  Array_filter (keeps f) expenses.

(** [exp.amount || '0'] *)
Definition amountOrZero (exp : Expense) : string :=
  if nonEmpty (amount exp) then amount exp else "0".

(** [filteredExpenses.reduce((sum, exp) => sum + parseFloat(exp.amount ||
    '0'), 0)] *)
Definition totalExpenses `{NumberRuntime} (filteredExpenses : list Expense)
  : float :=
  fold_left (fun sum exp => (sum + parseFloat (amountOrZero exp))%float)
    filteredExpenses 0%float.

End ExpenseManagement.

(* ================================================================== *)
(** ** PaymentHistory page *)
(* ================================================================== *)

Module PaymentHistory.

(** [Payment] of the shared schema, the fields the page reads. *)
Record Payment : Type := {
  id : string;
  referenceNumber : option string;
  notes : option string;
  paymentMethod : string;
  paymentDate : option string;
  amount : string
}.

Record Filters : Type := {
  searchTerm : string;
  paymentMethodFilter : string;
  fromDate : string;
  toDate : string
}.

Definition matchesSearch `{StringRuntime} (f : Filters)
  (payment : Payment) : Value :=
  vor (optIncludes (referenceNumber payment) (searchTerm f))
      (optIncludes (notes payment) (searchTerm f)).

Definition matchesMethod (f : Filters) (payment : Payment) : bool :=
  streq (paymentMethodFilter f) "all"
  || streq (paymentMethod payment) (paymentMethodFilter f).

Definition matchesDateRange `{DateRuntime} (f : Filters) (payment : Payment)
  : Completion bool :=
  if nonEmpty (fromDate f) || nonEmpty (toDate f) then
    paymentDay <- (match paymentDate payment with
                    | Some d => if nonEmpty d then Date_isoDay d
                                else Normal ""
                    | None => Normal ""
                    end) ;;
    let m := true in
    let m := if nonEmpty (fromDate f) && slt paymentDay (fromDate f)
             then false else m in
    let m := if nonEmpty (toDate f) && sgt paymentDay (toDate f)
             then false else m in
    Normal m
  else Normal true.

Definition keeps `{StringRuntime} `{DateRuntime} (f : Filters) (payment : Payment)
  : Completion Value :=
  let ms := matchesSearch f payment in
  let mm := matchesMethod f payment in
  md <- matchesDateRange f payment ;;
  Normal (vand (vand ms (VBool mm)) (VBool md)).

Definition filterPayments `{StringRuntime} `{DateRuntime} (f : Filters)
  (payments : list Payment) : Completion (list Payment) :=
  Array_filter (keeps f) payments.

End PaymentHistory.

(* ================================================================== *)
(** ** The ledger derivations of the specification *)
(* ================================================================== *)

Module Ledger.

(** A decimal amount of money, exact: the number of minor units (hundredths
    of the currency unit). *)
Definition Decimal : Type := Z.

Inductive Kind : Type :=
| sale
| payment
| credit
| adjustment
| priceChange.

Record LedgerEvent : Type := {
  entityId : string;
  timestamp : Z;
  kind : Kind;
  amount : Decimal;
  referenceId : string
}.

Record BalanceSnapshot : Type := {
  afterEvent : LedgerEvent;
  runningBalance : Decimal
}.

(** The amount of an event carries its sign. *)
Definition signedAmount (e : LedgerEvent) : Decimal := amount e.

(** Events in chronological order: ascending timestamps, ties allowed. *)
Definition chronological (events : list LedgerEvent) : Prop :=
  Sorted (fun a b => (timestamp a <= timestamp b)%Z) events.

(** Modelled from the spec: the Running Balance Calculator (section 4.2),
    which is not among the sources; the pages only display the [balance]
    the API delivers.  "Single left-to-right fold; balance_i = balance_{i-1}
    + signedAmount(event_i)", one snapshot per event. *)
Fixpoint runningBalances (opening : Decimal) (events : list LedgerEvent)
  : list BalanceSnapshot :=
  match events with
  | [] => []
  | e :: rest =>
      let b := (opening + signedAmount e)%Z in
      {| afterEvent := e; runningBalance := b |} :: runningBalances b rest
  end.

(** [runningBalance[i]], with [runningBalance[-1]] the opening balance;
    indices count from 0, so [balanceAt opening events 0] is the opening
    balance and [balanceAt opening events (S i)] the balance after event
    [i]. *)
Definition balanceAt (opening : Decimal) (events : list LedgerEvent)
  (n : nat) : Decimal :=
  match n with
  | O => opening
  | S i => nth i (map runningBalance (runningBalances opening events)) 0%Z
  end.

(** The balance after the last event; the opening balance when there is
    none. *)
Definition closingBalance (opening : Decimal) (events : list LedgerEvent)
  : Decimal :=
  last (map runningBalance (runningBalances opening events)) opening.

Definition sumSigned (events : list LedgerEvent) : Decimal :=
  fold_right (fun e acc => (signedAmount e + acc)%Z) 0%Z events.

(** *** Aging *)

Inductive BucketLabel : Type :=
| current
| days30_59
| days60_89
| days90plus.

Record Outstanding : Type := {
  outstandingAmount : Decimal;
  ageInDays : Z
}.

(** One bucket of the output: the summed amount and the number of
    contributing items. *)
Record Bucket : Type := {
  total : Decimal;
  count : nat
}.

Record Buckets : Type := {
  bCurrent : Bucket;
  b30_59 : Bucket;
  b60_89 : Bucket;
  b90plus : Bucket
}.

(** Modelled from the spec: the Aging Bucketizer (section 4.3); the
    AgingReports page that would hold it is not among the sources.
    "Partition into buckets: current (age < 30), 30-59, 60-89, 90+",
    lower bound inclusive, upper bound exclusive, the last bucket open. *)
Definition bucketOf (age : Z) : BucketLabel :=
  if (age <? 30)%Z then current
  else if (age <? 60)%Z then days30_59
  else if (age <? 90)%Z then days60_89
  else days90plus.

Definition addTo (b : Bucket) (a : Decimal) : Bucket :=
  {| total := (total b + a)%Z; count := S (count b) |}.

Definition emptyBucket : Bucket := {| total := 0%Z; count := 0 |}.

Definition emptyBuckets : Buckets :=
  {| bCurrent := emptyBucket; b30_59 := emptyBucket;
     b60_89 := emptyBucket; b90plus := emptyBucket |}.

Definition place (acc : Buckets) (o : Outstanding) : Buckets :=
  match bucketOf (ageInDays o) with
  | current =>
      {| bCurrent := addTo (bCurrent acc) (outstandingAmount o);
         b30_59 := b30_59 acc; b60_89 := b60_89 acc;
         b90plus := b90plus acc |}
  | days30_59 =>
      {| bCurrent := bCurrent acc;
         b30_59 := addTo (b30_59 acc) (outstandingAmount o);
         b60_89 := b60_89 acc; b90plus := b90plus acc |}
  | days60_89 =>
      {| bCurrent := bCurrent acc; b30_59 := b30_59 acc;
         b60_89 := addTo (b60_89 acc) (outstandingAmount o);
         b90plus := b90plus acc |}
  | days90plus =>
      {| bCurrent := bCurrent acc; b30_59 := b30_59 acc;
         b60_89 := b60_89 acc;
         b90plus := addTo (b90plus acc) (outstandingAmount o) |}
  end.

(** Modelled from the spec: the output of the Aging Bucketizer, "bucket
    label -> summed amount, plus the count of contributing items per
    bucket", computed in one pass over the [(amount, ageInDays)] pairs. *)
Definition bucketize (items : list Outstanding) : Buckets :=
  fold_left place items emptyBuckets.

Definition bucket (bs : Buckets) (l : BucketLabel) : Bucket :=
  match l with
  | current => bCurrent bs
  | days30_59 => b30_59 bs
  | days60_89 => b60_89 bs
  | days90plus => b90plus bs
  end.

(** The day range a label stands for, in the words of the contract. *)
Definition inRange (l : BucketLabel) (age : Z) : Prop :=
  match l with
  | current => (age < 30)%Z
  | days30_59 => (30 <= age < 60)%Z
  | days60_89 => (60 <= age < 90)%Z
  | days90plus => (90 <= age)%Z
  end.

Definition sumAmounts (items : list Outstanding) : Decimal :=
  fold_right (fun o acc => (outstandingAmount o + acc)%Z) 0%Z items.

Definition sameLabel (a b : BucketLabel) : bool :=
  match a, b with
  | current, current
  | days30_59, days30_59
  | days60_89, days60_89
  | days90plus, days90plus => true
  | _, _ => false
  end.

(** The items a bucket receives. *)
Definition itemsOf (l : BucketLabel) (items : list Outstanding)
  : list Outstanding :=
  List.filter (fun o => sameLabel (bucketOf (ageInDays o)) l) items.

End Ledger.

(* ================================================================== *)
(** ** The filter contract, and sample data *)
(* ================================================================== *)

(** Two characters that are the same letter: equal, or one the capital
    of the other. *)
Inductive sameLetter : ascii -> ascii -> Prop :=
| same_char (c : ascii) : sameLetter c c
| capital_left (c : ascii) :
    isUpperLetter c = true -> sameLetter c (letterToLower c)
| capital_right (c : ascii) :
    isUpperLetter c = true -> sameLetter (letterToLower c) c.

(** Two texts that differ in the case of their letters at most. *)
Inductive eqIgnoringCase : string -> string -> Prop :=
| eic_empty : eqIgnoringCase "" ""
| eic_letter (c d : ascii) (s t : string) :
    sameLetter c d -> eqIgnoringCase s t ->
    eqIgnoringCase (String c s) (String d t).

(** [needle] occurs in [hay] when case is ignored: the meaning of
    "case-insensitive substring". *)
Definition OccursIgnoringCase (needle hay : string) : Prop :=
  exists pre mid post,
    hay = pre ++ mid ++ post /\ eqIgnoringCase mid needle.

(** The order of the relational operators, as propositions. *)
Definition notBefore (d bound : string) : Prop :=
  String.compare d bound <> Lt.

Definition notAfter (d bound : string) : Prop :=
  String.compare d bound <> Gt.

(** The date filter as the contract words it: inclusive on both bounds
    when both are supplied, one-sided when one is, no constraint when none
    is.  A bound is supplied when it is not the empty string. *)
Definition DateFilterSpec (fromDate toDate day : string) : Prop :=
  match nonEmpty fromDate, nonEmpty toDate with
  | true, true => notBefore day fromDate /\ notAfter day toDate
  | true, false => notBefore day fromDate
  | false, true => notAfter day toDate
  | false, false => True
  end.

Module Samples.

Definition abcTransport : CustomerActivity.Activity :=
  {| CustomerActivity.id := "a1";
     CustomerActivity.customerId := "c1";
     CustomerActivity.customerName := "ABC Transport";
     CustomerActivity.type := "sale";
     CustomerActivity.description := "Diesel 200L";
     CustomerActivity.amount := 100%float;
     CustomerActivity.balance := 100%float;
     CustomerActivity.date := "2024-01-15T10:30:00.000Z";
     CustomerActivity.referenceNumber := "INV-001";
     CustomerActivity.paymentMethod := None;
     CustomerActivity.status := "completed";
     CustomerActivity.activityDate := None |}.

Definition xyzCo : CustomerActivity.Activity :=
  {| CustomerActivity.id := "a2";
     CustomerActivity.customerId := "c2";
     CustomerActivity.customerName := "XYZ Co";
     CustomerActivity.type := "payment";
     CustomerActivity.description := "Cash received";
     CustomerActivity.amount := 40%float;
     CustomerActivity.balance := 60%float;
     CustomerActivity.date := "2024-02-20T08:00:00.000Z";
     CustomerActivity.referenceNumber := "PAY-002";
     CustomerActivity.paymentMethod := Some "cash";
     CustomerActivity.status := "completed";
     CustomerActivity.activityDate := None |}.

(** An activity whose customer name has an accented capital. *)
Definition cafeFuel : CustomerActivity.Activity :=
  {| CustomerActivity.id := "a5";
     CustomerActivity.customerId := "c5";
     CustomerActivity.customerName := "CAFÉ Fuel";
     CustomerActivity.type := "sale";
     CustomerActivity.description := "Petrol 50L";
     CustomerActivity.amount := 25%float;
     CustomerActivity.balance := 25%float;
     CustomerActivity.date := "2024-01-16T09:00:00.000Z";
     CustomerActivity.referenceNumber := "INV-002";
     CustomerActivity.paymentMethod := Some "cash";
     CustomerActivity.status := "completed";
     CustomerActivity.activityDate := None |}.

(** An activity without a date. *)
Definition undated : CustomerActivity.Activity :=
  {| CustomerActivity.id := "a3";
     CustomerActivity.customerId := "c1";
     CustomerActivity.customerName := "ABC Transport";
     CustomerActivity.type := "adjustment";
     CustomerActivity.description := "Opening adjustment";
     CustomerActivity.amount := 25%float;
     CustomerActivity.balance := 85%float;
     CustomerActivity.date := "";
     CustomerActivity.referenceNumber := "ADJ-003";
     CustomerActivity.paymentMethod := None;
     CustomerActivity.status := "pending";
     CustomerActivity.activityDate := None |}.

(** An activity whose date is text no engine parses. *)
Definition misdated : CustomerActivity.Activity :=
  {| CustomerActivity.id := "a4";
     CustomerActivity.customerId := "c2";
     CustomerActivity.customerName := "XYZ Co";
     CustomerActivity.type := "sale";
     CustomerActivity.description := "Petrol 50L";
     CustomerActivity.amount := 75%float;
     CustomerActivity.balance := 135%float;
     CustomerActivity.date := "N/A";
     CustomerActivity.referenceNumber := "INV-004";
     CustomerActivity.paymentMethod := None;
     CustomerActivity.status := "completed";
     CustomerActivity.activityDate := None |}.

Definition activityFilters (search type from to : string)
  : CustomerActivity.Filters :=
  {| CustomerActivity.searchTerm := search;
     CustomerActivity.typeFilter := type;
     CustomerActivity.fromDate := from;
     CustomerActivity.toDate := to |}.

Definition rent : ExpenseManagement.Expense :=
  {| ExpenseManagement.id := "e1";
     ExpenseManagement.description := Some "Station rent";
     ExpenseManagement.amount := "1500.00";
     ExpenseManagement.paymentMethod := "bank";
     ExpenseManagement.expenseDate := "2024-01-31";
     ExpenseManagement.receiptNumber := Some "R-77";
     ExpenseManagement.category := None;
     ExpenseManagement.createdAt := "2024-01-31T09:00:00.000Z" |}.

(** An expense with neither description nor receipt number. *)
Definition bareExpense : ExpenseManagement.Expense :=
  {| ExpenseManagement.id := "e2";
     ExpenseManagement.description := None;
     ExpenseManagement.amount := "20.00";
     ExpenseManagement.paymentMethod := "cash";
     ExpenseManagement.expenseDate := "2024-02-01";
     ExpenseManagement.receiptNumber := None;
     ExpenseManagement.category := None;
     ExpenseManagement.createdAt := "2024-02-01T09:00:00.000Z" |}.

(** An expense whose date is text no engine parses. *)
Definition misdatedExpense : ExpenseManagement.Expense :=
  {| ExpenseManagement.id := "e3";
     ExpenseManagement.description := Some "Generator service";
     ExpenseManagement.amount := "90.00";
     ExpenseManagement.paymentMethod := "cash";
     ExpenseManagement.expenseDate := "N/A";
     ExpenseManagement.receiptNumber := None;
     ExpenseManagement.category := None;
     ExpenseManagement.createdAt := "2024-02-03T09:00:00.000Z" |}.

Definition expenseFilters (search category from to : string)
  : ExpenseManagement.Filters :=
  {| ExpenseManagement.searchTerm := search;
     ExpenseManagement.categoryFilter := category;
     ExpenseManagement.fromDate := from;
     ExpenseManagement.toDate := to |}.

(** A payment with neither reference number nor notes, and no date. *)
Definition barePayment : PaymentHistory.Payment :=
  {| PaymentHistory.id := "p1";
     PaymentHistory.referenceNumber := None;
     PaymentHistory.notes := None;
     PaymentHistory.paymentMethod := "cash";
     PaymentHistory.paymentDate := None;
     PaymentHistory.amount := "500.00" |}.

Definition paymentFilters (search method from to : string)
  : PaymentHistory.Filters :=
  {| PaymentHistory.searchTerm := search;
     PaymentHistory.paymentMethodFilter := method;
     PaymentHistory.fromDate := from;
     PaymentHistory.toDate := to |}.

(** A completed sale of the given amount. *)
Definition saleOf (x : float) : CustomerActivity.Activity :=
  {| CustomerActivity.id := "s";
     CustomerActivity.customerId := "c1";
     CustomerActivity.customerName := "ABC Transport";
     CustomerActivity.type := "sale";
     CustomerActivity.description := "Fuel";
     CustomerActivity.amount := x;
     CustomerActivity.balance := x;
     CustomerActivity.date := "2024-01-15T10:30:00.000Z";
     CustomerActivity.referenceNumber := "INV";
     CustomerActivity.paymentMethod := None;
     CustomerActivity.status := "completed";
     CustomerActivity.activityDate := None |}.

(** The binary64 numbers nearest to the decimals 0.1, 0.2 and 0.3, as the
    engine reads those literals. *)
Definition tenth : float := 0x1.999999999999ap-4%float.
Definition fifth : float := 0x1.999999999999ap-3%float.
Definition threeTenths : float := 0x1.3333333333333p-2%float.

Definition event (t : Z) (k : Ledger.Kind) (a : Ledger.Decimal)
  : Ledger.LedgerEvent :=
  {| Ledger.entityId := "c1";
     Ledger.timestamp := t;
     Ledger.kind := k;
     Ledger.amount := a;
     Ledger.referenceId := "" |}.

(** The worked example of the specification: a sale of 100.00, a payment
    of 40.00 and a sale of 25.00, in minor units. *)
Definition ledgerExample : list Ledger.LedgerEvent :=
  [event 1 Ledger.sale 10000; event 2 Ledger.payment (-4000);
   event 3 Ledger.sale 2500]%Z.

Definition owed (a age : Z) : Ledger.Outstanding :=
  {| Ledger.outstandingAmount := a; Ledger.ageInDays := age |}.

(** The worked example of the specification: 500.00 aged 10 days, 300.00
    aged 45 days and 200.00 aged 95 days. *)
Definition agingExample : list Ledger.Outstanding :=
  [owed 50000 10; owed 30000 45; owed 20000 95]%Z.

End Samples.

(* ================================================================== *)
(** ** The pages around the filters *)
(* ================================================================== *)

(** What a completed callback answers, as the filter reads it; an abrupt
    completion keeps nothing. *)
Definition accepts (c : Completion Value) : bool :=
  match c with
  | Normal v => truthy v
  | Throw _ => false
  end.

(** [xs] is [ys] with some elements left out, the order kept. *)
Inductive Subsequence {A : Type} : list A -> list A -> Prop :=
| sub_nil : Subsequence [] []
| sub_skip (x : A) (xs ys : list A) :
    Subsequence xs ys -> Subsequence xs (x :: ys)
| sub_take (x : A) (xs ys : list A) :
    Subsequence xs ys -> Subsequence (x :: xs) (x :: ys).

Module ActivityPage.
Import CustomerActivity.

(** [handleClearFilters]: the four setters, the lists untouched. *)
Definition handleClearFilters (s : State) : State :=
  {| activities := activities s;
     filters := {| searchTerm := ""; typeFilter := "all";
                   fromDate := ""; toDate := "" |};
     filteredActivities := filteredActivities s |}.

(** [setTypeFilter] of the status selector. *)
Definition setTypeFilter (f : Filters) (t : string) : Filters :=
  {| searchTerm := searchTerm f; typeFilter := t;
     fromDate := fromDate f; toDate := toDate f |}.

(** [setFromDate] and [setToDate] of the date selector. *)
Definition setDates (f : Filters) (from to : string) : Filters :=
  {| searchTerm := searchTerm f; typeFilter := typeFilter f;
     fromDate := from; toDate := to |}.

(** [filteredActivities.filter(a => a.status === 'completed').length] *)
Definition completedActivities (filtered : list Activity) : nat :=
  List.length (List.filter (fun a => streq (status a) "completed") filtered).

(** [filteredActivities.filter(a => a.status === 'pending').length] *)
Definition pendingActivities (filtered : list Activity) : nat :=
  List.length (List.filter (fun a => streq (status a) "pending") filtered).

End ActivityPage.

Module ExpensePage.
Import ExpenseManagement.

(** [handleClearFilters] *)
Definition clearedFilters : Filters :=
  {| searchTerm := ""; categoryFilter := "all";
     fromDate := ""; toDate := "" |}.

(** [handlePrintReport]: [filteredExpenses.length > 0 ? filteredExpenses :
    expenses], the rows the report prints. *)
Definition dataToUse (filteredExpenses expenses : list Expense)
  : list Expense :=
  if (0 <? List.length filteredExpenses)%nat then filteredExpenses
  else expenses.

(** The ['Total Expenses'] entry of the report summary; the number is
    printed in decimal. *)
Definition reportCount (filteredExpenses expenses : list Expense) : nat :=
  List.length (dataToUse filteredExpenses expenses).

End ExpensePage.

Module PaymentPage.
Import PaymentHistory.

(** The page keeps a [typeFilter] beside the filters the effect reads. *)
Record State : Type := {
  payments : list Payment;
  filters : Filters;
  typeFilter : string;
  filteredPayments : list Payment
}.

(** [handleClearFilters] *)
Definition handleClearFilters (s : State) : State :=
  {| payments := payments s;
     filters := {| searchTerm := ""; paymentMethodFilter := "all";
                   fromDate := ""; toDate := "" |};
     typeFilter := "all";
     filteredPayments := filteredPayments s |}.

(** One run of the filtering effect; [if (!payments)] never fires on an
    array. *)
Definition runEffect `{StringRuntime} `{DateRuntime} (s : State) : Completion State :=
  filtered <- filterPayments (filters s) (payments s) ;;
  Normal {| payments := payments s; filters := filters s;
            typeFilter := typeFilter s; filteredPayments := filtered |}.

(** [payment.referenceNumber] or [payment.notes] is there to be searched:
    not [undefined], not [null]. *)
Definition searchable (p : Payment) : bool :=
  match referenceNumber p, notes p with
  | None, None => false
  | _, _ => true
  end.

End PaymentPage.

(** The day the date test compares: the parsed day of the activity, the
    empty string when the activity has no date. *)
Definition activityDay `{DateRuntime} (a : CustomerActivity.Activity)
  : string :=
  if nonEmpty (CustomerActivity.date a) then
    match isoDay (CustomerActivity.date a) with
    | Some d => d
    | None => ""
    end
  else "".

(** The day the expense date test compares. *)
Definition expenseDay `{DateRuntime} (x : ExpenseManagement.Expense)
  : string :=
  if nonEmpty (ExpenseManagement.expenseDate x) then
    match isoDay (ExpenseManagement.expenseDate x) with
    | Some d => d
    | None => ""
    end
  else "".

Module ExpenseReport.
Import ExpenseManagement.

(** The rows [handlePrintReport] prints once the filtering effect has run
    with the filters [f]: the filtered expenses, or all of them when the
    filtered list is empty. *)
Definition reportRows `{StringRuntime} `{DateRuntime} (f : Filters) (expenses : list Expense)
  : Completion (list Expense) :=
  filtered <- filterExpenses f expenses ;;
  Normal (ExpensePage.dataToUse filtered expenses).

End ExpenseReport.

(* ================================================================== *)
(** ** client/src/lib/utils.ts: escapeHtml *)
(* ================================================================== *)

Module Html.

(** The double-quote character. *)
Definition dquote : ascii := Eval cbv in ascii_of_nat 34.

(** [s.replace(/c/g, by)] for a one-character pattern and a replacement
    without [$]. *)
Fixpoint replaceAll (c : ascii) (by_ : string) (s : string) : string :=
  match s with
  | EmptyString => EmptyString
  | String x r =>
      if Ascii.eqb x c then by_ ++ replaceAll c by_ r
      else String x (replaceAll c by_ r)
  end.

Definition escapeHtml (unsafe : string) : string :=
  replaceAll "'" "&#039;"
    (replaceAll dquote "&quot;"
       (replaceAll ">" "&gt;"
          (replaceAll "<" "&lt;"
             (replaceAll "&" "&amp;" unsafe)))).

(** The five characters the function rewrites. *)
Definition special (c : ascii) : bool :=
  Ascii.eqb c "&" || Ascii.eqb c "<" || Ascii.eqb c ">"
  || Ascii.eqb c dquote || Ascii.eqb c "'".

(** The entity a character stands for after escaping; other characters
    stand for themselves. *)
Definition entity (c : ascii) : string :=
  if Ascii.eqb c "&" then "&amp;"
  else if Ascii.eqb c "<" then "&lt;"
  else if Ascii.eqb c ">" then "&gt;"
  else if Ascii.eqb c dquote then "&quot;"
  else if Ascii.eqb c "'" then "&#039;"
  else String c EmptyString.

(** All characters rewritten at once. *)
Fixpoint substitute (s : string) : string :=
  match s with
  | EmptyString => EmptyString
  | String c r => entity c ++ substitute r
  end.

Fixpoint hasSpecial (s : string) : bool :=
  match s with
  | EmptyString => false
  | String c r => special c || hasSpecial r
  end.

(** Reading the five entities back. *)
Fixpoint unescape (s : string) : string :=
  match s with
  | EmptyString => EmptyString
  | String c r =>
      if negb (Ascii.eqb c "&") then String c (unescape r) else
      match r with
      | String a1 (String a2 (String a3 r3)) =>
          if String.eqb (String a1 (String a2 (String a3 ""))) "lt;"
          then String "<" (unescape r3)
          else if String.eqb (String a1 (String a2 (String a3 ""))) "gt;"
          then String ">" (unescape r3)
          else
            match r3 with
            | String a4 r4 =>
                if String.eqb
                     (String a1 (String a2 (String a3 (String a4 ""))))
                     "amp;"
                then String "&" (unescape r4)
                else
                  match r4 with
                  | String a5 r5 =>
                      if String.eqb
                           (String a1 (String a2 (String a3
                              (String a4 (String a5 ""))))) "quot;"
                      then String dquote (unescape r5)
                      else if String.eqb
                           (String a1 (String a2 (String a3
                              (String a4 (String a5 ""))))) "#039;"
                      then String "'" (unescape r5)
                      else String c (unescape r)
                  | EmptyString => String c (unescape r)
                  end
            | EmptyString => String c (unescape r)
            end
      | _ => String c (unescape r)
      end
  end.

End Html.

(* ================================================================== *)
(** ** The price management page (second component of
       client/src/pages/CustomerActivity.tsx) *)
(* ================================================================== *)

Module PriceManagement.

(** [Product] of the shared schema, the fields the page reads. *)
Record Product : Type := {
  id : string;
  name : string;
  category : option string;
  currentPrice : option string;
  createdAt : option string
}.

(** [interface PriceHistory]; the page guards [reason] and [userName]
    with [?.]. *)
Record PriceHistory : Type := {
  historyId : string;
  productId : string;
  oldPrice : string;
  newPrice : string;
  changeDate : string;
  reason : option string;
  userId : string;
  userName : option string
}.

Record Filters : Type := {
  searchTerm : string;
  productFilter : string;
  fromDate : string;
  toDate : string
}.

(** The date test both callbacks of [handleApplyFilters] spell out, on the
    record's raw date ([product.createdAt], [history.changeDate]). *)
Definition matchesDateRange `{DateRuntime} (f : Filters)
  (raw : option string) : Completion bool :=
  if nonEmpty (fromDate f) || nonEmpty (toDate f) then
    day <- (match raw with
            | Some d => if nonEmpty d then Date_isoDay d else Normal ""
            | None => Normal ""
            end) ;;
    let m := true in
    let m := if nonEmpty (fromDate f) && slt day (fromDate f)
             then false else m in
    let m := if nonEmpty (toDate f) && sgt day (toDate f)
             then false else m in
    Normal m
  else Normal true.

(** The callback of [products.filter]. *)
Definition keepsProduct `{StringRuntime} `{DateRuntime} (f : Filters) (product : Product)
  : Completion Value :=
  let ms := vor (VBool (includes (toLowerCase (name product))
                          (toLowerCase (searchTerm f))))
                (optIncludes (category product) (searchTerm f)) in
  let mp := streq (productFilter f) "all"
            || seqOpt (category product) (productFilter f) in
  md <- matchesDateRange f (createdAt product) ;;
  Normal (vand (vand ms (VBool mp)) (VBool md)).

(** The callback of [priceHistory.filter]. *)
Definition keepsHistory `{StringRuntime} `{DateRuntime} (f : Filters) (history : PriceHistory)
  : Completion Value :=
  let ms := vor (vor (VBool (negb (nonEmpty (searchTerm f))))
                     (optIncludes (reason history) (searchTerm f)))
                (optIncludes (userName history) (searchTerm f)) in
  md <- matchesDateRange f (Some (changeDate history)) ;;
  Normal (vand ms (VBool md)).

(** The test that opens [handleApplyFilters]: nothing is filtered. *)
Definition nothingToFilter (f : Filters) : bool :=
  negb (nonEmpty (searchTerm f)) && streq (productFilter f) "all"
  && negb (nonEmpty (fromDate f)) && negb (nonEmpty (toDate f)).

(** The two lists [handleApplyFilters] hands to [setFilteredProducts] and
    [setFilteredHistory]. *)
Definition filteredProductData `{StringRuntime} `{DateRuntime} (f : Filters)
  (products : list Product) : Completion (list Product) :=
  if nothingToFilter f then Normal products
  else Array_filter (keepsProduct f) products.

Definition filteredHistoryData `{StringRuntime} `{DateRuntime} (f : Filters)
  (priceHistory : list PriceHistory) : Completion (list PriceHistory) :=
  if nothingToFilter f then Normal priceHistory
  else Array_filter (keepsHistory f) priceHistory.

(** Equality of two optional strings, as a Set compares its elements. *)
Definition sameValue (a b : option string) : bool :=
  match a, b with
  | Some x, Some y => String.eqb x y
  | None, None => true
  | _, _ => false
  end.

(** [[...new Set(xs)]]: the elements in order of first occurrence. *)
Fixpoint setOf (seen xs : list (option string)) : list (option string) :=
  match xs with
  | [] => []
  | x :: r =>
      if existsb (sameValue x) seen then setOf seen r
      else x :: setOf (x :: seen) r
  end.

(** [.filter(Boolean)] on optional strings. *)
Fixpoint truthyOnly (xs : list (option string)) : list string :=
  match xs with
  | [] => []
  | Some s :: r => if nonEmpty s then s :: truthyOnly r else truthyOnly r
  | None :: r => truthyOnly r
  end.

(** [[...new Set(products.map(p => p.category))].filter(Boolean)] *)
Definition productCategories (products : list Product) : list string :=
  truthyOnly (setOf [] (map category products)).

End PriceManagement.

(* ================================================================== *)
(** ** client/src/lib/utils.ts: toISODate *)
(* ================================================================== *)

Module IsoDate.

(** What the local-time getters of a valid Date return: [getFullYear()],
    [getMonth()] (0 for January) and [getDate()]. *)
Record DateFields : Type := {
  fullYear : Z;
  month : Z;
  dayOfMonth : Z
}.

(** A Date object: its calendar fields, or an Invalid Date, whose
    [getTime()] is NaN. *)
Inductive JSDate : Type :=
| Valid (fields : DateFields)
| InvalidDate.

(** [new Date(s)] read in the local time zone, left to the engine. *)
Class LocalDateRuntime : Type := { newDate : string -> JSDate }.

(** The argument of [toISODate]: [Date | string | undefined | null]. *)
Inductive DateArg : Type :=
| ofDate (d : JSDate)
| ofString (s : string)
| missing.

Definition digitChar (d : Z) : ascii := ascii_of_N (Z.to_N (48 + d)).

(** The decimal digits of a non-negative integer in front of [acc]; the
    fuel bounds the number of digits. *)
Fixpoint digits (fuel : nat) (n : Z) (acc : string) : string :=
  match fuel with
  | O => acc
  | S fuel' =>
      let acc' := String (digitChar (n mod 10)) acc in
      if (n / 10 =? 0)%Z then acc' else digits fuel' (n / 10)%Z acc'
  end.

(** [String(n)] for an integer [n]: its decimal digits, with a minus sign
    when negative.  A number has at most [log2 n + 1] decimal digits. *)
Definition Number_toString (n : Z) : string :=
  if (n <? 0)%Z
  then "-" ++ digits (S (Z.to_nat (Z.log2 (- n)))) (- n)%Z ""
  else digits (S (Z.to_nat (Z.log2 n))) n "".

Fixpoint repeatChar (n : nat) (c : ascii) : string :=
  match n with
  | O => EmptyString
  | S k => String c (repeatChar k c)
  end.

(** [s.padStart(targetLength, c)] for a one-character filler. *)
Definition padStart (targetLength : nat) (c : ascii) (s : string) : string :=
  repeatChar (targetLength - String.length s) c ++ s.

Definition toISODate `{LocalDateRuntime} (d : DateArg) : string :=
  let date :=
    match d with
    | missing => None
    | ofString s => if nonEmpty s then Some (newDate s) else None
    | ofDate x => Some x
    end in
  match date with
  | None => ""
  | Some InvalidDate => ""
  | Some (Valid fields) =>
      let year := fullYear fields in
      let month := padStart 2 "0" (Number_toString (month fields + 1)) in
      let day := padStart 2 "0" (Number_toString (dayOfMonth fields)) in
      Number_toString year ++ "-" ++ month ++ "-" ++ day
  end.

(** A calendar day with a four-digit year. *)
Definition fourDigitYear (fields : DateFields) : Prop :=
  (1000 <= fullYear fields <= 9999 /\ 0 <= month fields <= 11 /\
   1 <= dayOfMonth fields <= 31)%Z.

(** Calendar days as numbers that grow with time: 2024-03-09 is
    20240309. *)
Definition dayNumber (fields : DateFields) : Z :=
  (fullYear fields * 10000 + (month fields + 1) * 100
   + dayOfMonth fields)%Z.

Definition twoDigits (n : Z) : string :=
  String (digitChar (n / 10)) (String (digitChar (n mod 10)) "").

Definition fourDigits (n : Z) : string :=
  String (digitChar (n / 1000))
    (String (digitChar (n / 100 mod 10))
       (String (digitChar (n / 10 mod 10))
          (String (digitChar (n mod 10)) ""))).

(** A reference engine for the worked examples: it reads [YYYY-MM-DD]
    as that calendar day and nothing else. *)
Definition refNewDate (s : string) : JSDate :=
  match RefDate.isoDay s with
  | Some (String y1 (String y2 (String y3 (String y4 (String _ (String m1
      (String m2 (String _ (String d1 (String d2 _)))))))))) =>
      Valid {| fullYear :=
                 Z.of_nat (RefDate.digit y1 * 1000 + RefDate.digit y2 * 100
                           + RefDate.digit y3 * 10 + RefDate.digit y4);
               month :=
                 Z.of_nat (RefDate.digit m1 * 10 + RefDate.digit m2) - 1;
               dayOfMonth :=
                 Z.of_nat (RefDate.digit d1 * 10 + RefDate.digit d2) |}
  | _ => InvalidDate
  end.

Definition refRuntime : LocalDateRuntime := {| newDate := refNewDate |}.

End IsoDate.

(* ================================================================== *)
(** ** The sales history page (src/unnamed/part_003) *)
(* ================================================================== *)

(** [new Date(s)] as the number the relational operators compare: the time
    value in milliseconds, or [None] for the NaN of an Invalid Date. *)
Class TimeRuntime : Type := { timeValue : string -> option Z }.

Module SalesHistory.

(** [SalesTransaction] of the shared schema, the fields the filter
    reads. *)
Record Sale : Type := {
  invoiceNumber : option string;
  customerId : option string;
  paymentMethod : string;
  transactionDate : option string
}.

Record Customer : Type := {
  customerKey : string;
  customerName : string
}.

Record Filters : Type := {
  searchTerm : string;
  paymentFilter : string;
  fromDate : string;
  toDate : string
}.

(** [a > b] and [a < b] on two Date objects: false when either time value
    is NaN. *)
Definition laterThan (a b : option Z) : bool :=
  match a, b with
  | Some x, Some y => (y <? x)%Z
  | _, _ => false
  end.

Definition earlierThan (a b : option Z) : bool :=
  match a, b with
  | Some x, Some y => (x <? y)%Z
  | _, _ => false
  end.

(** [customers.find(c => c.id === sale.customerId)] *)
Definition findCustomer (customers : list Customer) (sale : Sale)
  : option Customer :=
  List.find (fun c => seqOpt (customerId sale) (customerKey c)) customers.

Definition matchesSearch `{StringRuntime} (customers : list Customer)
  (f : Filters)
  (sale : Sale) : Value :=
  vor (vor (optIncludes (invoiceNumber sale) (searchTerm f))
           (optIncludes (option_map customerName (findCustomer customers sale))
              (searchTerm f)))
      (VBool false).

Definition matchesPaymentMethod (f : Filters) (sale : Sale) : bool :=
  streq (paymentFilter f) "all"
  || streq (paymentMethod sale) (paymentFilter f).

Definition matchesDateRange `{TimeRuntime} (f : Filters) (sale : Sale)
  : bool :=
  if nonEmpty (fromDate f) || nonEmpty (toDate f) then
    match transactionDate sale with
    | Some d =>
        if nonEmpty d then
          let saleDate := timeValue d in
          let m := true in
          let m := if nonEmpty (fromDate f)
                      && laterThan (timeValue (fromDate f)) saleDate
                   then false else m in
          let m := if nonEmpty (toDate f)
                      && earlierThan (timeValue (toDate f)) saleDate
                   then false else m in
          m
        else false
    | None => false
    end
  else true.

(** The callback of [salesTransactions.filter] in [handleApplyFilter]. *)
Definition keeps `{StringRuntime} `{TimeRuntime} (customers : list Customer) (f : Filters)
  (sale : Sale) : Value :=
  vand (vand (matchesSearch customers f sale)
             (VBool (matchesPaymentMethod f sale)))
       (VBool (matchesDateRange f sale)).

End SalesHistory.

Module SalesSamples.

(** An engine that knows the instants of the sample texts, in
    milliseconds since the epoch. *)
Definition knownInstant (s : string) : option Z :=
  if String.eqb s "2024-01-01" then Some 1704067200000%Z
  else if String.eqb s "2024-01-15" then Some 1705276800000%Z
  else if String.eqb s "2024-01-15T10:30:00.000Z" then Some 1705314600000%Z
  else if String.eqb s "2024-01-31" then Some 1706659200000%Z
  else None.

Definition runtime : TimeRuntime := {| timeValue := knownInstant |}.

Definition sale (date : option string) : SalesHistory.Sale :=
  {| SalesHistory.invoiceNumber := Some "INV-001";
     SalesHistory.customerId := None;
     SalesHistory.paymentMethod := "cash";
     SalesHistory.transactionDate := date |}.

(** A walk-in sale: no invoice number and no customer. *)
Definition walkIn : SalesHistory.Sale :=
  {| SalesHistory.invoiceNumber := None;
     SalesHistory.customerId := None;
     SalesHistory.paymentMethod := "cash";
     SalesHistory.transactionDate := Some "2024-01-15" |}.

Definition salesFilters (from to : string) : SalesHistory.Filters :=
  {| SalesHistory.searchTerm := "";
     SalesHistory.paymentFilter := "all";
     SalesHistory.fromDate := from;
     SalesHistory.toDate := to |}.

Definition bareHistory : PriceManagement.PriceHistory :=
  {| PriceManagement.historyId := "h1";
     PriceManagement.productId := "p1";
     PriceManagement.oldPrice := "280.00";
     PriceManagement.newPrice := "285.50";
     PriceManagement.changeDate := "2024-01-15T10:30:00.000Z";
     PriceManagement.reason := None;
     PriceManagement.userId := "u1";
     PriceManagement.userName := None |}.

Definition priceFilters (search from to : string)
  : PriceManagement.Filters :=
  {| PriceManagement.searchTerm := search;
     PriceManagement.productFilter := "all";
     PriceManagement.fromDate := from;
     PriceManagement.toDate := to |}.

End SalesSamples.

(** [expense.description] or [expense.receiptNumber] is there to be
    searched: not [undefined], not [null]. *)
Definition searchableExpense (x : ExpenseManagement.Expense) : bool :=
  match ExpenseManagement.description x,
        ExpenseManagement.receiptNumber x with
  | None, None => false
  | _, _ => true
  end.

(* ================================================================== *)
(** ** The filtering effect on the heap *)
(* ================================================================== *)

(** The effect of CustomerActivity.tsx works on objects it shares with the
    rest of the page: the [activities] array of the query, the activity
    objects the array refers to, and the array it hands to
    [setFilteredActivities].  Here the heap is explicit, so that what the
    effect writes and what it leaves alone can be told apart. *)
Module ActivityStore.

Definition Ref : Type := nat.

(** The heap: activity objects, arrays of references to them, and the
    first address not handed out yet. *)
Record Heap : Type := {
  objectAt : Ref -> CustomerActivity.Activity;
  arrayAt : Ref -> list Ref;
  nextRef : Ref
}.

(** A computation on the heap that may complete abruptly. *)
Definition Op (A : Type) : Type := Heap -> Completion (A * Heap).

Definition ret {A} (x : A) : Op A := fun h => Normal (x, h).

Definition opBind {A B} (m : Op A) (k : A -> Op B) : Op B :=
  fun h => match m h with
           | Normal (x, h') => k x h'
           | Throw e => Throw e
           end.

Definition lift {A} (c : Completion A) : Op A :=
  fun h => match c with
           | Normal x => Normal (x, h)
           | Throw e => Throw e
           end.

(** Reading the fields of an object, and the elements of an array. *)
Definition readObject (r : Ref) : Op CustomerActivity.Activity :=
  fun h => Normal (objectAt h r, h).

Definition readArray (r : Ref) : Op (list Ref) :=
  fun h => Normal (arrayAt h r, h).

(** A new array: it sits at the next free address and holds [elems]. *)
Definition newArray (elems : list Ref) : Op Ref :=
  fun h => Normal (nextRef h,
                   {| objectAt := objectAt h;
                      arrayAt := fun r => if Nat.eqb r (nextRef h)
                                          then elems else arrayAt h r;
                      nextRef := S (nextRef h) |}).

(** The loop of [Array.prototype.filter] from index [k], [n] indices to
    go: the element is read from the receiver when its turn comes, an
    index the receiver no longer has is skipped, and the references the
    callback answers truthy on are collected in order. *)
Fixpoint visit (cb : Ref -> Op Value) (arr : Ref) (k n : nat)
  : Op (list Ref) :=
  match n with
  | 0 => ret []
  | S n' =>
      opBind (readArray arr) (fun elems =>
      match nth_error elems k with
      | Some r =>
          opBind (cb r) (fun keep =>
          opBind (visit cb arr (S k) n') (fun kept =>
          ret (if truthy keep then r :: kept else kept)))
      | None => visit cb arr (S k) n'
      end)
  end.

(** [arr.filter(cb)]: the length is read once, the elements are visited,
    and the result is a new array. *)
Definition Array_filter (cb : Ref -> Op Value) (arr : Ref) : Op Ref :=
  opBind (readArray arr) (fun elems =>
  opBind (visit cb arr 0 (List.length elems)) (fun kept =>
  newArray kept)).

(** The callback of the effect: it reads the fields of the activity it is
    given and decides. *)
Definition keeps `{StringRuntime} `{DateRuntime}
  (f : CustomerActivity.Filters) (r : Ref) : Op Value :=
  opBind (readObject r) (fun activity =>
  lift (CustomerActivity.keeps f activity)).

(** The state of the component the effect touches: [activities] and
    [filteredActivities] hold references to arrays. *)
Record State : Type := {
  activities : Ref;
  filters : CustomerActivity.Filters;
  filteredActivities : Ref
}.

Definition setFilteredActivities (s : State) (r : Ref) : State :=
  {| activities := activities s;
     filters := filters s;
     filteredActivities := r |}.

(** One run of the effect. *)
Definition runEffect `{StringRuntime} `{DateRuntime} (s : State) : Op State :=
  opBind (readArray (activities s)) (fun elems =>
  match elems with
  | [] =>
      opBind (newArray []) (fun empty =>
      ret (setFilteredActivities s empty))
  | _ =>
      opBind (Array_filter (keeps (filters s)) (activities s))
        (fun filtered =>
      ret (setFilteredActivities s filtered))
  end).





End ActivityStore.

(** The sales table of the SalesHistory page. *)
Module SalesPage.
Import SalesHistory.

(** The list [handleApplyFilter] hands to [setFilteredData]: the callback
    has no failing case. *)
Definition handleApplyFilter `{StringRuntime} `{TimeRuntime}
  (customers : list Customer) (f : Filters) (salesTransactions : list Sale)
  : list Sale :=
  List.filter (fun sale => truthy (keeps customers f sale)) salesTransactions.

(** [filteredData.length > 0 ? filteredData : salesTransactions]: the rows
    of the table. *)
Definition displayedSales (filteredData salesTransactions : list Sale)
  : list Sale :=
  if (0 <? List.length filteredData)%nat then filteredData
  else salesTransactions.

End SalesPage.

(* ================================================================== *)
(** * Properties *)
(* ================================================================== *)

(** ** Strings: order and substrings *)

Module StringFacts.

Lemma ascii_compare_refl (c : ascii) : Ascii.compare c c = Eq.
Proof. unfold Ascii.compare. apply N.compare_refl. Qed.

Lemma ascii_compare_lt_trans (a b c : ascii) :
  Ascii.compare a b = Lt -> Ascii.compare b c = Lt -> Ascii.compare a c = Lt.
Proof.
  unfold Ascii.compare. rewrite !N.compare_lt_iff. apply N.lt_trans.
Qed.

Lemma ascii_compare_eq (a b : ascii) : Ascii.compare a b = Eq -> a = b.
Proof. apply Ascii.compare_eq_iff. Qed.

Lemma compare_refl (s : string) : String.compare s s = Eq.
Proof.
  induction s as [|c s IH]; simpl; [reflexivity|].
  now rewrite ascii_compare_refl.
Qed.

Lemma compare_lt_trans (a b c : string) :
  String.compare a b = Lt -> String.compare b c = Lt ->
  String.compare a c = Lt.
Proof.
  revert b c. induction a as [|x a IH]; intros [|y b] [|z c]; simpl;
    try congruence.
  destruct (Ascii.compare x y) eqn:Hxy; try discriminate;
  destruct (Ascii.compare y z) eqn:Hyz; try discriminate; intros Hab Hbc.
  - apply ascii_compare_eq in Hxy, Hyz. subst.
    rewrite ascii_compare_refl. eauto.
  - apply ascii_compare_eq in Hxy. subst. now rewrite Hyz.
  - apply ascii_compare_eq in Hyz. subst. now rewrite Hxy.
  - now rewrite (ascii_compare_lt_trans _ _ _ Hxy Hyz).
Qed.

Lemma compare_gt_lt (a b : string) :
  String.compare a b = Gt <-> String.compare b a = Lt.
Proof.
  rewrite (String.compare_antisym a b).
  destruct (String.compare b a); simpl; split; congruence.
Qed.

(** [a <= b] and [b <= c] give [a <= c]. *)
Lemma compare_le_trans (a b c : string) :
  String.compare a b <> Gt -> String.compare b c <> Gt ->
  String.compare a c <> Gt.
Proof.
  intros Hab Hbc Hac. apply compare_gt_lt in Hac.
  destruct (String.compare a b) eqn:Eab; [| |congruence].
  - apply String.compare_eq_iff in Eab. subst b.
    apply Hbc. now apply compare_gt_lt.
  - destruct (String.compare b c) eqn:Ebc; [| |congruence].
    + apply String.compare_eq_iff in Ebc. subst c.
      apply compare_gt_lt in Hac. rewrite Eab in Hac. discriminate.
    + pose proof (compare_lt_trans _ _ _ Ebc Hac) as Hba.
      apply compare_gt_lt in Hba. rewrite Eab in Hba. discriminate.
Qed.

Lemma slt_false_iff (a b : string) :
  slt a b = false <-> String.compare a b <> Lt.
Proof.
  unfold slt, String.ltb. destruct (String.compare a b); split;
    congruence.
Qed.

Lemma sgt_false_iff (a b : string) :
  sgt a b = false <-> String.compare a b <> Gt.
Proof.
  unfold sgt, String.ltb. rewrite (String.compare_antisym a b).
  destruct (String.compare b a); simpl; split; congruence.
Qed.

Lemma sge_true_iff (a b : string) :
  sge a b = true <-> String.compare a b <> Lt.
Proof.
  unfold sge, String.leb. rewrite (String.compare_antisym a b).
  destruct (String.compare b a); simpl; split; congruence.
Qed.

Lemma sle_true_iff (a b : string) :
  sle a b = true <-> String.compare a b <> Gt.
Proof.
  unfold sle, String.leb. destruct (String.compare a b); split;
    congruence.
Qed.

(** The empty string is below every non-empty string. *)
Lemma empty_slt (s : string) : slt "" s = nonEmpty s.
Proof. destruct s; reflexivity. Qed.

Lemma empty_sgt (s : string) : sgt "" s = false.
Proof. destruct s; reflexivity. Qed.

Lemma nonEmpty_true_iff (s : string) : nonEmpty s = true <-> s <> "".
Proof. destruct s; simpl; split; congruence. Qed.

Lemma nonEmpty_false_iff (s : string) : nonEmpty s = false <-> s = "".
Proof. destruct s; simpl; split; congruence. Qed.

Lemma prefix_iff (n h : string) :
  String.prefix n h = true <-> exists post, h = n ++ post.
Proof.
  revert h. induction n as [|a n IH]; intros h; simpl.
  - split; [intros _; now exists h | intros _; now destruct h].
  - destruct h as [|b h]; simpl.
    + split; [discriminate | intros [post H]; discriminate].
    + destruct (ascii_dec a b) as [->|Hne].
      * rewrite IH. split; intros [post H]; exists post; congruence.
      * split; [discriminate | intros [post H]; congruence].
Qed.

Lemma includes_unfold (hay needle : string) :
  includes hay needle =
  String.prefix needle hay ||
  match hay with
  | EmptyString => false
  | String _ r => includes r needle
  end.
Proof. destruct hay; reflexivity. Qed.

Lemma includes_iff (hay needle : string) :
  includes hay needle = true <-> Substring needle hay.
Proof.
  unfold Substring. induction hay as [|c hay IH];
    rewrite includes_unfold, orb_true_iff, prefix_iff.
  - split.
    + intros [[post H] | H]; [now exists "", post | discriminate].
    + intros [[|x pre] [post H]]; [left; now exists post | discriminate].
  - rewrite IH. split.
    + intros [[post H] | [pre [post H]]].
      * now exists "", post.
      * exists (String c pre), post. simpl. congruence.
    + intros [[|x pre] [post H]].
      * left. now exists post.
      * right. exists pre, post. simpl in H. congruence.
Qed.

End StringFacts.

(** ** Array.prototype.filter *)

Module FilterFacts.
Import StringFacts.

Section Generic.
Context {A : Type} (cb : A -> Completion Value).

(** What the result of a completed call contains: elements of the
    receiver on which the callback answered something truthy. *)
Lemma Array_filter_In (l r : list A) (x : A) :
  Array_filter cb l = Normal r -> In x r ->
  In x l /\ exists v, cb x = Normal v /\ truthy v = true.
Proof.
  revert r. induction l as [|y l IH]; simpl; intros r Hr Hx.
  - injection Hr as <-. contradiction.
  - destruct (cb y) as [v|e] eqn:Hy; simpl in Hr; [|discriminate].
    destruct (Array_filter cb l) as [r'|e]; simpl in Hr; [|discriminate].
    injection Hr as <-.
    destruct (truthy v) eqn:Hv.
    + destruct Hx as [<-|Hx].
      * split; [now left | eauto].
      * destruct (IH r' eq_refl Hx) as [Hin Hv']. split; [now right | exact Hv'].
    + destruct (IH r' eq_refl Hx) as [Hin Hv']. split; [now right | exact Hv'].
Qed.

(** An element on which the callback throws aborts the whole call. *)
Lemma Array_filter_throws (l : list A) (x : A) :
  In x l -> cb x = Throw RangeError -> Array_filter cb l = Throw RangeError.
Proof.
  induction l as [|y l IH]; simpl; intros Hin Hx; [contradiction|].
  destruct (cb y) as [v|[]] eqn:Hy; simpl; [|reflexivity].
  destruct Hin as [->|Hin]; [congruence|].
  now rewrite (IH Hin Hx).
Qed.

(** A callback that never throws and never answers truthy empties the
    list. *)
Lemma Array_filter_all_falsy (l : list A) :
  Forall (fun x => exists v, cb x = Normal v /\ truthy v = false) l ->
  Array_filter cb l = Normal [].
Proof.
  induction 1 as [|x l [v [Hx Hv]] _ IH]; simpl; [reflexivity|].
  now rewrite Hx, IH; simpl; rewrite Hv.
Qed.

(** A completed call keeps every element the callback approves of. *)
Lemma Array_filter_kept (l r : list A) (x : A) (v : Value) :
  Array_filter cb l = Normal r -> In x l ->
  cb x = Normal v -> truthy v = true -> In x r.
Proof.
  revert r. induction l as [|y l IH]; simpl; intros r Hr Hin Hx Hv.
  - contradiction.
  - destruct (cb y) as [w|e] eqn:Hy; simpl in Hr; [|discriminate].
    destruct (Array_filter cb l) as [r'|e]; simpl in Hr; [|discriminate].
    injection Hr as <-.
    destruct Hin as [->|Hin].
    + rewrite Hx in Hy. injection Hy as <-. rewrite Hv. now left.
    + specialize (IH r' eq_refl Hin Hx Hv).
      destruct (truthy w); [now right | exact IH].
Qed.

End Generic.

End FilterFacts.

(** ** The customer-activity filter *)

Module ActivityFacts.
Import StringFacts FilterFacts CustomerActivity.

Section WithRuntime.
Context {S : StringRuntime} {R : DateRuntime}.

Lemma activity_matchesSearch_iff (f : Filters) (a : Activity) :
  matchesSearch f a = true <->
  Substring (toLowerCase (searchTerm f)) (toLowerCase (customerName a)) \/
  Substring (toLowerCase (searchTerm f)) (toLowerCase (referenceNumber a)) \/
  Substring (toLowerCase (searchTerm f)) (toLowerCase (description a)).
Proof.
  unfold matchesSearch. rewrite !orb_true_iff, !includes_iff. tauto.
Qed.

Lemma activity_matchesType_iff (f : Filters) (a : Activity) :
  matchesType f a = true <-> typeFilter f = "all" \/ type a = typeFilter f.
Proof.
  unfold matchesType, streq. now rewrite orb_true_iff, !String.eqb_eq.
Qed.

(** With a day in hand the range test is the contract's. *)
Lemma range_test_spec (from to day : string) :
  (if nonEmpty to && sgt day to
   then false
   else if nonEmpty from && slt day from then false else true) = true
  <-> DateFilterSpec from to day.
Proof.
  unfold DateFilterSpec, notBefore, notAfter.
  pose proof (slt_false_iff day from) as Hlt.
  pose proof (sgt_false_iff day to) as Hgt.
  destruct (nonEmpty from), (nonEmpty to), (slt day from), (sgt day to);
    simpl; intuition congruence.
Qed.

Lemma activity_matchesDateRange_parsed (f : Filters) (a : Activity) (day : string) :
  date a <> "" -> isoDay (date a) = Some day ->
  exists keep, matchesDateRange f a = Normal keep /\
               (keep = true <-> DateFilterSpec (fromDate f) (toDate f) day).
Proof.
  intros Hne Hday. apply nonEmpty_true_iff in Hne.
  unfold matchesDateRange, Date_isoDay. rewrite Hne, Hday. simpl.
  destruct (nonEmpty (fromDate f) || nonEmpty (toDate f)) eqn:Hany.
  - eexists. split; [reflexivity|]. apply range_test_spec.
  - apply orb_false_elim in Hany as [Hf Ht].
    exists true. split; [reflexivity|].
    unfold DateFilterSpec. rewrite Hf, Ht. tauto.
Qed.

(** A missing date stands for the empty string. *)
Lemma activity_matchesDateRange_undated (f : Filters) (a : Activity) :
  date a = "" ->
  matchesDateRange f a = Normal (negb (nonEmpty (fromDate f))).
Proof.
  intros Hd. unfold matchesDateRange. rewrite Hd. simpl.
  rewrite empty_slt, empty_sgt.
  destruct (nonEmpty (fromDate f)), (nonEmpty (toDate f)); reflexivity.
Qed.

(** An unparseable date makes the callback throw as soon as a bound is
    set. *)
Lemma activity_keeps_throws (f : Filters) (a : Activity) :
  date a <> "" -> isoDay (date a) = None ->
  fromDate f <> "" \/ toDate f <> "" ->
  keeps f a = Throw RangeError.
Proof.
  intros Hne Hbad Hany. apply nonEmpty_true_iff in Hne.
  assert (nonEmpty (fromDate f) || nonEmpty (toDate f) = true) as Hb.
  { apply orb_true_iff. destruct Hany as [H|H];
      apply nonEmpty_true_iff in H; auto. }
  unfold keeps, matchesDateRange, Date_isoDay.
  now rewrite Hb, Hne, Hbad.
Qed.

Lemma filterActivities_throws (f : Filters) (a : Activity)
  (l : list Activity) :
  date a <> "" -> isoDay (date a) = None ->
  fromDate f <> "" \/ toDate f <> "" ->
  In a l -> filterActivities f l = Throw RangeError.
Proof.
  intros Hne Hbad Hany Hin. unfold filterActivities.
  destruct l as [|x l]; [contradiction|].
  apply Array_filter_throws with (x := a); auto using activity_keeps_throws.
Qed.

End WithRuntime.

End ActivityFacts.

(** ** The expense filter *)

Module ExpenseFacts.
Import StringFacts FilterFacts ExpenseManagement.

Section WithRuntime.
Context {S : StringRuntime} {R : DateRuntime}.

Lemma expense_matchesDateRange_parsed (f : Filters) (x : Expense) (day : string) :
  expenseDate x <> "" -> isoDay (expenseDate x) = Some day ->
  exists keep, matchesDateRange f x = Normal keep /\
               (keep = true <-> DateFilterSpec (fromDate f) (toDate f) day).
Proof.
  intros Hne Hday. apply nonEmpty_true_iff in Hne.
  unfold matchesDateRange, Date_isoDay, DateFilterSpec, notBefore, notAfter.
  rewrite Hne, Hday. simpl.
  pose proof (sge_true_iff day (fromDate f)) as Hge.
  pose proof (sle_true_iff day (toDate f)) as Hle.
  destruct (nonEmpty (fromDate f)), (nonEmpty (toDate f)); simpl;
    eexists; (split; [reflexivity|]);
    rewrite ?andb_true_iff; tauto.
Qed.

Lemma expense_matchesCategory_iff (f : Filters) (x : Expense) :
  matchesCategory f x = true <->
  categoryFilter f = "all" \/ category x = Some (categoryFilter f).
Proof.
  unfold matchesCategory, streq, seqOpt. rewrite orb_true_iff, String.eqb_eq.
  destruct (category x) as [c|].
  - rewrite String.eqb_eq. intuition congruence.
  - intuition congruence.
Qed.

Lemma expense_matchesSearch_absent (f : Filters) (x : Expense) :
  description x = None -> receiptNumber x = None ->
  matchesSearch f x = VUndefined.
Proof. unfold matchesSearch. now intros -> ->. Qed.

Lemma expense_keeps_absent (f : Filters) (x : Expense) (v : Value) :
  description x = None -> receiptNumber x = None ->
  keeps f x = Normal v -> truthy v = false.
Proof.
  intros Hd Hr. unfold keeps. rewrite (expense_matchesSearch_absent f x Hd Hr).
  destruct (matchesDateRange f x); simpl; [|discriminate].
  now intros [= <-].
Qed.

Lemma expense_keeps_throws (f : Filters) (x : Expense) :
  expenseDate x <> "" -> isoDay (expenseDate x) = None ->
  fromDate f <> "" \/ toDate f <> "" ->
  keeps f x = Throw RangeError.
Proof.
  intros Hne Hbad Hany. apply nonEmpty_true_iff in Hne.
  assert (nonEmpty (fromDate f) || nonEmpty (toDate f) = true) as Hb.
  { apply orb_true_iff. destruct Hany as [H|H];
      apply nonEmpty_true_iff in H; auto. }
  unfold keeps, matchesDateRange, Date_isoDay.
  now rewrite Hb, Hne, Hbad.
Qed.

End WithRuntime.

End ExpenseFacts.

(** ** The payment filter *)

Module PaymentFacts.
Import StringFacts FilterFacts PaymentHistory.

Section WithRuntime.
Context {S : StringRuntime} {R : DateRuntime}.

Lemma payment_matchesDateRange_undated (f : Filters) (p : Payment) :
  present (paymentDate p) = false ->
  matchesDateRange f p = Normal (negb (nonEmpty (fromDate f))).
Proof.
  intros Hd. unfold matchesDateRange.
  assert ((match paymentDate p with
           | Some d => if nonEmpty d then Date_isoDay d else Normal ""
           | None => Normal ""
           end) = Normal "") as ->.
  { destruct (paymentDate p) as [d|]; simpl in Hd; [now rewrite Hd | easy]. }
  simpl. rewrite empty_slt, empty_sgt.
  destruct (nonEmpty (fromDate f)), (nonEmpty (toDate f)); reflexivity.
Qed.

Lemma payment_matchesSearch_absent (f : Filters) (p : Payment) :
  referenceNumber p = None -> notes p = None ->
  matchesSearch f p = VUndefined.
Proof. unfold matchesSearch. now intros -> ->. Qed.

Lemma payment_keeps_absent (f : Filters) (p : Payment) (v : Value) :
  referenceNumber p = None -> notes p = None ->
  keeps f p = Normal v -> truthy v = false.
Proof.
  intros Hr Hn. unfold keeps. rewrite (payment_matchesSearch_absent f p Hr Hn).
  destruct (matchesDateRange f p); simpl; [|discriminate].
  now intros [= <-].
Qed.

Lemma payment_matchesDateRange_unfiltered (f : Filters) (p : Payment) :
  fromDate f = "" -> toDate f = "" -> matchesDateRange f p = Normal true.
Proof. unfold matchesDateRange. now intros -> ->. Qed.

End WithRuntime.

End PaymentFacts.

(* ================================================================== *)
(** * The filter and aggregate view *)
(* ================================================================== *)

Import StringFacts FilterFacts Samples.

(** ** Case folding *)

Module CaseFacts.
Import StringFacts.

Lemma toLowerCase_empty (S : StringRuntime) : toLowerCase "" = "".
Proof. now rewrite toLowerCase_ascii. Qed.

Lemma upper_bounds (c : ascii) :
  isUpperLetter c = true <-> 65 <= nat_of_ascii c <= 90.
Proof.
  unfold isUpperLetter. rewrite andb_true_iff, !Nat.leb_le. tauto.
Qed.

Lemma code_letterToLower (c : ascii) :
  isUpperLetter c = true ->
  nat_of_ascii (letterToLower c) = nat_of_ascii c + 32.
Proof.
  intros H. apply upper_bounds in H. unfold letterToLower.
  apply nat_ascii_embedding. lia.
Qed.

Lemma code_inj (c d : ascii) : nat_of_ascii c = nat_of_ascii d -> c = d.
Proof.
  intros H. rewrite <- (ascii_nat_embedding c), <- (ascii_nat_embedding d).
  now rewrite H.
Qed.

Lemma lower_is_not_upper (c : ascii) :
  isUpperLetter c = true -> isUpperLetter (letterToLower c) = false.
Proof.
  intros H. pose proof (code_letterToLower c H) as Hc.
  apply upper_bounds in H.
  destruct (isUpperLetter (letterToLower c)) eqn:Hu; [|reflexivity].
  apply upper_bounds in Hu. lia.
Qed.

(** Two characters fold to the same character exactly when they are the
    same letter. *)
Lemma asciiLowerChar_eq_iff (c d : ascii) :
  asciiLowerChar c = asciiLowerChar d <-> sameLetter c d.
Proof.
  unfold asciiLowerChar. split.
  - destruct (isUpperLetter c) eqn:Hc, (isUpperLetter d) eqn:Hd; intros H.
    + assert (c = d) as ->; [|constructor].
      apply code_inj.
      apply (f_equal nat_of_ascii) in H.
      rewrite !code_letterToLower in H by assumption. lia.
    + subst d. now constructor.
    + subst c. now constructor.
    + subst d. constructor.
  - intros [x | x Hx | x Hx].
    + reflexivity.
    + now rewrite Hx, (lower_is_not_upper x Hx).
    + now rewrite Hx, (lower_is_not_upper x Hx).
Qed.

Lemma asciiLowerCase_eq_iff (s t : string) :
  asciiLowerCase s = asciiLowerCase t <-> eqIgnoringCase s t.
Proof.
  split.
  - revert t. induction s as [|c s IH]; intros [|d t] H; simpl in H;
      try discriminate; [constructor|].
    injection H as Hc Hs. constructor.
    + now apply asciiLowerChar_eq_iff.
    + now apply IH.
  - induction 1 as [|c d s t Hcd _ IH]; simpl; [reflexivity|].
    apply asciiLowerChar_eq_iff in Hcd. now rewrite Hcd, IH.
Qed.

Lemma asciiLowerCase_app (s t : string) :
  asciiLowerCase (s ++ t) = asciiLowerCase s ++ asciiLowerCase t.
Proof. induction s as [|c s IH]; simpl; [reflexivity | now rewrite IH]. Qed.

(** A folded text splits where its original splits. *)
Lemma asciiLowerCase_split (u : string) :
  forall s v, asciiLowerCase s = u ++ v ->
              exists a b, s = a ++ b /\ asciiLowerCase a = u /\
                          asciiLowerCase b = v.
Proof.
  induction u as [|x u IH]; intros s v H; simpl in H.
  - exists "", s. repeat split. exact H.
  - destruct s as [|c s]; simpl in H; [discriminate|].
    injection H as Hc Hs. destruct (IH s v Hs) as (a & b & -> & Ha & Hb).
    exists (String c a), b. simpl. now rewrite Hc, Ha, Hb.
Qed.

(** Occurrence after folding is occurrence with case ignored. *)
Lemma folded_Substring_iff (needle hay : string) :
  Substring (asciiLowerCase needle) (asciiLowerCase hay) <->
  OccursIgnoringCase needle hay.
Proof.
  unfold Substring, OccursIgnoringCase. split.
  - intros (pre & post & H).
    destruct (asciiLowerCase_split pre hay _ H) as (a & rest & -> & Ha & Hr).
    destruct (asciiLowerCase_split _ rest post Hr)
      as (mid & b & -> & Hm & Hb).
    exists a, mid, b. split; [reflexivity|].
    now apply asciiLowerCase_eq_iff.
  - intros (pre & mid & post & -> & Heq).
    apply asciiLowerCase_eq_iff in Heq.
    exists (asciiLowerCase pre), (asciiLowerCase post).
    now rewrite !asciiLowerCase_app, Heq.
Qed.

(** On ASCII text the engine's search test is occurrence with case
    ignored. *)
Lemma includes_folded_iff (S : StringRuntime) (hay needle : string) :
  isAscii hay = true -> isAscii needle = true ->
  (includes (toLowerCase hay) (toLowerCase needle) = true <->
   OccursIgnoringCase needle hay).
Proof.
  intros Hh Hn. rewrite !toLowerCase_ascii by assumption.
  now rewrite includes_iff, folded_Substring_iff.
Qed.

Lemma toLowerCase_ignores_case (S : StringRuntime) (s t : string) :
  isAscii s = true -> isAscii t = true -> eqIgnoringCase s t ->
  toLowerCase s = toLowerCase t.
Proof.
  intros Hs Ht H. rewrite !toLowerCase_ascii by assumption.
  now apply asciiLowerCase_eq_iff.
Qed.

End CaseFacts.

(** C7.  Text search on the customer-activity page is a case-insensitive
    substring match over the name, the reference and the description.  An
    activity matches exactly when the lower-cased search text occurs in at
    least one of the three lower-cased fields, lower-casing being the
    engine's.  On ASCII text this is occurrence with the case of letters
    ignored, and the outcome does not change when the search text or the
    fields are replaced by texts that differ from them in case only.  For
    every engine the search text "abc" finds the name "ABC Transport" and
    does not find "XYZ Co". *)
Theorem search_is_case_insensitive_substring (S : StringRuntime) :
  (forall (f : CustomerActivity.Filters) (a : CustomerActivity.Activity),
     CustomerActivity.matchesSearch f a = true <->
     Substring (toLowerCase (CustomerActivity.searchTerm f))
       (toLowerCase (CustomerActivity.customerName a)) \/
     Substring (toLowerCase (CustomerActivity.searchTerm f))
       (toLowerCase (CustomerActivity.referenceNumber a)) \/
     Substring (toLowerCase (CustomerActivity.searchTerm f))
       (toLowerCase (CustomerActivity.description a)))
  /\ (forall (f : CustomerActivity.Filters) (a : CustomerActivity.Activity),
        isAscii (CustomerActivity.searchTerm f) = true ->
        isAscii (CustomerActivity.customerName a) = true ->
        isAscii (CustomerActivity.referenceNumber a) = true ->
        isAscii (CustomerActivity.description a) = true ->
        (CustomerActivity.matchesSearch f a = true <->
         OccursIgnoringCase (CustomerActivity.searchTerm f)
           (CustomerActivity.customerName a) \/
         OccursIgnoringCase (CustomerActivity.searchTerm f)
           (CustomerActivity.referenceNumber a) \/
         OccursIgnoringCase (CustomerActivity.searchTerm f)
           (CustomerActivity.description a)))
  /\ (forall (f g : CustomerActivity.Filters)
             (a b : CustomerActivity.Activity),
        isAscii (CustomerActivity.searchTerm f) = true ->
        isAscii (CustomerActivity.searchTerm g) = true ->
        isAscii (CustomerActivity.customerName a) = true ->
        isAscii (CustomerActivity.customerName b) = true ->
        isAscii (CustomerActivity.referenceNumber a) = true ->
        isAscii (CustomerActivity.referenceNumber b) = true ->
        isAscii (CustomerActivity.description a) = true ->
        isAscii (CustomerActivity.description b) = true ->
        eqIgnoringCase (CustomerActivity.searchTerm f)
          (CustomerActivity.searchTerm g) ->
        eqIgnoringCase (CustomerActivity.customerName a)
          (CustomerActivity.customerName b) ->
        eqIgnoringCase (CustomerActivity.referenceNumber a)
          (CustomerActivity.referenceNumber b) ->
        eqIgnoringCase (CustomerActivity.description a)
          (CustomerActivity.description b) ->
        CustomerActivity.matchesSearch f a
        = CustomerActivity.matchesSearch g b)
  /\ includes (toLowerCase "ABC Transport") (toLowerCase "abc") = true
  /\ includes (toLowerCase "XYZ Co") (toLowerCase "abc") = false
  /\ CustomerActivity.matchesSearch (activityFilters "abc" "all" "" "")
       abcTransport = true
  /\ CustomerActivity.matchesSearch (activityFilters "abc" "all" "" "")
       xyzCo = false.
Proof.
  split; [exact ActivityFacts.activity_matchesSearch_iff|].
  split; [|split].
  - intros f a Hs Hn Hr Hd. unfold CustomerActivity.matchesSearch.
    rewrite !orb_true_iff.
    rewrite !(CaseFacts.includes_folded_iff S) by assumption. tauto.
  - intros f g a b Hf Hg Hna Hnb Hra Hrb Hda Hdb Es En Er Ed.
    unfold CustomerActivity.matchesSearch.
    rewrite (CaseFacts.toLowerCase_ignores_case S _ _ Hf Hg Es),
      (CaseFacts.toLowerCase_ignores_case S _ _ Hna Hnb En),
      (CaseFacts.toLowerCase_ignores_case S _ _ Hra Hrb Er),
      (CaseFacts.toLowerCase_ignores_case S _ _ Hda Hdb Ed).
    reflexivity.
  - unfold CustomerActivity.matchesSearch. simpl.
    rewrite !toLowerCase_ascii by reflexivity.
    repeat split; reflexivity.
Qed.

Lemma search_is_case_insensitive_substring_witness :
  @CustomerActivity.matchesSearch RefString.runtime
    (activityFilters "TRANSPORT" "all" "" "") abcTransport
  = @CustomerActivity.matchesSearch RefString.runtime
      (activityFilters "transport" "all" "" "") abcTransport
  /\ (@CustomerActivity.matchesSearch RefString.runtime
        (activityFilters "inv-001" "all" "" "") abcTransport = true <->
      OccursIgnoringCase "inv-001" "ABC Transport" \/
      OccursIgnoringCase "inv-001" "INV-001" \/
      OccursIgnoringCase "inv-001" "Diesel 200L")
  /\ (@CustomerActivity.matchesSearch RefString.runtime
        (activityFilters "café" "all" "" "") cafeFuel = true <->
      Substring (RefString.lowerCase "café")
        (RefString.lowerCase "CAFÉ Fuel") \/
      Substring (RefString.lowerCase "café")
        (RefString.lowerCase "INV-002") \/
      Substring (RefString.lowerCase "café")
        (RefString.lowerCase "Petrol 50L")).
Proof.
  destruct (search_is_case_insensitive_substring RefString.runtime)
    as (Hsub & Hocc & Hcase & _).
  split; [|split].
  - apply Hcase; try reflexivity;
      apply CaseFacts.asciiLowerCase_eq_iff; reflexivity.
  - apply (Hocc (activityFilters "inv-001" "all" "" "") abcTransport);
      reflexivity.
  - apply (Hsub (activityFilters "café" "all" "" "") cafeFuel).
Defined.

(** An engine that folds more than ASCII finds "café" in "CAFÉ Fuel", as
    the page does. *)
Lemma reference_engine_folds_accented_capitals :
  @CustomerActivity.matchesSearch RefString.runtime
    (activityFilters "café" "all" "" "") cafeFuel = true.
Proof. reflexivity. Qed.

(** ** What a completed filter keeps *)

Module KeepFacts.
Import StringFacts FilterFacts.

(** A completed filter keeps exactly the elements of its input that the
    callback answers truthy on. *)
Lemma Array_filter_In_iff {A : Type} (cb : A -> Completion Value)
  (l r : list A) (x : A) (v : Value) :
  Array_filter cb l = Normal r -> cb x = Normal v ->
  (In x r <-> In x l /\ truthy v = true).
Proof.
  intros Hr Hx. split.
  - intros Hin. destruct (Array_filter_In cb l r x Hr Hin) as [Hl [w [Hw Ht]]].
    rewrite Hx in Hw. injection Hw as <-. now split.
  - intros [Hl Ht]. now apply (Array_filter_kept cb l r x v).
Qed.

Lemma truthy_vand (a b : Value) : truthy (vand a b) = truthy a && truthy b.
Proof. unfold vand. destruct (truthy a) eqn:Ha; simpl; [reflexivity | exact Ha]. Qed.

Section WithRuntime.
Context {S : StringRuntime} {R : DateRuntime}.

Lemma filterActivities_In_iff (f : CustomerActivity.Filters)
  (l r : list CustomerActivity.Activity) (a : CustomerActivity.Activity)
  (v : Value) :
  CustomerActivity.filterActivities f l = Normal r ->
  CustomerActivity.keeps f a = Normal v ->
  (In a r <-> In a l /\ truthy v = true).
Proof.
  unfold CustomerActivity.filterActivities. intros Hr Hk.
  destruct l as [|y l].
  - injection Hr as <-. simpl. tauto.
  - now apply (Array_filter_In_iff (CustomerActivity.keeps f) (y :: l) r a v).
Qed.

(** The callback of the customer-activity filter on a record whose date
    parses. *)
Lemma activity_keeps_parsed (f : CustomerActivity.Filters)
  (a : CustomerActivity.Activity) (day : string) :
  CustomerActivity.date a <> "" ->
  isoDay (CustomerActivity.date a) = Some day ->
  exists keep,
    CustomerActivity.keeps f a = Normal (VBool keep) /\
    (keep = true <->
     CustomerActivity.matchesSearch f a = true /\
     (CustomerActivity.typeFilter f = "all" \/
      CustomerActivity.type a = CustomerActivity.typeFilter f) /\
     DateFilterSpec (CustomerActivity.fromDate f)
       (CustomerActivity.toDate f) day).
Proof.
  intros Hne Hday.
  destruct (ActivityFacts.activity_matchesDateRange_parsed f a day Hne Hday)
    as [md [Hmd Hspec]].
  unfold CustomerActivity.keeps. rewrite Hmd. simpl.
  eexists. split; [reflexivity|].
  rewrite !andb_true_iff, (ActivityFacts.activity_matchesType_iff f a), Hspec.
  tauto.
Qed.

(** The callback of the expense filter on a record whose date parses. *)
Lemma expense_keeps_parsed (f : ExpenseManagement.Filters)
  (x : ExpenseManagement.Expense) (day : string) :
  ExpenseManagement.expenseDate x <> "" ->
  isoDay (ExpenseManagement.expenseDate x) = Some day ->
  exists v,
    ExpenseManagement.keeps f x = Normal v /\
    (truthy v = true <->
     truthy (ExpenseManagement.matchesSearch f x) = true /\
     (ExpenseManagement.categoryFilter f = "all" \/
      ExpenseManagement.category x
      = Some (ExpenseManagement.categoryFilter f)) /\
     DateFilterSpec (ExpenseManagement.fromDate f)
       (ExpenseManagement.toDate f) day).
Proof.
  intros Hne Hday.
  destruct (ExpenseFacts.expense_matchesDateRange_parsed f x day Hne Hday)
    as [md [Hmd Hspec]].
  unfold ExpenseManagement.keeps. rewrite Hmd. simpl.
  eexists. split; [reflexivity|].
  rewrite !truthy_vand. simpl.
  rewrite !andb_true_iff, (ExpenseFacts.expense_matchesCategory_iff f x), Hspec.
  tauto.
Qed.

End WithRuntime.

End KeepFacts.

(** C6.  For a record whose date parses to the day [d], the filter keeps
    the record exactly when the search matches, the type (or category)
    filter lets it through and [d] is within the supplied date bounds: not
    before [fromDate] and not after [toDate] when both are supplied (both
    ends inclusive), the one supplied bound when only one is, and always
    when none is.  The type filter lets a record through exactly when the
    filter value is "all" or equals the record's type.  This is what the
    callback answers and what a completed filter returns, for customer
    activities and for expenses. *)
Theorem date_and_type_filter_semantics (S : StringRuntime) (R : DateRuntime)
  (a : CustomerActivity.Activity) (x : ExpenseManagement.Expense)
  (da dx : string) :
  CustomerActivity.date a <> "" ->
  isoDay (CustomerActivity.date a) = Some da ->
  ExpenseManagement.expenseDate x <> "" ->
  isoDay (ExpenseManagement.expenseDate x) = Some dx ->
  (forall f, exists keep,
      CustomerActivity.matchesDateRange f a = Normal keep /\
      (keep = true <->
       DateFilterSpec (CustomerActivity.fromDate f)
         (CustomerActivity.toDate f) da))
  /\ (forall f, exists keep,
      ExpenseManagement.matchesDateRange f x = Normal keep /\
      (keep = true <->
       DateFilterSpec (ExpenseManagement.fromDate f)
         (ExpenseManagement.toDate f) dx))
  /\ (forall f, CustomerActivity.matchesType f a = true <->
      CustomerActivity.typeFilter f = "all" \/
      CustomerActivity.type a = CustomerActivity.typeFilter f)
  /\ (forall f, exists keep,
      CustomerActivity.keeps f a = Normal (VBool keep) /\
      (keep = true <->
       CustomerActivity.matchesSearch f a = true /\
       (CustomerActivity.typeFilter f = "all" \/
        CustomerActivity.type a = CustomerActivity.typeFilter f) /\
       DateFilterSpec (CustomerActivity.fromDate f)
         (CustomerActivity.toDate f) da))
  /\ (forall f l r,
      CustomerActivity.filterActivities f l = Normal r ->
      (In a r <->
       In a l /\
       CustomerActivity.matchesSearch f a = true /\
       (CustomerActivity.typeFilter f = "all" \/
        CustomerActivity.type a = CustomerActivity.typeFilter f) /\
       DateFilterSpec (CustomerActivity.fromDate f)
         (CustomerActivity.toDate f) da))
  /\ (forall f, exists v,
      ExpenseManagement.keeps f x = Normal v /\
      (truthy v = true <->
       truthy (ExpenseManagement.matchesSearch f x) = true /\
       (ExpenseManagement.categoryFilter f = "all" \/
        ExpenseManagement.category x
        = Some (ExpenseManagement.categoryFilter f)) /\
       DateFilterSpec (ExpenseManagement.fromDate f)
         (ExpenseManagement.toDate f) dx))
  /\ (forall f l r,
      ExpenseManagement.filterExpenses f l = Normal r ->
      (In x r <->
       In x l /\
       truthy (ExpenseManagement.matchesSearch f x) = true /\
       (ExpenseManagement.categoryFilter f = "all" \/
        ExpenseManagement.category x
        = Some (ExpenseManagement.categoryFilter f)) /\
       DateFilterSpec (ExpenseManagement.fromDate f)
         (ExpenseManagement.toDate f) dx)).
Proof.
  intros Ha Hda Hx Hdx.
  split; [|split; [|split; [|split; [|split; [|split]]]]].
  - intros f. now apply ActivityFacts.activity_matchesDateRange_parsed.
  - intros f. now apply ExpenseFacts.expense_matchesDateRange_parsed.
  - intros f. apply ActivityFacts.activity_matchesType_iff.
  - intros f. now apply KeepFacts.activity_keeps_parsed.
  - intros f l r Hr.
    destruct (KeepFacts.activity_keeps_parsed f a da Ha Hda)
      as [keep [Hk Hspec]].
    rewrite (KeepFacts.filterActivities_In_iff f l r a _ Hr Hk). simpl.
    now rewrite Hspec.
  - intros f. now apply KeepFacts.expense_keeps_parsed.
  - intros f l r Hr.
    destruct (KeepFacts.expense_keeps_parsed f x dx Hx Hdx)
      as [v [Hk Hspec]].
    unfold ExpenseManagement.filterExpenses in Hr.
    rewrite (KeepFacts.Array_filter_In_iff _ l r x v Hr Hk).
    now rewrite Hspec.
Qed.

Lemma date_and_type_filter_semantics_witness :
  (forall f l r,
      @CustomerActivity.filterActivities RefString.runtime RefDate.runtime
        f l = Normal r ->
      (In abcTransport r <->
       In abcTransport l /\
       @CustomerActivity.matchesSearch RefString.runtime f abcTransport
         = true /\
       (CustomerActivity.typeFilter f = "all" \/
        CustomerActivity.type abcTransport = CustomerActivity.typeFilter f) /\
       DateFilterSpec (CustomerActivity.fromDate f)
         (CustomerActivity.toDate f) "2024-01-15"))
  /\ (forall f l r,
      @ExpenseManagement.filterExpenses RefString.runtime RefDate.runtime
        f l = Normal r ->
      (In rent r <->
       In rent l /\
       truthy (@ExpenseManagement.matchesSearch RefString.runtime f rent)
         = true /\
       (ExpenseManagement.categoryFilter f = "all" \/
        ExpenseManagement.category rent
        = Some (ExpenseManagement.categoryFilter f)) /\
       DateFilterSpec (ExpenseManagement.fromDate f)
         (ExpenseManagement.toDate f) "2024-01-31")).
Proof.
  assert (CustomerActivity.date abcTransport <> "") as Ha by discriminate.
  assert (ExpenseManagement.expenseDate rent <> "") as Hx by discriminate.
  destruct (date_and_type_filter_semantics RefString.runtime RefDate.runtime
              abcTransport rent "2024-01-15" "2024-01-31"
              Ha eq_refl Hx eq_refl)
    as (_ & _ & _ & _ & Hact & _ & Hexp).
  split; [exact Hact | exact Hexp].
Defined.

(** C9.  A record without a date is filtered asymmetrically.  Its date
    stands for the empty string, which is below every non-empty bound; so
    with a [fromDate] supplied the record is rejected by the callback and
    absent from every result, while with only a [toDate] supplied the date
    test passes and the record is kept whenever search and type (or
    method) match: a completed filter then returns it exactly when it was
    in the list and search and method match.  This holds for customer
    activities and for payments. *)
Theorem missing_date_filtered_asymmetrically (S : StringRuntime) (R : DateRuntime)
  (a : CustomerActivity.Activity) (p : PaymentHistory.Payment) :
  CustomerActivity.date a = "" ->
  present (PaymentHistory.paymentDate p) = false ->
  (forall bound, bound <> "" -> slt "" bound = true /\ sgt "" bound = false)
  /\ (forall f, CustomerActivity.fromDate f <> "" ->
        CustomerActivity.keeps f a = Normal (VBool false) /\
        forall l r, CustomerActivity.filterActivities f l = Normal r ->
                    ~ In a r)
  /\ (forall f, CustomerActivity.fromDate f = "" ->
        CustomerActivity.toDate f <> "" ->
        CustomerActivity.matchesDateRange f a = Normal true /\
        CustomerActivity.keeps f a =
          Normal (VBool (CustomerActivity.matchesSearch f a
                         && CustomerActivity.matchesType f a)) /\
        forall l r, CustomerActivity.filterActivities f l = Normal r ->
                    In a l ->
                    CustomerActivity.matchesSearch f a = true ->
                    CustomerActivity.matchesType f a = true ->
                    In a r)
  /\ (forall f, PaymentHistory.fromDate f <> "" ->
        PaymentHistory.matchesDateRange f p = Normal false /\
        forall l r, PaymentHistory.filterPayments f l = Normal r ->
                    ~ In p r)
  /\ (forall f, PaymentHistory.fromDate f = "" ->
        PaymentHistory.toDate f <> "" ->
        PaymentHistory.matchesDateRange f p = Normal true /\
        PaymentHistory.keeps f p =
          Normal (vand (PaymentHistory.matchesSearch f p)
                       (VBool (PaymentHistory.matchesMethod f p))) /\
        forall l r, PaymentHistory.filterPayments f l = Normal r ->
                    (In p r <->
                     In p l /\
                     truthy (PaymentHistory.matchesSearch f p) = true /\
                     PaymentHistory.matchesMethod f p = true)).
Proof.
  intros Ha Hp. split; [|split; [|split; [|split]]].
  - intros bound Hb. apply nonEmpty_true_iff in Hb.
    now rewrite empty_slt, empty_sgt.
  - intros f Hf. apply nonEmpty_true_iff in Hf.
    assert (CustomerActivity.keeps f a = Normal (VBool false)) as Hk.
    { unfold CustomerActivity.keeps.
      rewrite (ActivityFacts.activity_matchesDateRange_undated f a Ha), Hf.
      simpl. now rewrite andb_false_r. }
    split; [exact Hk|].
    intros l r Hr Hin. unfold CustomerActivity.filterActivities in Hr.
    destruct l as [|y l]; [injection Hr as <-; contradiction|].
    destruct (Array_filter_In _ _ _ _ Hr Hin) as [_ [v [Hv Ht]]].
    rewrite Hk in Hv. injection Hv as <-. discriminate.
  - intros f Hf Ht. apply nonEmpty_false_iff in Hf.
    pose proof (ActivityFacts.activity_matchesDateRange_undated f a Ha) as Hd.
    rewrite Hf in Hd. simpl in Hd.
    assert (CustomerActivity.keeps f a =
            Normal (VBool (CustomerActivity.matchesSearch f a
                           && CustomerActivity.matchesType f a))) as Hk.
    { unfold CustomerActivity.keeps. rewrite Hd. simpl.
      now rewrite andb_true_r. }
    split; [exact Hd|]. split; [exact Hk|].
    intros l r Hr Hin Hs Hty. unfold CustomerActivity.filterActivities in Hr.
    destruct l as [|y l]; [contradiction|].
    apply (Array_filter_kept _ _ _ _ _ Hr Hin Hk). simpl. now rewrite Hs, Hty.
  - intros f Hf. apply nonEmpty_true_iff in Hf.
    pose proof (PaymentFacts.payment_matchesDateRange_undated f p Hp) as Hd.
    rewrite Hf in Hd. simpl in Hd.
    split; [exact Hd|].
    intros l r Hr Hin.
    destruct (Array_filter_In _ _ _ _ Hr Hin) as [_ [v [Hv Ht]]].
    unfold PaymentHistory.keeps in Hv. rewrite Hd in Hv. simpl in Hv.
    injection Hv as <-.
    unfold vand in Ht.
    destruct (PaymentHistory.matchesSearch f p) as [[|]|];
      destruct (PaymentHistory.matchesMethod f p); simpl in Ht;
      discriminate.
  - intros f Hf Ht. apply nonEmpty_false_iff in Hf.
    pose proof (PaymentFacts.payment_matchesDateRange_undated f p Hp) as Hd.
    rewrite Hf in Hd. simpl in Hd.
    split; [exact Hd|].
    assert (PaymentHistory.keeps f p =
            Normal (vand (PaymentHistory.matchesSearch f p)
                         (VBool (PaymentHistory.matchesMethod f p)))) as Hk.
    { unfold PaymentHistory.keeps. rewrite Hd. simpl.
      f_equal. unfold vand.
      destruct (PaymentHistory.matchesSearch f p) as [[|]|];
        destruct (PaymentHistory.matchesMethod f p); reflexivity. }
    split; [exact Hk|].
    intros l r Hr. unfold PaymentHistory.filterPayments in Hr.
    rewrite (KeepFacts.Array_filter_In_iff _ l r p _ Hr Hk).
    rewrite KeepFacts.truthy_vand, andb_true_iff. simpl. tauto.
Qed.

Lemma missing_date_filtered_asymmetrically_witness :
  @CustomerActivity.keeps RefString.runtime RefDate.runtime
    (activityFilters "" "all" "2024-01-01" "") undated = Normal (VBool false)
  /\ @CustomerActivity.keeps RefString.runtime RefDate.runtime
       (activityFilters "" "all" "" "2024-12-31") undated
     = Normal (VBool true)
  /\ @PaymentHistory.matchesDateRange RefDate.runtime
       (paymentFilters "" "all" "2024-01-01" "2024-12-31") barePayment
     = Normal false
  /\ @PaymentHistory.matchesDateRange RefDate.runtime
       (paymentFilters "" "all" "" "2024-12-31") barePayment
     = Normal true
  /\ (forall l r,
        @PaymentHistory.filterPayments RefString.runtime RefDate.runtime
          (paymentFilters "" "all" "" "2024-12-31") l = Normal r ->
        (In barePayment r <->
         In barePayment l /\
         truthy (@PaymentHistory.matchesSearch RefString.runtime
                   (paymentFilters "" "all" "" "2024-12-31") barePayment)
           = true /\
         PaymentHistory.matchesMethod
           (paymentFilters "" "all" "" "2024-12-31") barePayment = true)).
Proof.
  destruct (missing_date_filtered_asymmetrically RefString.runtime RefDate.runtime
              undated barePayment eq_refl eq_refl)
    as (_ & Hfrom & Hto & Hpfrom & Hpto).
  split; [|split; [|split; [|split]]].
  - apply (Hfrom (activityFilters "" "all" "2024-01-01" "")). discriminate.
  - apply (Hto (activityFilters "" "all" "" "2024-12-31"));
      [reflexivity | discriminate].
  - apply (Hpfrom (paymentFilters "" "all" "2024-01-01" "2024-12-31")).
    discriminate.
  - apply (Hpto (paymentFilters "" "all" "" "2024-12-31"));
      [reflexivity | discriminate].
  - apply (Hpto (paymentFilters "" "all" "" "2024-12-31"));
      [reflexivity | discriminate].
Defined.

(** C10.  A record all of whose searched fields are absent (a payment with
    neither reference number nor notes, an expense with neither description
    nor receipt number) is never part of a filtered result, whatever the
    search text, the empty one included: the optional-chained match is
    [undefined], which is falsy, not a match-all.  With no date bound set
    the filter completes and drops the record. *)
Theorem absent_search_fields_exclude_record (S : StringRuntime) (R : DateRuntime)
  (p : PaymentHistory.Payment) (x : ExpenseManagement.Expense) :
  PaymentHistory.referenceNumber p = None ->
  PaymentHistory.notes p = None ->
  ExpenseManagement.description x = None ->
  ExpenseManagement.receiptNumber x = None ->
  (forall f, PaymentHistory.matchesSearch f p = VUndefined)
  /\ (forall f l r, PaymentHistory.filterPayments f l = Normal r ->
                    ~ In p r)
  /\ (forall f, PaymentHistory.fromDate f = "" ->
                PaymentHistory.toDate f = "" ->
                PaymentHistory.filterPayments f [p] = Normal [])
  /\ (forall f, ExpenseManagement.matchesSearch f x = VUndefined)
  /\ (forall f l r, ExpenseManagement.filterExpenses f l = Normal r ->
                    ~ In x r)
  /\ (forall f, ExpenseManagement.fromDate f = "" ->
                ExpenseManagement.toDate f = "" ->
                ExpenseManagement.filterExpenses f [x] = Normal []).
Proof.
  intros Hr Hn Hd Hc. split; [|split; [|split; [|split; [|split]]]].
  - intros f. now apply PaymentFacts.payment_matchesSearch_absent.
  - intros f l r Hres Hin.
    destruct (Array_filter_In _ _ _ _ Hres Hin) as [_ [v [Hv Ht]]].
    rewrite (PaymentFacts.payment_keeps_absent f p v Hr Hn Hv) in Ht.
    discriminate.
  - intros f Hf Ht. unfold PaymentHistory.filterPayments. simpl.
    unfold PaymentHistory.keeps.
    rewrite (PaymentFacts.payment_matchesDateRange_unfiltered f p Hf Ht),
      (PaymentFacts.payment_matchesSearch_absent f p Hr Hn).
    reflexivity.
  - intros f. now apply ExpenseFacts.expense_matchesSearch_absent.
  - intros f l r Hres Hin.
    destruct (Array_filter_In _ _ _ _ Hres Hin) as [_ [v [Hv Ht]]].
    rewrite (ExpenseFacts.expense_keeps_absent f x v Hd Hc Hv) in Ht.
    discriminate.
  - intros f Hf Ht. unfold ExpenseManagement.filterExpenses. simpl.
    unfold ExpenseManagement.keeps, ExpenseManagement.matchesDateRange.
    rewrite Hf, Ht, (ExpenseFacts.expense_matchesSearch_absent f x Hd Hc).
    reflexivity.
Qed.

Lemma absent_search_fields_exclude_record_witness :
  @PaymentHistory.matchesSearch RefString.runtime (paymentFilters "" "all" "" "") barePayment
    = VUndefined
  /\ @PaymentHistory.filterPayments RefString.runtime RefDate.runtime
       (paymentFilters "" "all" "" "") [barePayment] = Normal []
  /\ @ExpenseManagement.filterExpenses RefString.runtime RefDate.runtime
       (expenseFilters "" "all" "" "") [bareExpense] = Normal [].
Proof.
  destruct (absent_search_fields_exclude_record RefString.runtime RefDate.runtime
              barePayment bareExpense eq_refl eq_refl eq_refl eq_refl)
    as (Hs & _ & Hp & _ & _ & Hx).
  split; [apply Hs | split; [apply Hp | apply Hx]]; reflexivity.
Defined.

(** An impossible range, [fromDate] after [toDate], admits no day. *)
Lemma impossible_range_admits_no_day (from to day : string) :
  from <> "" -> to <> "" -> sgt from to = true ->
  ~ DateFilterSpec from to day.
Proof.
  intros Hf Ht Hgt. apply nonEmpty_true_iff in Hf, Ht.
  unfold DateFilterSpec, notBefore, notAfter. rewrite Hf, Ht.
  intros [Hlo Hhi].
  assert (String.compare from day <> Gt) as Hlo'.
  { intros H. apply compare_gt_lt in H. contradiction. }
  pose proof (compare_le_trans _ _ _ Hlo' Hhi) as Hft.
  apply sgt_false_iff in Hft. congruence.
Qed.

(** On records whose dates are missing or parse, an impossible range
    empties the customer-activity list, whatever the search text and the
    type filter. *)
Lemma impossible_range_empty_when_dates_parse (S : StringRuntime) (R : DateRuntime)
  (f : CustomerActivity.Filters) (l : list CustomerActivity.Activity) :
  CustomerActivity.fromDate f <> "" -> CustomerActivity.toDate f <> "" ->
  sgt (CustomerActivity.fromDate f) (CustomerActivity.toDate f) = true ->
  Forall (fun a => CustomerActivity.date a = "" \/
                   exists d, isoDay (CustomerActivity.date a) = Some d) l ->
  CustomerActivity.filterActivities f l = Normal [].
Proof.
  intros Hf Ht Hgt Hall. unfold CustomerActivity.filterActivities.
  destruct l as [|y l]; [reflexivity|].
  apply Array_filter_all_falsy. revert Hall. apply Forall_impl.
  intros a Ha. exists (VBool false). split; [|reflexivity].
  unfold CustomerActivity.keeps.
  destruct (string_dec (CustomerActivity.date a) "") as [He|Hne].
  - rewrite (ActivityFacts.activity_matchesDateRange_undated f a He).
    apply nonEmpty_true_iff in Hf. rewrite Hf. simpl.
    now rewrite andb_false_r.
  - destruct Ha as [He|[d Hd]]; [contradiction|].
    destruct (ActivityFacts.activity_matchesDateRange_parsed f a d Hne Hd)
      as [keep [Hk Hspec]].
    rewrite Hk. simpl. destruct keep.
    + exfalso.
      apply (impossible_range_admits_no_day _ _ d Hf Ht Hgt).
      now apply Hspec.
    + now rewrite andb_false_r.
Qed.

(** The range helper of lib/utils.ts answers [false] on an impossible
    range, for every day. *)
Lemma inISODateRange_impossible (day from to : string) :
  sgt from to = true -> Utils.inISODateRange day from to = false.
Proof.
  intros Hgt. unfold Utils.inISODateRange.
  destruct (nonEmpty day), (nonEmpty from) eqn:Hf, (nonEmpty to) eqn:Ht;
    simpl; try reflexivity.
  destruct (sge day from && sle day to) eqn:Hin; [|reflexivity].
  apply andb_true_iff in Hin as [Hlo Hhi].
  apply sge_true_iff in Hlo. apply sle_true_iff in Hhi.
  exfalso. apply (impossible_range_admits_no_day from to day).
  - now apply nonEmpty_true_iff.
  - now apply nonEmpty_true_iff.
  - exact Hgt.
  - unfold DateFilterSpec. now rewrite Hf, Ht.
Qed.

(** C3.  The filter is not total: a record whose date is a non-empty
    string that does not parse makes the customer-activity filter, and the
    expense filter alike, throw a RangeError as soon as one date bound is
    set, wherever the record sits in the list. *)
Theorem unparseable_date_makes_filter_throw (S : StringRuntime) (R : DateRuntime)
  (a : CustomerActivity.Activity) (x : ExpenseManagement.Expense) :
  CustomerActivity.date a <> "" ->
  isoDay (CustomerActivity.date a) = None ->
  ExpenseManagement.expenseDate x <> "" ->
  isoDay (ExpenseManagement.expenseDate x) = None ->
  (forall f l,
      CustomerActivity.fromDate f <> "" \/ CustomerActivity.toDate f <> "" ->
      In a l ->
      CustomerActivity.filterActivities f l = Throw RangeError)
  /\ (forall f l,
      ExpenseManagement.fromDate f <> "" \/
      ExpenseManagement.toDate f <> "" ->
      In x l ->
      ExpenseManagement.filterExpenses f l = Throw RangeError).
Proof.
  intros Ha Hbad Hx Hxbad. split; intros f l Hany Hin.
  - now apply ActivityFacts.filterActivities_throws with (a := a).
  - unfold ExpenseManagement.filterExpenses.
    apply Array_filter_throws with (x := x); [exact Hin|].
    now apply ExpenseFacts.expense_keeps_throws.
Qed.

Lemma unparseable_date_makes_filter_throw_witness :
  @CustomerActivity.filterActivities RefString.runtime RefDate.runtime
    (activityFilters "" "all" "2024-01-01" "") [abcTransport; misdated]
  = Throw RangeError
  /\ @ExpenseManagement.filterExpenses RefString.runtime RefDate.runtime
       (expenseFilters "" "all" "" "2024-12-31") [misdatedExpense; rent]
     = Throw RangeError.
Proof.
  assert (CustomerActivity.date misdated <> "") as Ha by discriminate.
  assert (ExpenseManagement.expenseDate misdatedExpense <> "") as Hx
    by discriminate.
  destruct (unparseable_date_makes_filter_throw RefString.runtime RefDate.runtime
              misdated misdatedExpense Ha eq_refl Hx eq_refl)
    as [Hact Hexp].
  split.
  - apply Hact.
    + left. discriminate.
    + right. left. reflexivity.
  - apply Hexp.
    + right. discriminate.
    + left. reflexivity.
Defined.

(** C5.  With [fromDate] after [toDate] the customer-activity filter does
    not return the empty list on every input: on the activities
    [abcTransport; misdated], the second dated "N/A", it throws a
    RangeError. *)
Theorem impossible_range_raises_on_unparseable_date :
  sgt "2024-03-01" "2024-01-01" = true
  /\ @CustomerActivity.filterActivities RefString.runtime RefDate.runtime
       (activityFilters "" "all" "2024-03-01" "2024-01-01")
       [abcTransport; misdated]
     = Throw RangeError.
Proof. split; reflexivity. Qed.

(** ** The filtering effect on the heap *)

Module StoreFacts.
Import StringFacts FilterFacts.





Section WithRuntime.
Context {S : StringRuntime} {R : DateRuntime}.





End WithRuntime.

End StoreFacts.



(* ================================================================== *)
(** * Totals *)
(* ================================================================== *)

Lemma totalOfType_snoc (t : string) (l : list CustomerActivity.Activity)
  (a : CustomerActivity.Activity) :
  CustomerActivity.totalOfType t (l ++ [a]) =
  if streq (CustomerActivity.type a) t
  then (CustomerActivity.totalOfType t l + CustomerActivity.amount a)%float
  else CustomerActivity.totalOfType t l.
Proof.
  unfold CustomerActivity.totalOfType. rewrite List.filter_app. simpl.
  destruct (streq (CustomerActivity.type a) t).
  - now rewrite fold_left_app.
  - now rewrite app_nil_r.
Qed.

(** C4, as the code has it.  Totals are accumulated in binary64 floating
    point: a total starts at 0 and each record adds its amount (read by
    [parseFloat] where the amount is a string) with one floating-point
    addition; nothing is rounded to two decimals on the way. *)
Theorem totals_accumulate_in_binary64 (N : NumberRuntime) :
  ExpenseManagement.totalExpenses [] = 0%float
  /\ (forall l e,
        ExpenseManagement.totalExpenses (l ++ [e]) =
        (ExpenseManagement.totalExpenses l
         + parseFloat (ExpenseManagement.amountOrZero e))%float)
  /\ CustomerActivity.totalSales [] = 0%float
  /\ (forall l a,
        CustomerActivity.totalSales (l ++ [a]) =
        if streq (CustomerActivity.type a) "sale"
        then (CustomerActivity.totalSales l + CustomerActivity.amount a)%float
        else CustomerActivity.totalSales l)
  /\ CustomerActivity.totalPayments [] = 0%float
  /\ (forall l a,
        CustomerActivity.totalPayments (l ++ [a]) =
        if streq (CustomerActivity.type a) "payment"
        then (CustomerActivity.totalPayments l
              + CustomerActivity.amount a)%float
        else CustomerActivity.totalPayments l).
Proof.
  repeat split.
  - intros l e. unfold ExpenseManagement.totalExpenses.
    now rewrite fold_left_app.
  - intros l a. apply totalOfType_snoc.
  - intros l a. apply totalOfType_snoc.
Qed.

(** C4, as stated, fails.  The sales 0.1 and 0.2 do not total 0.3, and the
    total of 0.1, 0.2 and 0.3 depends on the order of the records: the
    intermediate values are binary fractions, not exact decimals. *)
Lemma totals_are_not_exact_decimals :
  (CustomerActivity.totalSales [saleOf tenth; saleOf fifth]
   =? threeTenths)%float = false
  /\ (CustomerActivity.totalSales [saleOf tenth; saleOf fifth]
      =? 0x1.3333333333334p-2)%float = true
  /\ (CustomerActivity.totalSales
        [saleOf tenth; saleOf fifth; saleOf threeTenths]
      =? CustomerActivity.totalSales
           [saleOf threeTenths; saleOf fifth; saleOf tenth])%float = false.
Proof. repeat split; vm_compute; reflexivity. Qed.

(* ================================================================== *)
(** * Running balance *)
(* ================================================================== *)

Module BalanceFacts.
Import Ledger.
Local Open Scope Z_scope.

Lemma sumSigned_app (xs ys : list LedgerEvent) :
  sumSigned (xs ++ ys)%list = sumSigned xs + sumSigned ys.
Proof.
  unfold sumSigned. induction xs as [|x xs IH]; simpl; [reflexivity|].
  rewrite IH. lia.
Qed.

Lemma runningBalances_length (events : list LedgerEvent) :
  forall opening,
    List.length (runningBalances opening events) = List.length events.
Proof.
  induction events as [|e rest IH]; intros opening; simpl;
    [reflexivity | now rewrite IH].
Qed.

(** The snapshot at position [i] is the snapshot of event [i]. *)
Lemma runningBalances_afterEvent (events : list LedgerEvent) :
  forall opening i,
    nth_error (map afterEvent (runningBalances opening events)) i
    = nth_error events i.
Proof.
  induction events as [|e rest IH]; intros opening [|i]; simpl;
    try reflexivity.
  apply IH.
Qed.

(** The balance after the first [i] events is the opening balance plus
    their signed amounts. *)
Lemma balanceAt_prefix (events : list LedgerEvent) :
  forall opening i,
    (i <= List.length events)%nat ->
    balanceAt opening events i = opening + sumSigned (firstn i events).
Proof.
  induction events as [|e rest IH]; intros opening [|i] Hi; simpl in *;
    try lia.
  destruct i as [|k].
  - simpl. unfold signedAmount. lia.
  - assert (S k <= List.length rest)%nat as Hk by lia.
    specialize (IH (opening + signedAmount e) (S k) Hk).
    unfold balanceAt in IH. rewrite IH.
    unfold sumSigned. simpl. lia.
Qed.

Lemma firstn_snoc (events : list LedgerEvent) :
  forall i e, nth_error events i = Some e ->
              firstn (S i) events = (firstn i events ++ [e])%list.
Proof.
  induction events as [|x rest IH]; intros [|i] e H; simpl in *;
    try discriminate.
  - now injection H as ->.
  - f_equal. now apply IH.
Qed.

Lemma last_balance (events : list LedgerEvent) :
  forall opening d,
    events <> [] ->
    last (map runningBalance (runningBalances opening events)) d
    = opening + sumSigned events.
Proof.
  induction events as [|e rest IH]; intros opening d Hne; [contradiction|].
  destruct rest as [|e2 rest'].
  - simpl. lia.
  - change (runningBalances opening (e :: e2 :: rest'))
      with ({| afterEvent := e;
               runningBalance := opening + signedAmount e |}
            :: runningBalances (opening + signedAmount e) (e2 :: rest')).
    remember (e2 :: rest') as tl eqn:Htl.
    assert (tl <> []) as Hnt by (subst tl; discriminate).
    specialize (IH (opening + signedAmount e) d Hnt).
    cbn [map runningBalance].
    destruct (map runningBalance
                (runningBalances (opening + signedAmount e) tl))
      as [|b bs] eqn:Hm.
    + subst tl. simpl in Hm. discriminate.
    + change (last (opening + signedAmount e :: b :: bs) d)
        with (last (b :: bs) d).
      rewrite IH. unfold sumSigned. simpl. lia.
Qed.

End BalanceFacts.

(** C1.  For events in chronological order and any opening balance the
    calculator returns one snapshot per event, in the events' order; the
    balance after event [i] is the balance before it plus the signed
    amount of event [i], the balance before the first event being the
    opening balance; and for a non-empty sequence the last running balance
    is the opening balance plus the sum of all signed amounts (with the
    default opening balance 0: that sum); for an empty sequence the
    balance is the opening balance. *)
Theorem running_balance_fold_correct (opening : Ledger.Decimal)
  (events : list Ledger.LedgerEvent) :
  Ledger.chronological events ->
  List.length (Ledger.runningBalances opening events) = List.length events
  /\ (forall i e,
        nth_error events i = Some e ->
        nth_error (map Ledger.afterEvent
                     (Ledger.runningBalances opening events)) i = Some e
        /\ Ledger.balanceAt opening events (S i)
           = (Ledger.balanceAt opening events i + Ledger.signedAmount e)%Z)
  /\ Ledger.balanceAt opening events 0 = opening
  /\ (events <> [] ->
      forall d,
        last (map Ledger.runningBalance
                (Ledger.runningBalances opening events)) d
        = (opening + Ledger.sumSigned events)%Z)
  /\ (events <> [] ->
      forall d,
        last (map Ledger.runningBalance
                (Ledger.runningBalances 0%Z events)) d
        = Ledger.sumSigned events)
  /\ Ledger.closingBalance opening events
     = (opening + Ledger.sumSigned events)%Z.
Proof.
  intros _. split; [|split; [|split; [|split; [|split]]]].
  - apply BalanceFacts.runningBalances_length.
  - intros i e He. split.
    + now rewrite BalanceFacts.runningBalances_afterEvent.
    + assert (i < List.length events)%nat as Hi
        by (apply nth_error_Some; congruence).
      rewrite !BalanceFacts.balanceAt_prefix by lia.
      rewrite (BalanceFacts.firstn_snoc events i e He),
        BalanceFacts.sumSigned_app.
      change (Ledger.sumSigned [e]) with (Ledger.signedAmount e + 0)%Z.
      lia.
  - reflexivity.
  - intros Hne d. now apply BalanceFacts.last_balance.
  - intros Hne d. now rewrite BalanceFacts.last_balance.
  - unfold Ledger.closingBalance. destruct events as [|e rest].
    + simpl. lia.
    + apply BalanceFacts.last_balance. discriminate.
Qed.

Lemma running_balance_fold_correct_witness :
  Ledger.chronological ledgerExample
  /\ map Ledger.runningBalance (Ledger.runningBalances 0%Z ledgerExample)
     = [10000; 6000; 8500]%Z
  /\ last (map Ledger.runningBalance
             (Ledger.runningBalances 0%Z ledgerExample)) 0%Z
     = (0 + Ledger.sumSigned ledgerExample)%Z.
Proof.
  assert (Ledger.chronological ledgerExample) as Hsorted.
  { unfold Ledger.chronological, ledgerExample.
    repeat constructor; simpl; lia. }
  split; [exact Hsorted|]. split; [reflexivity|].
  destruct (running_balance_fold_correct 0%Z ledgerExample Hsorted)
    as (_ & _ & _ & Hlast & _ & _).
  apply Hlast. discriminate.
Defined.

(* ================================================================== *)
(** * Aging buckets *)
(* ================================================================== *)

Module AgingFacts.
Import Ledger.
Local Open Scope Z_scope.

Lemma bucketOf_inRange (age : Z) (l : BucketLabel) :
  bucketOf age = l <-> inRange l age.
Proof.
  unfold bucketOf.
  destruct (Z.ltb_spec age 30); [|destruct (Z.ltb_spec age 60);
    [|destruct (Z.ltb_spec age 90)]];
    destruct l; simpl; split; intros; try discriminate; try reflexivity;
    lia.
Qed.

Lemma inRange_unique (age : Z) (l l' : BucketLabel) :
  inRange l age -> inRange l' age -> l = l'.
Proof.
  intros H H'. apply bucketOf_inRange in H, H'. congruence.
Qed.

Lemma itemsOf_In (l : BucketLabel) (items : list Outstanding)
  (o : Outstanding) :
  In o (itemsOf l items) <-> In o items /\ inRange l (ageInDays o).
Proof.
  unfold itemsOf. rewrite List.filter_In, <- bucketOf_inRange.
  destruct (bucketOf (ageInDays o)), l; simpl; intuition congruence.
Qed.

(** What one more item does to a bucket. *)
Lemma place_bucket (acc : Buckets) (o : Outstanding) (l : BucketLabel) :
  bucket (place acc o) l =
  if sameLabel (bucketOf (ageInDays o)) l
  then addTo (bucket acc l) (outstandingAmount o)
  else bucket acc l.
Proof.
  unfold place. destruct (bucketOf (ageInDays o)), l; reflexivity.
Qed.

(** The fold, started from any accumulator. *)
Lemma fold_place_bucket (items : list Outstanding) :
  forall acc l,
    total (bucket (fold_left place items acc) l)
    = total (bucket acc l) + sumAmounts (itemsOf l items)
    /\ count (bucket (fold_left place items acc) l)
       = (count (bucket acc l) + List.length (itemsOf l items))%nat.
Proof.
  induction items as [|o items IH]; intros acc l; simpl.
  - split; lia.
  - destruct (IH (place acc o) l) as [Ht Hc]. rewrite Ht, Hc.
    rewrite place_bucket.
    destruct (sameLabel (bucketOf (ageInDays o)) l); simpl; split; lia.
Qed.

(** The four item lists cover the input without overlap. *)
Lemma itemsOf_cover (items : list Outstanding) :
  sumAmounts (itemsOf current items) + sumAmounts (itemsOf days30_59 items)
  + sumAmounts (itemsOf days60_89 items)
  + sumAmounts (itemsOf days90plus items)
  = sumAmounts items
  /\ (List.length (itemsOf current items)
      + List.length (itemsOf days30_59 items)
      + List.length (itemsOf days60_89 items)
      + List.length (itemsOf days90plus items)
      = List.length items)%nat.
Proof.
  induction items as [|o items [IHs IHl]]; simpl; [split; reflexivity|].
  destruct (bucketOf (ageInDays o)); simpl; split; lia.
Qed.

End AgingFacts.

(** C2.  The bucketizer partitions its input.  An age belongs to exactly
    one bucket: current when it is below 30 (negative ages included),
    30-59, 60-89, or the open-ended 90+.  Each bucket holds the sum and
    the number of the items whose age is in its range, and the four bucket
    amounts add up to the sum of all input amounts, the four counts to the
    number of items: nothing is lost, nothing counted twice. *)
Theorem aging_buckets_partition (items : list Ledger.Outstanding) :
  (forall age l, Ledger.bucketOf age = l <-> Ledger.inRange l age)
  /\ (forall age l l',
        Ledger.inRange l age -> Ledger.inRange l' age -> l = l')
  /\ (forall age, (age < 0)%Z -> Ledger.bucketOf age = Ledger.current)
  /\ (forall l o, In o (Ledger.itemsOf l items) <->
                  In o items /\ Ledger.inRange l (Ledger.ageInDays o))
  /\ (forall l,
        Ledger.total (Ledger.bucket (Ledger.bucketize items) l)
        = Ledger.sumAmounts (Ledger.itemsOf l items)
        /\ Ledger.count (Ledger.bucket (Ledger.bucketize items) l)
           = List.length (Ledger.itemsOf l items))
  /\ (Ledger.total (Ledger.bCurrent (Ledger.bucketize items))
      + Ledger.total (Ledger.b30_59 (Ledger.bucketize items))
      + Ledger.total (Ledger.b60_89 (Ledger.bucketize items))
      + Ledger.total (Ledger.b90plus (Ledger.bucketize items))
      = Ledger.sumAmounts items)%Z
  /\ Ledger.count (Ledger.bCurrent (Ledger.bucketize items))
     + Ledger.count (Ledger.b30_59 (Ledger.bucketize items))
     + Ledger.count (Ledger.b60_89 (Ledger.bucketize items))
     + Ledger.count (Ledger.b90plus (Ledger.bucketize items))
     = List.length items.
Proof.
  assert (forall l,
        Ledger.total (Ledger.bucket (Ledger.bucketize items) l)
        = Ledger.sumAmounts (Ledger.itemsOf l items)
        /\ Ledger.count (Ledger.bucket (Ledger.bucketize items) l)
           = List.length (Ledger.itemsOf l items)) as Hb.
  { intros l. unfold Ledger.bucketize.
    destruct (AgingFacts.fold_place_bucket items Ledger.emptyBuckets l)
      as [Ht Hc].
    rewrite Ht, Hc. destruct l; simpl; split; lia. }
  destruct (AgingFacts.itemsOf_cover items) as [Hsum Hlen].
  split; [exact AgingFacts.bucketOf_inRange|].
  split; [exact AgingFacts.inRange_unique|].
  split; [intros age Hneg; apply AgingFacts.bucketOf_inRange; simpl; lia|].
  split; [intros l o; apply AgingFacts.itemsOf_In|].
  split; [exact Hb|].
  pose proof (Hb Ledger.current) as [H1 C1].
  pose proof (Hb Ledger.days30_59) as [H2 C2].
  pose proof (Hb Ledger.days60_89) as [H3 C3].
  pose proof (Hb Ledger.days90plus) as [H4 C4].
  simpl in *. split; lia.
Qed.

(** The worked example of the specification: the buckets of 500.00 at 10
    days, 300.00 at 45 days and 200.00 at 95 days. *)
Lemma aging_buckets_partition_witness :
  Ledger.bucketize agingExample =
  {| Ledger.bCurrent := {| Ledger.total := 50000%Z; Ledger.count := 1 |};
     Ledger.b30_59 := {| Ledger.total := 30000%Z; Ledger.count := 1 |};
     Ledger.b60_89 := {| Ledger.total := 0%Z; Ledger.count := 0 |};
     Ledger.b90plus := {| Ledger.total := 20000%Z; Ledger.count := 1 |} |}
  /\ (Ledger.total (Ledger.bCurrent (Ledger.bucketize agingExample))
      + Ledger.total (Ledger.b30_59 (Ledger.bucketize agingExample))
      + Ledger.total (Ledger.b60_89 (Ledger.bucketize agingExample))
      + Ledger.total (Ledger.b90plus (Ledger.bucketize agingExample))
      = Ledger.sumAmounts agingExample)%Z
  /\ Ledger.bucketOf (-3) = Ledger.current
  /\ Ledger.bucketOf 29 = Ledger.current
  /\ Ledger.bucketOf 30 = Ledger.days30_59
  /\ Ledger.bucketOf 90 = Ledger.days90plus.
Proof.
  destruct (aging_buckets_partition agingExample)
    as (Hrange & _ & Hneg & _ & _ & Hsum & _).
  split; [reflexivity|]. split; [exact Hsum|].
  split; [apply Hneg; lia|].
  repeat split; apply Hrange; simpl; lia.
Defined.

(* ================================================================== *)
(** * Further properties of the pages *)
(* ================================================================== *)

Module FilterMore.

Section Generic.
Context {A : Type} (cb : A -> Completion Value).

(** A completed call has asked every element, and kept those the callback
    accepted. *)
Lemma Array_filter_accepts (l r : list A) :
  Array_filter cb l = Normal r ->
  r = List.filter (fun x => accepts (cb x)) l /\
  Forall (fun x => exists v, cb x = Normal v) l.
Proof.
  revert r. induction l as [|x l IH]; simpl; intros r Hr.
  - injection Hr as <-. split; [reflexivity | constructor].
  - destruct (cb x) as [v|e] eqn:Hx; simpl in Hr; [|discriminate].
    destruct (Array_filter cb l) as [r'|e]; simpl in Hr; [|discriminate].
    injection Hr as <-. destruct (IH r' eq_refl) as [-> Hall].
    split; [reflexivity|]. constructor; [now exists v | exact Hall].
Qed.

(** The call completes when the callback completes on every element. *)
Lemma Array_filter_completes (l : list A) :
  Forall (fun x => exists v, cb x = Normal v) l ->
  Array_filter cb l = Normal (List.filter (fun x => accepts (cb x)) l).
Proof.
  induction 1 as [|x l [v Hx] _ IH]; simpl; [reflexivity|].
  now rewrite Hx, IH.
Qed.

(** It aborts exactly when the callback throws on some element. *)
Lemma Array_filter_throw_iff (l : list A) :
  Array_filter cb l = Throw RangeError <->
  exists x, In x l /\ cb x = Throw RangeError.
Proof.
  split.
  - induction l as [|x l IH]; simpl; [discriminate|].
    destruct (cb x) as [v|[]] eqn:Hx; simpl.
    + destruct (Array_filter cb l) as [r'|[]]; simpl; [discriminate|].
      intros _. destruct (IH eq_refl) as [y [Hy Hcb]].
      exists y. split; [now right | exact Hcb].
    + intros _. exists x. split; [now left | exact Hx].
  - intros [x [Hin Hx]]. now apply FilterFacts.Array_filter_throws with x.
Qed.

End Generic.

Lemma filter_Subsequence {A : Type} (p : A -> bool) (l : list A) :
  Subsequence (List.filter p l) l.
Proof.
  induction l as [|x l IH]; simpl; [constructor|].
  destruct (p x); now constructor.
Qed.

Lemma Subsequence_length {A : Type} (xs ys : list A) :
  Subsequence xs ys -> List.length xs <= List.length ys.
Proof. induction 1; simpl; lia. Qed.

Lemma Subsequence_In {A : Type} (xs ys : list A) (x : A) :
  Subsequence xs ys -> In x xs -> In x ys.
Proof.
  induction 1; simpl; [contradiction | tauto |].
  intros [->|H']; [now left | right; auto].
Qed.

Lemma Subsequence_NoDup {A : Type} (xs ys : list A) :
  Subsequence xs ys -> NoDup ys -> NoDup xs.
Proof.
  induction 1; intros Hnd; [constructor | |].
  - inversion Hnd; auto.
  - inversion Hnd as [|? ? Hnotin Hnd']; subst. constructor; [|auto].
    intros Hin. apply Hnotin. eapply Subsequence_In; eauto.
Qed.

End FilterMore.

Module ActivityMore.
Import StringFacts FilterFacts FilterMore CustomerActivity.

Section WithRuntime.
Context {S : StringRuntime} {R : DateRuntime}.

(** When the callback throws. *)
Lemma keeps_throw_iff (f : Filters) (a : Activity) :
  keeps f a = Throw RangeError <->
  (fromDate f <> "" \/ toDate f <> "") /\
  date a <> "" /\ isoDay (date a) = None.
Proof.
  split.
  - unfold keeps, matchesDateRange, Date_isoDay.
    destruct (nonEmpty (fromDate f)) eqn:Hf;
      destruct (nonEmpty (toDate f)) eqn:Ht; simpl;
      try discriminate;
      (destruct (nonEmpty (date a)) eqn:Hd; simpl; [|discriminate]);
      (destruct (isoDay (date a)) eqn:Hp; simpl; [discriminate|]);
      intros _; apply nonEmpty_true_iff in Hd;
      (split; [|split; [exact Hd | reflexivity]]).
    + left. now apply nonEmpty_true_iff.
    + left. now apply nonEmpty_true_iff.
    + right. now apply nonEmpty_true_iff.
  - intros [Hany [Hd Hp]]. now apply ActivityFacts.activity_keeps_throws.
Qed.

(** What the callback answers when it completes. *)
Lemma keeps_normal_spec (f : Filters) (a : Activity) (v : Value) :
  keeps f a = Normal v ->
  (truthy v = true <->
   matchesSearch f a = true /\ matchesType f a = true /\
   DateFilterSpec (fromDate f) (toDate f) (activityDay a)).
Proof.
  unfold keeps, matchesDateRange, activityDay, Date_isoDay.
  destruct (nonEmpty (fromDate f) || nonEmpty (toDate f)) eqn:Hany.
  - destruct (nonEmpty (date a)) eqn:Hd.
    + destruct (isoDay (date a)) as [d|] eqn:Hp; simpl; [|discriminate].
      intros [= <-]. simpl. rewrite !andb_true_iff.
      rewrite (ActivityFacts.range_test_spec (fromDate f) (toDate f) d).
      tauto.
    + simpl. intros [= <-]. simpl. rewrite !andb_true_iff.
      rewrite (ActivityFacts.range_test_spec (fromDate f) (toDate f) "").
      tauto.
  - apply orb_false_elim in Hany as [Hf Ht]. simpl. intros [= <-]. simpl.
    unfold DateFilterSpec. rewrite Hf, Ht, !andb_true_iff. tauto.
Qed.

End WithRuntime.

End ActivityMore.

Module ActivityPageFacts.
Import StringFacts FilterFacts FilterMore ActivityMore CustomerActivity
  ActivityPage.

Lemma includes_empty (s : string) : includes s "" = true.
Proof. rewrite includes_unfold. now destruct s. Qed.

Lemma matchesSearch_empty (S : StringRuntime) (f : Filters) (a : Activity) :
  searchTerm f = "" -> matchesSearch f a = true.
Proof.
  intros H. unfold matchesSearch.
  rewrite H, CaseFacts.toLowerCase_empty.
  now rewrite includes_empty.
Qed.

Section WithRuntime.
Context {S : StringRuntime} {R : DateRuntime}.

Lemma filterActivities_as_filter (f : Filters) (l : list Activity) :
  filterActivities f l = Array_filter (keeps f) l.
Proof. now destruct l. Qed.

(** Without a date bound no date is parsed. *)
Lemma keeps_unbounded (f : Filters) (a : Activity) :
  fromDate f = "" -> toDate f = "" ->
  keeps f a = Normal (VBool (matchesSearch f a && matchesType f a)).
Proof.
  intros Hf Ht. unfold keeps, matchesDateRange. rewrite Hf, Ht. simpl.
  now rewrite andb_true_r.
Qed.

(** The date test does not look at the type filter. *)
Lemma matchesDateRange_setTypeFilter (f : Filters) (t : string)
  (a : Activity) :
  matchesDateRange (setTypeFilter f t) a = matchesDateRange f a.
Proof. reflexivity. Qed.

(** Filtering with a second callback that is the first one narrowed by a
    test [q] is filtering the first result by [q]. *)
Lemma Array_filter_narrowed (cb1 cb2 : Activity -> Completion Value)
  (q : Activity -> bool) (l : list Activity) :
  (forall a, cb1 a = v <- cb2 a ;; Normal (VBool (truthy v && q a))) ->
  Array_filter cb1 l = cmap (List.filter q) (Array_filter cb2 l).
Proof.
  intros Hcb. induction l as [|a l IH]; simpl; [reflexivity|].
  rewrite Hcb, IH. unfold cmap.
  destruct (cb2 a) as [v|e]; simpl; [|reflexivity].
  destruct (Array_filter cb2 l) as [r|e]; simpl; [|reflexivity].
  destruct (truthy v); simpl; [|reflexivity].
  now destruct (q a).
Qed.

Lemma keeps_setTypeFilter (f : Filters) (t : string) (a : Activity) :
  t <> "all" ->
  keeps (setTypeFilter f t) a =
  v <- keeps (setTypeFilter f "all") a ;;
  Normal (VBool (truthy v && streq (type a) t)).
Proof.
  intros Ht. unfold keeps.
  rewrite !matchesDateRange_setTypeFilter.
  unfold matchesType, matchesSearch, streq. simpl.
  apply String.eqb_neq in Ht. rewrite Ht.
  destruct (matchesDateRange f a) as [md|e]; simpl; [|reflexivity].
  do 2 f_equal.
  destruct (_ || _ || _), md, (type a =? t)%string; reflexivity.
Qed.

Lemma filterActivities_setTypeFilter (f : Filters) (t : string)
  (l : list Activity) :
  t <> "all" ->
  filterActivities (setTypeFilter f t) l =
  cmap (List.filter (fun a => streq (type a) t))
    (filterActivities (setTypeFilter f "all") l).
Proof.
  intros Ht. rewrite !filterActivities_as_filter.
  apply Array_filter_narrowed. intros a. now apply keeps_setTypeFilter.
Qed.

End WithRuntime.

Lemma filter_filter_same {A : Type} (p : A -> bool) (l : list A) :
  List.filter p (List.filter p l) = List.filter p l.
Proof.
  induction l as [|x l IH]; simpl; [reflexivity|].
  destruct (p x) eqn:Hp; simpl; [now rewrite Hp, IH | exact IH].
Qed.

Lemma filter_filter_disjoint {A : Type} (p q : A -> bool) (l : list A) :
  (forall x, p x = true -> q x = false) ->
  List.filter q (List.filter p l) = [].
Proof.
  intros Hpq. induction l as [|x l IH]; simpl; [reflexivity|].
  destruct (p x) eqn:Hp; simpl; [now rewrite (Hpq x Hp) | exact IH].
Qed.

End ActivityPageFacts.

Import FilterMore ActivityMore ActivityPageFacts.

(** X1.  The customer-activity filter fails in exactly one situation: a
    date bound is set and some activity of the list carries a non-empty
    date that does not parse.  In every other situation it completes. *)
Theorem activity_filter_fails_exactly_on_unparseable_date
  (S : StringRuntime) (R : DateRuntime) (f : CustomerActivity.Filters)
  (l : list CustomerActivity.Activity) :
  (CustomerActivity.filterActivities f l = Throw RangeError <->
   (CustomerActivity.fromDate f <> "" \/ CustomerActivity.toDate f <> "")
   /\ exists a, In a l /\ CustomerActivity.date a <> "" /\
                isoDay (CustomerActivity.date a) = None)
  /\ ((exists r, CustomerActivity.filterActivities f l = Normal r) <->
      ~ ((CustomerActivity.fromDate f <> "" \/
          CustomerActivity.toDate f <> "")
         /\ exists a, In a l /\ CustomerActivity.date a <> "" /\
                      isoDay (CustomerActivity.date a) = None)).
Proof.
  assert (CustomerActivity.filterActivities f l = Throw RangeError <->
   (CustomerActivity.fromDate f <> "" \/ CustomerActivity.toDate f <> "")
   /\ exists a, In a l /\ CustomerActivity.date a <> "" /\
                isoDay (CustomerActivity.date a) = None) as Hthrow.
  { rewrite filterActivities_as_filter, Array_filter_throw_iff. split.
    - intros [a [Hin Ha]]. apply keeps_throw_iff in Ha as [Hany Hbad].
      split; [exact Hany | now exists a].
    - intros [Hany [a [Hin Hbad]]]. exists a. split; [exact Hin|].
      now apply keeps_throw_iff. }
  split; [exact Hthrow|].
  rewrite <- Hthrow.
  destruct (CustomerActivity.filterActivities f l) as [r|[]].
  - split; [discriminate | intros _; now exists r].
  - split; [intros [r Hr]; discriminate | intros H; now contradiction H].
Qed.

(** X2.  Whenever the customer-activity filter completes, its result is the
    list of activities with some of them left out and the order kept, and
    it holds exactly the activities whose search and type tests succeed and
    whose day (the empty string when the date is missing) satisfies the
    date contract. *)
Theorem activity_filter_result (S : StringRuntime) (R : DateRuntime)
  (f : CustomerActivity.Filters) (l r : list CustomerActivity.Activity) :
  CustomerActivity.filterActivities f l = Normal r ->
  Subsequence r l
  /\ List.length r <= List.length l
  /\ (forall a, In a r <->
        In a l /\
        CustomerActivity.matchesSearch f a = true /\
        CustomerActivity.matchesType f a = true /\
        DateFilterSpec (CustomerActivity.fromDate f)
          (CustomerActivity.toDate f) (activityDay a)).
Proof.
  rewrite filterActivities_as_filter. intros Hr.
  destruct (Array_filter_accepts _ _ _ Hr) as [-> Hall].
  split; [apply filter_Subsequence|].
  split; [apply Subsequence_length, filter_Subsequence|].
  intros a. rewrite List.filter_In. split.
  - intros [Hin Hacc]. split; [exact Hin|].
    rewrite Forall_forall in Hall. destruct (Hall a Hin) as [v Hv].
    rewrite Hv in Hacc. simpl in Hacc.
    now apply (keeps_normal_spec f a v Hv).
  - intros [Hin Hspec]. split; [exact Hin|].
    rewrite Forall_forall in Hall. destruct (Hall a Hin) as [v Hv].
    rewrite Hv. simpl. now apply (keeps_normal_spec f a v Hv).
Qed.

Lemma activity_filter_result_witness :
  Subsequence [abcTransport] [abcTransport; xyzCo; undated]
  /\ (In undated [abcTransport] <->
      In undated [abcTransport; xyzCo; undated] /\
      @CustomerActivity.matchesSearch RefString.runtime
        (activityFilters "abc" "all" "2024-01-01" "2024-12-31") undated
      = true /\
      CustomerActivity.matchesType
        (activityFilters "abc" "all" "2024-01-01" "2024-12-31") undated
      = true /\
      DateFilterSpec "2024-01-01" "2024-12-31"
        (@activityDay RefDate.runtime undated)).
Proof.
  assert (@CustomerActivity.filterActivities RefString.runtime RefDate.runtime
            (activityFilters "abc" "all" "2024-01-01" "2024-12-31")
            [abcTransport; xyzCo; undated] = Normal [abcTransport]) as Hrun
    by reflexivity.
  destruct (activity_filter_result RefString.runtime RefDate.runtime _ _ _ Hrun)
    as (Hsub & _ & Hin).
  split; [exact Hsub | exact (Hin undated)].
Defined.

Lemma Array_filter_all_true {A : Type} (cb : A -> Completion Value)
  (l : list A) :
  (forall x, cb x = Normal (VBool true)) -> Array_filter cb l = Normal l.
Proof.
  intros Hcb. induction l as [|x l IH]; simpl; [reflexivity|].
  now rewrite Hcb, IH.
Qed.

(** X3.  Clearing the filters and letting the effect run shows every
    activity again, in the original order, and cannot fail: with no date
    bound set no date is parsed, so even activities with unparseable dates
    are listed. *)
Theorem clear_filters_restores_all_activities (S : StringRuntime) (R : DateRuntime)
  (s : CustomerActivity.State) :
  CustomerActivity.runEffect (ActivityPage.handleClearFilters s) =
  Normal
    (CustomerActivity.setFilteredActivities
       (ActivityPage.handleClearFilters s) (CustomerActivity.activities s)).
Proof.
  unfold CustomerActivity.runEffect.
  rewrite filterActivities_as_filter.
  assert (forall a, CustomerActivity.keeps
            (CustomerActivity.filters (ActivityPage.handleClearFilters s)) a
          = Normal (VBool true)) as Hk.
  { intros a. rewrite keeps_unbounded by reflexivity.
    now rewrite matchesSearch_empty by reflexivity. }
  change (CustomerActivity.activities (ActivityPage.handleClearFilters s))
    with (CustomerActivity.activities s).
  now rewrite (Array_filter_all_true _ _ Hk).
Qed.

(** X4.  Choosing a type narrows the unfiltered-by-type outcome and does
    nothing else: the result under type filter [t] is the result under
    "all" with the activities of other types left out, and the filter
    fails under [t] exactly when it fails under "all". *)
Theorem type_filter_narrows_all (S : StringRuntime) (R : DateRuntime)
  (f : CustomerActivity.Filters) (t : string)
  (l : list CustomerActivity.Activity) :
  t <> "all" ->
  CustomerActivity.filterActivities (ActivityPage.setTypeFilter f t) l =
  cmap (List.filter (fun a => streq (CustomerActivity.type a) t))
    (CustomerActivity.filterActivities
       (ActivityPage.setTypeFilter f "all") l).
Proof. apply filterActivities_setTypeFilter. Qed.

Lemma type_filter_narrows_all_witness :
  @CustomerActivity.filterActivities RefString.runtime RefDate.runtime
    (ActivityPage.setTypeFilter
       (activityFilters "" "all" "2024-01-01" "") "payment")
    [abcTransport; xyzCo; undated]
  = cmap (List.filter
            (fun a => streq (CustomerActivity.type a) "payment"))
      (@CustomerActivity.filterActivities RefString.runtime RefDate.runtime
         (ActivityPage.setTypeFilter
            (activityFilters "" "all" "2024-01-01" "") "all")
         [abcTransport; xyzCo; undated]).
Proof.
  apply (type_filter_narrows_all RefString.runtime RefDate.runtime). discriminate.
Defined.

(** X5.  The summary cards under a type filter.  With the type filter set
    to "sale" the Total Sales card shows what it shows under "all", and
    the Total Payments card shows 0; symmetrically for "payment". *)
Theorem totals_under_type_filter (S : StringRuntime) (R : DateRuntime)
  (f : CustomerActivity.Filters)
  (l rAll rSale rPayment : list CustomerActivity.Activity) :
  CustomerActivity.filterActivities (ActivityPage.setTypeFilter f "all") l
    = Normal rAll ->
  CustomerActivity.filterActivities (ActivityPage.setTypeFilter f "sale") l
    = Normal rSale ->
  CustomerActivity.filterActivities
    (ActivityPage.setTypeFilter f "payment") l = Normal rPayment ->
  CustomerActivity.totalSales rSale = CustomerActivity.totalSales rAll
  /\ CustomerActivity.totalPayments rSale = 0%float
  /\ CustomerActivity.totalPayments rPayment
     = CustomerActivity.totalPayments rAll
  /\ CustomerActivity.totalSales rPayment = 0%float.
Proof.
  intros Hall Hsale Hpay.
  rewrite filterActivities_setTypeFilter, Hall in Hsale by discriminate.
  rewrite filterActivities_setTypeFilter, Hall in Hpay by discriminate.
  injection Hsale as <-. injection Hpay as <-.
  unfold CustomerActivity.totalSales, CustomerActivity.totalPayments,
    CustomerActivity.totalOfType.
  rewrite !filter_filter_same.
  rewrite !(filter_filter_disjoint
              (fun a => streq (CustomerActivity.type a) "sale")
              (fun a => streq (CustomerActivity.type a) "payment")).
  rewrite !(filter_filter_disjoint
              (fun a => streq (CustomerActivity.type a) "payment")
              (fun a => streq (CustomerActivity.type a) "sale")).
  - repeat split; reflexivity.
  - intros a Ha. apply String.eqb_eq in Ha. unfold streq. now rewrite Ha.
  - intros a Ha. apply String.eqb_eq in Ha. unfold streq. now rewrite Ha.
Qed.

Lemma totals_under_type_filter_witness :
  CustomerActivity.totalSales [abcTransport]
  = CustomerActivity.totalSales [abcTransport; xyzCo]
  /\ CustomerActivity.totalPayments [abcTransport] = 0%float
  /\ CustomerActivity.totalPayments [xyzCo]
     = CustomerActivity.totalPayments [abcTransport; xyzCo]
  /\ CustomerActivity.totalSales [xyzCo] = 0%float.
Proof.
  apply (totals_under_type_filter RefString.runtime RefDate.runtime
           (activityFilters "" "all" "2024-01-01" "")
           [abcTransport; xyzCo; undated]); reflexivity.
Defined.

Lemma filter_Subsequence_mono {A : Type} (p q : A -> bool) (l : list A) :
  (forall x, In x l -> p x = true -> q x = true) ->
  Subsequence (List.filter p l) (List.filter q l).
Proof.
  induction l as [|x l IH]; simpl; intros Hpq; [constructor|].
  assert (Subsequence (List.filter p l) (List.filter q l)) as Hrest
    by (apply IH; intros y Hy; apply Hpq; now right).
  destruct (p x) eqn:Hp.
  - rewrite (Hpq x (or_introl eq_refl) Hp). now constructor.
  - destruct (q x); [now constructor | exact Hrest].
Qed.

(** A wider range admits every day the narrower one admits. *)
Lemma DateFilterSpec_widen (from to from' to' day : string) :
  from' = "" \/ (from <> "" /\ notAfter from' from) ->
  to' = "" \/ (to <> "" /\ notAfter to to') ->
  DateFilterSpec from to day -> DateFilterSpec from' to' day.
Proof.
  intros Hfrom Hto Hday.
  assert (nonEmpty from' = true -> notBefore day from') as Hlo.
  { intros Hne. destruct Hfrom as [->|[Hf Hle]]; [discriminate|].
    apply StringFacts.nonEmpty_true_iff in Hf.
    unfold DateFilterSpec in Hday. rewrite Hf in Hday.
    assert (notBefore day from) as Hd
      by (destruct (nonEmpty to); tauto).
    unfold notBefore, notAfter in *.
    assert (String.compare from day <> Gt) as Hfd.
    { intros H. apply StringFacts.compare_gt_lt in H. contradiction. }
    pose proof (StringFacts.compare_le_trans _ _ _ Hle Hfd) as H.
    intros Hlt. apply H. now apply StringFacts.compare_gt_lt. }
  assert (nonEmpty to' = true -> notAfter day to') as Hhi.
  { intros Hne. destruct Hto as [->|[Ht Hle]]; [discriminate|].
    apply StringFacts.nonEmpty_true_iff in Ht.
    unfold DateFilterSpec in Hday. rewrite Ht in Hday.
    assert (notAfter day to) as Hd
      by (destruct (nonEmpty from); tauto).
    unfold notAfter in *.
    exact (StringFacts.compare_le_trans _ _ _ Hd Hle). }
  unfold DateFilterSpec.
  destruct (nonEmpty from'), (nonEmpty to'); auto.
Qed.

(** X6.  Widening the date range never loses an activity.  If each new
    bound is dropped or moved outwards, every activity shown under the old
    range is shown under the new one, in the same order. *)
Theorem widening_the_date_range_keeps_results (S : StringRuntime) (R : DateRuntime)
  (f : CustomerActivity.Filters) (from to from' to' : string)
  (l r r' : list CustomerActivity.Activity) :
  from' = "" \/ (from <> "" /\ notAfter from' from) ->
  to' = "" \/ (to <> "" /\ notAfter to to') ->
  CustomerActivity.filterActivities (ActivityPage.setDates f from to) l
    = Normal r ->
  CustomerActivity.filterActivities (ActivityPage.setDates f from' to') l
    = Normal r' ->
  Subsequence r r' /\ (forall a, In a r -> In a r').
Proof.
  intros Hfrom Hto Hr Hr'.
  rewrite filterActivities_as_filter in Hr, Hr'.
  destruct (Array_filter_accepts _ _ _ Hr) as [-> Hall].
  destruct (Array_filter_accepts _ _ _ Hr') as [-> Hall'].
  assert (Subsequence
            (List.filter (fun x => accepts (CustomerActivity.keeps
                            (ActivityPage.setDates f from to) x)) l)
            (List.filter (fun x => accepts (CustomerActivity.keeps
                            (ActivityPage.setDates f from' to') x)) l))
    as Hsub.
  { apply filter_Subsequence_mono. intros a Hin Hacc.
    rewrite Forall_forall in Hall, Hall'.
    destruct (Hall a Hin) as [v Hv]. destruct (Hall' a Hin) as [v' Hv'].
    rewrite Hv in Hacc. rewrite Hv'. simpl in *.
    apply (keeps_normal_spec _ a v Hv) in Hacc as (Hs & Ht & Hd).
    apply (keeps_normal_spec _ a v' Hv').
    repeat split; [exact Hs | exact Ht |].
    simpl in *. eapply DateFilterSpec_widen; eauto. }
  split; [exact Hsub|].
  intros a. now apply Subsequence_In.
Qed.

Lemma widening_the_date_range_keeps_results_witness :
  Subsequence [abcTransport] [abcTransport; xyzCo].
Proof.
  assert (@CustomerActivity.filterActivities RefString.runtime RefDate.runtime
            (ActivityPage.setDates (activityFilters "" "all" "" "")
               "2024-01-10" "2024-01-31")
            [abcTransport; xyzCo; undated] = Normal [abcTransport]) as Hr
    by reflexivity.
  assert (@CustomerActivity.filterActivities RefString.runtime RefDate.runtime
            (ActivityPage.setDates (activityFilters "" "all" "" "")
               "2024-01-01" "2024-03-31")
            [abcTransport; xyzCo; undated] = Normal [abcTransport; xyzCo])
    as Hr' by reflexivity.
  refine (proj1 (widening_the_date_range_keeps_results RefString.runtime RefDate.runtime
                   _ _ _ _ _ _ _ _ _ _ Hr Hr')).
  - right. split; [discriminate | unfold notAfter; simpl; discriminate].
  - right. split; [discriminate | unfold notAfter; simpl; discriminate].
Defined.

(** X7.  The status counters of the summary card count disjoint groups:
    completed plus pending never exceeds the number of listed activities,
    and reaches it exactly when no listed activity has another status
    (such as cancelled). *)
Theorem status_counters_partition
  (filtered : list CustomerActivity.Activity) :
  ActivityPage.completedActivities filtered
  + ActivityPage.pendingActivities filtered <= List.length filtered
  /\ (ActivityPage.completedActivities filtered
      + ActivityPage.pendingActivities filtered = List.length filtered
      <-> Forall (fun a => CustomerActivity.status a = "completed" \/
                           CustomerActivity.status a = "pending")
            filtered).
Proof.
  unfold ActivityPage.completedActivities, ActivityPage.pendingActivities.
  induction filtered as [|a l [IHle IHeq]]; simpl.
  - split; [lia | split; [constructor | reflexivity]].
  - pose proof (String.eqb_spec (CustomerActivity.status a) "completed")
      as Hc.
    pose proof (String.eqb_spec (CustomerActivity.status a) "pending")
      as Hp.
    unfold streq in *.
    destruct Hc as [Hc|Hc]; destruct Hp as [Hp|Hp]; simpl.
    + rewrite Hc in Hp. discriminate.
    + split; [lia|]. split.
      * intros H. constructor; [now left | apply IHeq; lia].
      * intros H. inversion H; subst. apply IHeq in H3. lia.
    + split; [lia|]. split.
      * intros H. constructor; [now right | apply IHeq; lia].
      * intros H. inversion H; subst. apply IHeq in H3. lia.
    + split; [lia|]. split.
      * intros H. lia.
      * intros H. inversion H; subst. tauto.
Qed.

(* ================================================================== *)
(** * Payments and expenses *)
(* ================================================================== *)

(** X8.  Clearing the filters of the payment history does not bring every
    payment back: the effect completes and lists exactly the payments that
    have a reference number or notes, in the original order; a payment
    with neither stays hidden. *)
Theorem clear_filters_hides_unsearchable_payments (S : StringRuntime) (R : DateRuntime)
  (s : PaymentPage.State) :
  PaymentPage.runEffect (PaymentPage.handleClearFilters s) =
  Normal
    {| PaymentPage.payments := PaymentPage.payments s;
       PaymentPage.filters :=
         PaymentPage.filters (PaymentPage.handleClearFilters s);
       PaymentPage.typeFilter := "all";
       PaymentPage.filteredPayments :=
         List.filter PaymentPage.searchable (PaymentPage.payments s) |}.
Proof.
  unfold PaymentPage.runEffect, PaymentHistory.filterPayments.
  change (PaymentPage.payments (PaymentPage.handleClearFilters s))
    with (PaymentPage.payments s).
  assert (forall p, PaymentHistory.keeps
            (PaymentPage.filters (PaymentPage.handleClearFilters s)) p
          = Normal (VBool (PaymentPage.searchable p))
            \/ (PaymentPage.searchable p = false /\
                PaymentHistory.keeps
                  (PaymentPage.filters (PaymentPage.handleClearFilters s)) p
                = Normal VUndefined)) as Hk.
  { intros p. unfold PaymentHistory.keeps, PaymentHistory.matchesSearch,
      PaymentHistory.matchesMethod, PaymentPage.searchable, optIncludes.
    rewrite PaymentFacts.payment_matchesDateRange_unfiltered by reflexivity.
    simpl. rewrite ?CaseFacts.toLowerCase_empty.
    destruct (PaymentHistory.referenceNumber p) as [r|],
             (PaymentHistory.notes p) as [n|]; simpl;
      rewrite ?includes_empty; simpl; auto. }
  assert (forall l, Array_filter
            (PaymentHistory.keeps
               (PaymentPage.filters (PaymentPage.handleClearFilters s))) l
          = Normal (List.filter PaymentPage.searchable l)) as Hall.
  { induction l as [|p l IH]; [reflexivity|].
    cbn [Array_filter List.filter]. rewrite IH.
    destruct (Hk p) as [-> | [Hs ->]]; simpl.
    - reflexivity.
    - now rewrite Hs. }
  now rewrite Hall.
Qed.

Module ExpenseMore.
Import StringFacts ExpenseManagement.

Lemma inISODateRange_true_iff (day from to : string) :
  Utils.inISODateRange day from to = true <->
  day <> "" /\ from <> "" /\ to <> "" /\
  notBefore day from /\ notAfter day to.
Proof.
  unfold Utils.inISODateRange, notBefore, notAfter.
  rewrite <- !nonEmpty_true_iff, <- sge_true_iff, <- sle_true_iff.
  destruct (nonEmpty day), (nonEmpty from), (nonEmpty to); simpl;
    rewrite ?andb_true_iff; intuition congruence.
Qed.

Section WithRuntime.
Context {S : StringRuntime} {R : DateRuntime}.

(** With both bounds supplied the expense date test is the range helper
    applied to the expense's day. *)
Lemma matchesDateRange_two_sided (f : Filters) (x : Expense) :
  fromDate f <> "" -> toDate f <> "" ->
  expenseDate x = "" \/ (exists d, isoDay (expenseDate x) = Some d) ->
  matchesDateRange f x =
  Normal (Utils.inISODateRange (expenseDay x) (fromDate f) (toDate f)).
Proof.
  intros Hf Ht Hd. apply nonEmpty_true_iff in Hf, Ht.
  unfold matchesDateRange, expenseDay, Utils.inISODateRange, Date_isoDay.
  rewrite Hf, Ht. simpl.
  destruct (nonEmpty (expenseDate x)) eqn:Hne.
  - destruct Hd as [Hd|[d Hd]].
    + rewrite Hd in Hne. discriminate.
    + rewrite Hd. simpl. destruct (nonEmpty d) eqn:Hdne; [reflexivity|].
      apply nonEmpty_false_iff in Hdne. subst d. simpl. f_equal.
      unfold sge. destruct (fromDate f); [discriminate | reflexivity].
  - simpl. f_equal.
    unfold sge. destruct (fromDate f); [discriminate | reflexivity].
Qed.

End WithRuntime.

End ExpenseMore.

(** X9.  The range helper of lib/utils.ts is inclusive on both ends and
    demands all three strings: for all strings it answers [true] exactly
    when day, lower and upper bound are non-empty and the day is neither
    before the lower nor after the upper bound; so it answers [false] as
    soon as one of the three is empty, and [true] on a non-empty day that
    is both bounds.  With both bounds supplied, the date test of the
    expense list is this helper applied to the expense's day (the empty
    string for a missing date). *)
Theorem range_helper_matches_two_sided_expense_filter (R : DateRuntime) :
  (forall day from to : string,
     Utils.inISODateRange day from to = true <->
     day <> "" /\ from <> "" /\ to <> "" /\
     notBefore day from /\ notAfter day to)
  /\ (forall day from to : string,
        Utils.inISODateRange "" from to = false
        /\ Utils.inISODateRange day "" to = false
        /\ Utils.inISODateRange day from "" = false)
  /\ (forall day : string,
        day <> "" -> Utils.inISODateRange day day day = true)
  /\ (forall (f : ExpenseManagement.Filters)
             (x : ExpenseManagement.Expense),
        ExpenseManagement.fromDate f <> "" ->
        ExpenseManagement.toDate f <> "" ->
        ExpenseManagement.expenseDate x = "" \/
        (exists d, isoDay (ExpenseManagement.expenseDate x) = Some d) ->
        ExpenseManagement.matchesDateRange f x =
        Normal (Utils.inISODateRange (expenseDay x)
                  (ExpenseManagement.fromDate f)
                  (ExpenseManagement.toDate f))).
Proof.
  split; [exact ExpenseMore.inISODateRange_true_iff|].
  split; [|split].
  - intros day from to. unfold Utils.inISODateRange.
    split; [reflexivity|]. split.
    + now destruct (nonEmpty day).
    + now destruct (nonEmpty day), (nonEmpty from).
  - intros day Hd. apply ExpenseMore.inISODateRange_true_iff.
    unfold notBefore, notAfter.
    rewrite StringFacts.compare_refl.
    repeat split; (assumption || discriminate).
  - intros f x Hf Ht Hd.
    now apply ExpenseMore.matchesDateRange_two_sided.
Qed.

Lemma range_helper_matches_two_sided_expense_filter_witness :
  @ExpenseManagement.matchesDateRange RefDate.runtime
    (expenseFilters "" "all" "2024-01-31" "2024-01-31") rent
  = Normal true
  /\ Utils.inISODateRange "2024-01-31" "2024-01-31" "2024-01-31" = true.
Proof.
  destruct (range_helper_matches_two_sided_expense_filter RefDate.runtime)
    as (_ & _ & Hsame & Hexp).
  split.
  - rewrite (Hexp (expenseFilters "" "all" "2024-01-31" "2024-01-31") rent).
    + reflexivity.
    + discriminate.
    + discriminate.
    + right. now exists "2024-01-31".
  - apply Hsame. discriminate.
Defined.

(** X10.  Printing after a filter that matches nothing prints everything.
    With an impossible date range (both bounds supplied, [fromDate] after
    [toDate]) and expenses whose dates are missing or parse, the filtered
    list is empty, and the report then lists all expenses, not none. *)
Theorem report_lists_all_expenses_when_nothing_matches (S : StringRuntime) (R : DateRuntime)
  (f : ExpenseManagement.Filters)
  (expenses : list ExpenseManagement.Expense) :
  ExpenseManagement.fromDate f <> "" ->
  ExpenseManagement.toDate f <> "" ->
  sgt (ExpenseManagement.fromDate f) (ExpenseManagement.toDate f) = true ->
  Forall (fun x => ExpenseManagement.expenseDate x = "" \/
                   exists d, isoDay (ExpenseManagement.expenseDate x)
                             = Some d) expenses ->
  ExpenseManagement.filterExpenses f expenses = Normal []
  /\ ExpenseReport.reportRows f expenses = Normal expenses
  /\ ExpensePage.reportCount [] expenses = List.length expenses.
Proof.
  intros Hf Ht Hgt Hall.
  assert (ExpenseManagement.filterExpenses f expenses = Normal []) as Hnone.
  { unfold ExpenseManagement.filterExpenses.
    apply FilterFacts.Array_filter_all_falsy.
    revert Hall. apply Forall_impl. intros x Hx.
    unfold ExpenseManagement.keeps.
    rewrite (ExpenseMore.matchesDateRange_two_sided f x Hf Ht Hx).
    rewrite (inISODateRange_impossible _ _ _ Hgt). simpl.
    eexists. split; [reflexivity|].
    unfold vand.
    destruct (ExpenseManagement.matchesSearch f x) as [[|]|];
      destruct (ExpenseManagement.matchesCategory f x); reflexivity. }
  split; [exact Hnone|]. split; [|reflexivity].
  unfold ExpenseReport.reportRows. now rewrite Hnone.
Qed.

Lemma report_lists_all_expenses_when_nothing_matches_witness :
  @ExpenseManagement.filterExpenses RefString.runtime RefDate.runtime
    (expenseFilters "" "all" "2024-03-01" "2024-01-01") [rent; bareExpense]
  = Normal []
  /\ @ExpenseReport.reportRows RefString.runtime RefDate.runtime
       (expenseFilters "" "all" "2024-03-01" "2024-01-01")
       [rent; bareExpense]
     = Normal [rent; bareExpense]
  /\ ExpensePage.reportCount [] [rent; bareExpense] = 2.
Proof.
  apply (report_lists_all_expenses_when_nothing_matches RefString.runtime RefDate.runtime
           (expenseFilters "" "all" "2024-03-01" "2024-01-01")
           [rent; bareExpense]).
  - discriminate.
  - discriminate.
  - reflexivity.
  - constructor; [right; now exists "2024-01-31"|].
    constructor; [right; now exists "2024-02-01"|].
    constructor.
Defined.

(* ================================================================== *)
(** * escapeHtml *)
(* ================================================================== *)

Module HtmlFacts.
Import Html.

Lemma string_app_assoc (a b c : string) : (a ++ b) ++ c = a ++ (b ++ c).
Proof. induction a as [|x a IH]; simpl; [reflexivity | now rewrite IH]. Qed.

Lemma string_app_length (a b : string) :
  String.length (a ++ b) = String.length a + String.length b.
Proof. induction a as [|x a IH]; simpl; [reflexivity | now rewrite IH]. Qed.

Lemma replaceAll_app (c : ascii) (by_ s t : string) :
  replaceAll c by_ (s ++ t) = replaceAll c by_ s ++ replaceAll c by_ t.
Proof.
  induction s as [|x s IH]; simpl; [reflexivity|].
  destruct (Ascii.eqb x c); simpl; rewrite IH; [|reflexivity].
  now rewrite string_app_assoc.
Qed.

(** One character at a time: the later replacements leave the entities of
    the earlier ones alone. *)
Lemma escapeHtml_cons (c : ascii) (s : string) :
  escapeHtml (String c s) = entity c ++ escapeHtml s.
Proof.
  unfold escapeHtml.
  destruct c as [[|] [|] [|] [|] [|] [|] [|] [|]]; reflexivity.
Qed.

Lemma escapeHtml_substitute (s : string) : escapeHtml s = substitute s.
Proof.
  induction s as [|c s IH]; [reflexivity|].
  now rewrite escapeHtml_cons, IH.
Qed.

Lemma substitute_app (s t : string) :
  substitute (s ++ t) = substitute s ++ substitute t.
Proof.
  induction s as [|c s IH]; simpl; [reflexivity|].
  now rewrite IH, string_app_assoc.
Qed.

Lemma chars_app (a b : string) :
  list_ascii_of_string (a ++ b)
  = (list_ascii_of_string a ++ list_ascii_of_string b)%list.
Proof. induction a as [|x a IH]; simpl; [reflexivity | now rewrite IH]. Qed.

(** No entity contains a markup character. *)
Lemma entity_chars (c : ascii) :
  Forall (fun x => x <> "<"%char /\ x <> ">"%char /\ x <> dquote /\
                   x <> "'"%char)
    (list_ascii_of_string (entity c)).
Proof.
  destruct c as [[|] [|] [|] [|] [|] [|] [|] [|]]; simpl;
    repeat constructor; discriminate.
Qed.

Lemma entity_shape (c : ascii) :
  1 <= String.length (entity c)
  /\ (special c = true -> 2 <= String.length (entity c))
  /\ (special c = false -> entity c = String c "")
  /\ hasSpecial (entity c) = special c.
Proof.
  destruct c as [[|] [|] [|] [|] [|] [|] [|] [|]]; simpl;
    repeat split; intros; try discriminate; try reflexivity; lia.
Qed.

Lemma unescape_entity (c : ascii) (t : string) :
  unescape (entity c ++ t) = String c (unescape t).
Proof.
  destruct c as [[|] [|] [|] [|] [|] [|] [|] [|]]; reflexivity.
Qed.

Lemma hasSpecial_app (a b : string) :
  hasSpecial (a ++ b) = hasSpecial a || hasSpecial b.
Proof.
  induction a as [|x a IH]; simpl; [reflexivity|].
  now rewrite IH, orb_assoc.
Qed.

Lemma hasSpecial_escapeHtml (s : string) :
  hasSpecial (escapeHtml s) = hasSpecial s.
Proof.
  induction s as [|c s IH]; [reflexivity|].
  rewrite escapeHtml_cons, hasSpecial_app, IH. simpl.
  now rewrite (proj2 (proj2 (proj2 (entity_shape c)))).
Qed.

Lemma escapeHtml_length (s : string) :
  String.length s <= String.length (escapeHtml s)
  /\ (hasSpecial s = true ->
      String.length s < String.length (escapeHtml s)).
Proof.
  induction s as [|c s [IHle IHlt]]; [split; [reflexivity | discriminate]|].
  rewrite escapeHtml_cons, string_app_length.
  destruct (entity_shape c) as (H1 & H2 & _ & _). simpl.
  split; [lia|].
  destruct (special c); simpl; intros H.
  - specialize (H2 eq_refl). lia.
  - specialize (IHlt H). lia.
Qed.

Lemma escapeHtml_plain (s : string) :
  hasSpecial s = false -> escapeHtml s = s.
Proof.
  induction s as [|c s IH]; [reflexivity|]. simpl. intros H.
  apply orb_false_elim in H as [Hc Hs].
  rewrite escapeHtml_cons, (IH Hs).
  destruct (entity_shape c) as (_ & _ & H3 & _). now rewrite (H3 Hc).
Qed.

Lemma escapeHtml_fixed_iff (s : string) :
  escapeHtml s = s <-> hasSpecial s = false.
Proof.
  split; [|apply escapeHtml_plain].
  intros H. destruct (hasSpecial s) eqn:Hs; [|reflexivity].
  destruct (escapeHtml_length s) as [_ Hlt]. specialize (Hlt Hs).
  rewrite H in Hlt. lia.
Qed.

End HtmlFacts.

(** X11.  The five chained replacements of [escapeHtml] act as one
    simultaneous substitution: every [&], [<], [>], double quote and
    apostrophe of the input becomes its entity, every other character is
    copied, and no entity produced on the way is escaped a second time.
    Hence escaping distributes over concatenation. *)
Theorem escapeHtml_is_simultaneous_substitution (s t : string) :
  Html.escapeHtml s = Html.substitute s
  /\ Html.escapeHtml (s ++ t) = Html.escapeHtml s ++ Html.escapeHtml t
  /\ Html.escapeHtml "" = "".
Proof.
  split; [apply HtmlFacts.escapeHtml_substitute|]. split; [|reflexivity].
  rewrite !HtmlFacts.escapeHtml_substitute. apply HtmlFacts.substitute_app.
Qed.

(** X12.  The output of [escapeHtml] contains none of [<], [>], the double
    quote and the apostrophe, whatever the input. *)
Theorem escapeHtml_output_has_no_markup (s : string) :
  Forall (fun x => x <> "<"%char /\ x <> ">"%char /\ x <> Html.dquote /\
                   x <> "'"%char)
    (list_ascii_of_string (Html.escapeHtml s)).
Proof.
  induction s as [|c s IH]; [constructor|].
  rewrite HtmlFacts.escapeHtml_cons, HtmlFacts.chars_app.
  apply Forall_app. split; [apply HtmlFacts.entity_chars | exact IH].
Qed.

(** X13.  Escaping loses nothing: reading the five entities back returns
    the input, so two different inputs never escape to the same text. *)
Theorem escapeHtml_is_lossless :
  (forall s, Html.unescape (Html.escapeHtml s) = s)
  /\ (forall a b, Html.escapeHtml a = Html.escapeHtml b -> a = b).
Proof.
  assert (forall s, Html.unescape (Html.escapeHtml s) = s) as Hinv.
  { induction s as [|c s IH]; [reflexivity|].
    now rewrite HtmlFacts.escapeHtml_cons, HtmlFacts.unescape_entity, IH. }
  split; [exact Hinv|].
  intros a b H. rewrite <- (Hinv a), <- (Hinv b). now rewrite H.
Qed.

(** X14.  [escapeHtml] never shortens its input, leaves it unchanged
    exactly when it contains none of the five special characters, and is
    not idempotent beyond that: escaping an already escaped text changes
    it again whenever the original contained a special character. *)
Theorem escapeHtml_double_escapes (s : string) :
  String.length s <= String.length (Html.escapeHtml s)
  /\ (Html.escapeHtml s = s <-> Html.hasSpecial s = false)
  /\ (Html.escapeHtml (Html.escapeHtml s) = Html.escapeHtml s <->
      Html.hasSpecial s = false).
Proof.
  split; [apply HtmlFacts.escapeHtml_length|].
  split; [apply HtmlFacts.escapeHtml_fixed_iff|].
  rewrite HtmlFacts.escapeHtml_fixed_iff.
  now rewrite HtmlFacts.hasSpecial_escapeHtml.
Qed.

(* ================================================================== *)
(** * Price management *)
(* ================================================================== *)

Module PriceFacts.
Import StringFacts PriceManagement.

Lemma sameValue_iff (a b : option string) : sameValue a b = true <-> a = b.
Proof.
  destruct a as [x|], b as [y|]; simpl; try (split; congruence).
  rewrite String.eqb_eq. split; congruence.
Qed.

Lemma seen_iff (x : option string) (seen : list (option string)) :
  existsb (sameValue x) seen = true <-> In x seen.
Proof.
  rewrite existsb_exists. split.
  - intros [y [Hy Hxy]]. apply sameValue_iff in Hxy. now subst.
  - intros H. exists x. split; [exact H | now apply sameValue_iff].
Qed.

Lemma setOf_In (xs : list (option string)) :
  forall seen x, In x (setOf seen xs) <-> In x xs /\ ~ In x seen.
Proof.
  induction xs as [|y xs IH]; intros seen x; simpl; [tauto|].
  destruct (existsb (sameValue y) seen) eqn:Hy.
  - apply seen_iff in Hy. rewrite IH. split.
    + tauto.
    + intros [[->|H] Hn]; [contradiction | tauto].
  - assert (~ In y seen) as Hny.
    { intros H. apply seen_iff in H. congruence. }
    simpl. rewrite IH. simpl. split.
    + intros [->|[H Hn]]; [tauto|]. split; [tauto|]. tauto.
    + intros [[->|H] Hn]; [now left|].
      destruct (sameValue y x) eqn:Hyx.
      * apply sameValue_iff in Hyx. now left.
      * right. split; [exact H|]. intros [->|H']; [|contradiction].
        assert (sameValue x x = true) as Hxx by now apply sameValue_iff.
        congruence.
Qed.

Lemma setOf_NoDup (xs : list (option string)) :
  forall seen, NoDup (setOf seen xs).
Proof.
  induction xs as [|y xs IH]; intros seen; simpl; [constructor|].
  destruct (existsb (sameValue y) seen); [apply IH|].
  constructor; [|apply IH].
  rewrite setOf_In. simpl. tauto.
Qed.

Lemma truthyOnly_In (xs : list (option string)) (s : string) :
  In s (truthyOnly xs) <-> In (Some s) xs /\ s <> "".
Proof.
  induction xs as [|[y|] xs IH]; simpl.
  - tauto.
  - destruct (nonEmpty y) eqn:Hy; simpl; rewrite IH.
    + apply nonEmpty_true_iff in Hy. split.
      * intros [->|H]; [split; [now left | exact Hy] | tauto].
      * intros [[[= ->]|H] Hs]; [now left | tauto].
    + apply nonEmpty_false_iff in Hy. subst y. split.
      * tauto.
      * intros [[[= <-]|H] Hs]; [contradiction | tauto].
  - rewrite IH. split; [tauto|]. intros [[H|H] Hs]; [discriminate | tauto].
Qed.

Lemma truthyOnly_NoDup (xs : list (option string)) :
  NoDup xs -> NoDup (truthyOnly xs).
Proof.
  induction 1 as [|[y|] xs Hnin Hnd IH]; simpl; [constructor | | exact IH].
  destruct (nonEmpty y); [|exact IH].
  constructor; [|exact IH].
  rewrite truthyOnly_In. tauto.
Qed.

Section WithRuntime.
Context {S : StringRuntime} {R : DateRuntime}.

Lemma matchesDateRange_unbounded (f : Filters) (raw : option string) :
  fromDate f = "" -> toDate f = "" -> matchesDateRange f raw = Normal true.
Proof. unfold matchesDateRange. now intros -> ->. Qed.

Lemma nothingToFilter_iff (f : Filters) :
  nothingToFilter f = true <->
  searchTerm f = "" /\ productFilter f = "all" /\
  fromDate f = "" /\ toDate f = "".
Proof.
  unfold nothingToFilter, streq.
  rewrite !andb_true_iff, !negb_true_iff, !nonEmpty_false_iff,
    String.eqb_eq.
  tauto.
Qed.

End WithRuntime.

End PriceFacts.

(** X15.  The shortcut that opens [handleApplyFilters] changes nothing:
    when no search text, product filter or date bound is set, the two
    filter passes would keep every product and every price-history entry
    anyway.  So the lists the handler sets are in every case the outcome
    of the two filter passes. *)
Theorem price_filter_shortcut_is_sound (S : StringRuntime) (R : DateRuntime)
  (f : PriceManagement.Filters)
  (products : list PriceManagement.Product)
  (priceHistory : list PriceManagement.PriceHistory) :
  PriceManagement.filteredProductData f products
  = Array_filter (PriceManagement.keepsProduct f) products
  /\ PriceManagement.filteredHistoryData f priceHistory
     = Array_filter (PriceManagement.keepsHistory f) priceHistory.
Proof.
  unfold PriceManagement.filteredProductData,
    PriceManagement.filteredHistoryData.
  destruct (PriceManagement.nothingToFilter f) eqn:Hn;
    [|split; reflexivity].
  apply PriceFacts.nothingToFilter_iff in Hn as (Hs & Hp & Hf & Ht).
  split; symmetry; apply Array_filter_all_true; intros x.
  - unfold PriceManagement.keepsProduct.
    rewrite (PriceFacts.matchesDateRange_unbounded f _ Hf Ht), Hs, Hp.
    simpl. now rewrite CaseFacts.toLowerCase_empty, includes_empty.
  - unfold PriceManagement.keepsHistory.
    rewrite (PriceFacts.matchesDateRange_unbounded f _ Hf Ht), Hs.
    reflexivity.
Qed.

(** X16.  The category list of the price page names each category once:
    it has no duplicates, and a text is in it exactly when it is not empty
    and is the category of some product. *)
Theorem product_categories_are_distinct
  (products : list PriceManagement.Product) :
  NoDup (PriceManagement.productCategories products)
  /\ (forall c, In c (PriceManagement.productCategories products) <->
                c <> "" /\
                exists p, In p products /\
                          PriceManagement.category p = Some c).
Proof.
  unfold PriceManagement.productCategories. split.
  - apply PriceFacts.truthyOnly_NoDup, PriceFacts.setOf_NoDup.
  - intros c. rewrite PriceFacts.truthyOnly_In, PriceFacts.setOf_In,
      in_map_iff. simpl. split.
    + intros [[[p [Hp Hin]] _] Hc]. split; [exact Hc | now exists p].
    + intros [Hc [p [Hin Hp]]]. split; [|exact Hc].
      split; [now exists p | tauto].
Qed.

(* ================================================================== *)
(** * toISODate *)
(* ================================================================== *)

Module IsoDateFacts.
Import IsoDate.
Local Open Scope Z_scope.

Ltac divlia := Z.div_mod_to_equations; lia.

Lemma digitChar_compare (a b : Z) :
  0 <= a < 10 -> 0 <= b < 10 ->
  Ascii.compare (digitChar a) (digitChar b) = (a ?= b).
Proof.
  intros Ha Hb. unfold Ascii.compare, digitChar.
  rewrite !N_ascii_embedding by lia.
  rewrite Z2N.inj_compare by lia.
  apply Z.add_compare_mono_l.
Qed.

Lemma digits_four (fuel : nat) (n : Z) (acc : string) :
  (4 <= fuel)%nat -> 1000 <= n <= 9999 ->
  digits fuel n acc =
  String (digitChar (n / 1000))
    (String (digitChar (n / 100 mod 10))
       (String (digitChar (n / 10 mod 10))
          (String (digitChar (n mod 10)) acc))).
Proof.
  intros Hfuel Hn.
  destruct fuel as [|[|[|[|fuel]]]]; try lia.
  cbn [digits].
  assert ((n / 10 =? 0) = false) as -> by (apply Z.eqb_neq; divlia).
  assert ((n / 10 / 10 =? 0) = false) as -> by (apply Z.eqb_neq; divlia).
  assert ((n / 10 / 10 / 10 =? 0) = false) as ->
    by (apply Z.eqb_neq; divlia).
  assert ((n / 10 / 10 / 10 / 10 =? 0) = true) as ->
    by (apply Z.eqb_eq; divlia).
  assert (n / 10 / 10 / 10 mod 10 = n / 1000) as -> by divlia.
  assert (n / 10 / 10 mod 10 = n / 100 mod 10) as -> by divlia.
  reflexivity.
Qed.

Lemma Number_toString_four (n : Z) :
  1000 <= n <= 9999 -> Number_toString n = fourDigits n.
Proof.
  intros Hn. unfold Number_toString.
  assert ((n <? 0) = false) as -> by (apply Z.ltb_ge; lia).
  apply digits_four; [|exact Hn].
  assert (Z.log2 1000 <= Z.log2 n) as Hlog
    by (apply Z.log2_le_mono; lia).
  change (Z.log2 1000) with 9 in Hlog. lia.
Qed.

(** Month and day numbers are padded to two digits. *)
Lemma padStart_two (n : Z) :
  0 <= n <= 99 -> padStart 2 "0" (Number_toString n) = twoDigits n.
Proof.
  intros Hn.
  assert (forallb (fun j => String.eqb
                     (padStart 2 "0" (Number_toString (Z.of_nat j)))
                     (twoDigits (Z.of_nat j))) (seq 0 100) = true) as Hall
    by (vm_compute; reflexivity).
  rewrite forallb_forall in Hall.
  specialize (Hall (Z.to_nat n)).
  rewrite Z2Nat.id in Hall by lia.
  apply String.eqb_eq, Hall, in_seq. lia.
Qed.

Lemma toISODate_fields (R : LocalDateRuntime) (fields : DateFields) :
  fourDigitYear fields ->
  toISODate (ofDate (Valid fields)) =
  (fourDigits (fullYear fields) ++ "-"
   ++ twoDigits (month fields + 1) ++ "-"
   ++ twoDigits (dayOfMonth fields))%string.
Proof.
  intros (Hy & Hm & Hd). unfold toISODate.
  rewrite Number_toString_four by exact Hy.
  now rewrite !padStart_two by lia.
Qed.

(** Ten characters of that shape compare like the numbers they spell. *)
Lemma fixed_width_compare (y m d y' m' d' : Z) :
  1000 <= y <= 9999 -> 0 <= m <= 99 -> 0 <= d <= 99 ->
  1000 <= y' <= 9999 -> 0 <= m' <= 99 -> 0 <= d' <= 99 ->
  String.compare
    (fourDigits y ++ "-" ++ twoDigits m ++ "-" ++ twoDigits d)%string
    (fourDigits y' ++ "-" ++ twoDigits m' ++ "-" ++ twoDigits d')%string
  = (y * 10000 + m * 100 + d ?= y' * 10000 + m' * 100 + d').
Proof.
  intros Hy Hm Hd Hy' Hm' Hd'.
  unfold fourDigits, twoDigits. cbn [append String.compare].
  rewrite !digitChar_compare by divlia.
  change (Ascii.compare "-" "-") with Eq. cbv iota.
  repeat match goal with
         | |- context [match ?a ?= ?b with _ => _ end] =>
             destruct (Z.compare_spec a b)
         end;
    symmetry;
    first [ apply Z.compare_eq_iff; divlia
          | apply Z.compare_lt_iff; divlia
          | apply Z.compare_gt_iff; divlia ].
Qed.

End IsoDateFacts.

(** X17.  For a date with a four-digit year, [toISODate] writes the local
    calendar day as ten characters, [YYYY-MM-DD], month and day padded to
    two digits.  A missing argument, an empty string and an Invalid Date
    give the empty string; the function has no failing case. *)
Theorem toISODate_shape (R : IsoDate.LocalDateRuntime)
  (fields : IsoDate.DateFields) :
  IsoDate.fourDigitYear fields ->
  IsoDate.toISODate (IsoDate.ofDate (IsoDate.Valid fields)) =
  IsoDate.fourDigits (IsoDate.fullYear fields) ++ "-"
  ++ IsoDate.twoDigits (IsoDate.month fields + 1) ++ "-"
  ++ IsoDate.twoDigits (IsoDate.dayOfMonth fields)
  /\ String.length
       (IsoDate.toISODate (IsoDate.ofDate (IsoDate.Valid fields))) = 10
  /\ IsoDate.toISODate IsoDate.missing = ""
  /\ IsoDate.toISODate (IsoDate.ofString "") = ""
  /\ IsoDate.toISODate (IsoDate.ofDate IsoDate.InvalidDate) = ""
  /\ (forall s, IsoDate.newDate s = IsoDate.InvalidDate ->
                IsoDate.toISODate (IsoDate.ofString s) = "").
Proof.
  intros Hf. rewrite (IsoDateFacts.toISODate_fields R fields Hf).
  repeat split; try reflexivity.
  intros s Hs. unfold IsoDate.toISODate.
  destruct (nonEmpty s); [now rewrite Hs | reflexivity].
Qed.

Lemma toISODate_shape_witness :
  @IsoDate.toISODate IsoDate.refRuntime (IsoDate.ofString "2024-03-09")
  = "2024-03-09"
  /\ @IsoDate.toISODate IsoDate.refRuntime
       (IsoDate.ofDate
          (IsoDate.Valid {| IsoDate.fullYear := 2024; IsoDate.month := 2;
                            IsoDate.dayOfMonth := 9 |}))
     = IsoDate.fourDigits 2024 ++ "-" ++ IsoDate.twoDigits 3 ++ "-"
       ++ IsoDate.twoDigits 9.
Proof.
  split; [reflexivity|].
  apply (toISODate_shape IsoDate.refRuntime
           {| IsoDate.fullYear := 2024; IsoDate.month := 2;
              IsoDate.dayOfMonth := 9 |}).
  unfold IsoDate.fourDigitYear. simpl. lia.
Defined.

(** X18.  On dates with four-digit years the texts [toISODate] produces
    are ordered as the days are: comparing two of them character by
    character gives the same answer as comparing the calendar days.  So
    [inISODateRange] applied to such texts is the inclusive range test on
    days. *)
Theorem toISODate_orders_like_the_calendar (R : IsoDate.LocalDateRuntime)
  (a b c : IsoDate.DateFields) :
  IsoDate.fourDigitYear a -> IsoDate.fourDigitYear b ->
  IsoDate.fourDigitYear c ->
  String.compare (IsoDate.toISODate (IsoDate.ofDate (IsoDate.Valid a)))
                 (IsoDate.toISODate (IsoDate.ofDate (IsoDate.Valid b)))
  = (IsoDate.dayNumber a ?= IsoDate.dayNumber b)%Z
  /\ (Utils.inISODateRange
        (IsoDate.toISODate (IsoDate.ofDate (IsoDate.Valid c)))
        (IsoDate.toISODate (IsoDate.ofDate (IsoDate.Valid a)))
        (IsoDate.toISODate (IsoDate.ofDate (IsoDate.Valid b))) = true
      <-> (IsoDate.dayNumber a <= IsoDate.dayNumber c
           <= IsoDate.dayNumber b)%Z).
Proof.
  intros Ha Hb Hc.
  assert (forall x y, IsoDate.fourDigitYear x -> IsoDate.fourDigitYear y ->
            String.compare
              (IsoDate.toISODate (IsoDate.ofDate (IsoDate.Valid x)))
              (IsoDate.toISODate (IsoDate.ofDate (IsoDate.Valid y)))
            = (IsoDate.dayNumber x ?= IsoDate.dayNumber y)%Z) as Hcmp.
  { intros x y Hx Hy.
    rewrite (IsoDateFacts.toISODate_fields R x Hx),
      (IsoDateFacts.toISODate_fields R y Hy).
    destruct Hx as (? & ? & ?), Hy as (? & ? & ?).
    now apply IsoDateFacts.fixed_width_compare; lia. }
  split; [now apply Hcmp|].
  rewrite ExpenseMore.inISODateRange_true_iff.
  unfold notBefore, notAfter. rewrite !Hcmp by assumption.
  rewrite Z.compare_lt_iff, Z.compare_gt_iff.
  assert (forall x, IsoDate.fourDigitYear x ->
            IsoDate.toISODate (IsoDate.ofDate (IsoDate.Valid x)) <> "")
    as Hne.
  { intros x Hx. rewrite (IsoDateFacts.toISODate_fields R x Hx).
    discriminate. }
  pose proof (Hne a Ha). pose proof (Hne b Hb). pose proof (Hne c Hc).
  split; [lia | intros; repeat split; auto; lia].
Qed.

Lemma toISODate_orders_like_the_calendar_witness :
  String.compare
    (@IsoDate.toISODate IsoDate.refRuntime
       (IsoDate.ofDate (IsoDate.Valid
          {| IsoDate.fullYear := 2023; IsoDate.month := 11;
             IsoDate.dayOfMonth := 31 |})))
    (@IsoDate.toISODate IsoDate.refRuntime
       (IsoDate.ofDate (IsoDate.Valid
          {| IsoDate.fullYear := 2024; IsoDate.month := 0;
             IsoDate.dayOfMonth := 1 |})))
  = (20231231 ?= 20240101)%Z.
Proof.
  refine (proj1 (toISODate_orders_like_the_calendar IsoDate.refRuntime
                   {| IsoDate.fullYear := 2023; IsoDate.month := 11;
                      IsoDate.dayOfMonth := 31 |}
                   {| IsoDate.fullYear := 2024; IsoDate.month := 0;
                      IsoDate.dayOfMonth := 1 |}
                   {| IsoDate.fullYear := 2024; IsoDate.month := 0;
                      IsoDate.dayOfMonth := 1 |} _ _ _));
    unfold IsoDate.fourDigitYear; simpl; lia.
Defined.

(** X19.  An entry of the price history that has neither a reason nor a
    user name is listed exactly when the search text is empty and its date
    passes: on this page an empty search matches everything, and any
    search text hides such an entry. *)
Theorem bare_history_entry_needs_empty_search (S : StringRuntime) (R : DateRuntime)
  (f : PriceManagement.Filters) (h : PriceManagement.PriceHistory)
  (l r : list PriceManagement.PriceHistory) :
  PriceManagement.reason h = None ->
  PriceManagement.userName h = None ->
  Array_filter (PriceManagement.keepsHistory f) l = Normal r ->
  In h l ->
  (In h r <->
   PriceManagement.searchTerm f = "" /\
   PriceManagement.matchesDateRange f
     (Some (PriceManagement.changeDate h)) = Normal true).
Proof.
  intros Hr Hu Hres Hin.
  destruct (Array_filter_accepts _ _ _ Hres) as [-> Hall].
  rewrite List.filter_In.
  rewrite Forall_forall in Hall. destruct (Hall h Hin) as [v Hv].
  rewrite Hv. simpl.
  unfold PriceManagement.keepsHistory in Hv. rewrite Hr, Hu in Hv.
  destruct (PriceManagement.matchesDateRange f
              (Some (PriceManagement.changeDate h))) as [md|e];
    simpl in Hv; [|discriminate].
  injection Hv as <-.
  destruct (nonEmpty (PriceManagement.searchTerm f)) eqn:Hs; simpl.
  - apply StringFacts.nonEmpty_true_iff in Hs.
    split; [intros [_ H]; discriminate | intros [H _]; contradiction].
  - apply StringFacts.nonEmpty_false_iff in Hs.
    destruct md; simpl; split; try tauto.
    + intros [_ H]. discriminate.
    + intros [_ H]. discriminate.
Qed.

Lemma bare_history_entry_needs_empty_search_witness :
  (In SalesSamples.bareHistory [SalesSamples.bareHistory] <->
   "" = "" /\
   @PriceManagement.matchesDateRange RefDate.runtime
     (SalesSamples.priceFilters "" "2024-01-01" "")
     (Some "2024-01-15T10:30:00.000Z") = Normal true)
  /\ (In SalesSamples.bareHistory [] <->
      "price" = "" /\
      @PriceManagement.matchesDateRange RefDate.runtime
        (SalesSamples.priceFilters "price" "2024-01-01" "")
        (Some "2024-01-15T10:30:00.000Z") = Normal true).
Proof.
  split.
  - apply (bare_history_entry_needs_empty_search RefString.runtime RefDate.runtime
             (SalesSamples.priceFilters "" "2024-01-01" "")
             SalesSamples.bareHistory [SalesSamples.bareHistory]);
      [reflexivity | reflexivity | reflexivity | now left].
  - apply (bare_history_entry_needs_empty_search RefString.runtime RefDate.runtime
             (SalesSamples.priceFilters "price" "2024-01-01" "")
             SalesSamples.bareHistory [SalesSamples.bareHistory]);
      [reflexivity | reflexivity | reflexivity | now left].
Defined.

(* ================================================================== *)
(** * Sales history *)
(* ================================================================== *)

(** X20.  The sales-history date test compares instants.  For a sale whose
    date parses to the instant [t], the test passes exactly when no
    supplied and parseable lower bound lies after [t] and no supplied and
    parseable upper bound lies before [t]; a bound that does not parse
    constrains nothing. *)
Theorem sales_date_test_compares_instants (T : TimeRuntime)
  (f : SalesHistory.Filters) (sale : SalesHistory.Sale) (d : string)
  (t : Z) :
  SalesHistory.transactionDate sale = Some d -> d <> "" ->
  timeValue d = Some t ->
  (SalesHistory.matchesDateRange f sale = true <->
   (forall lower, SalesHistory.fromDate f <> "" ->
                  timeValue (SalesHistory.fromDate f) = Some lower ->
                  (lower <= t)%Z)
   /\ (forall upper, SalesHistory.toDate f <> "" ->
                     timeValue (SalesHistory.toDate f) = Some upper ->
                     (t <= upper)%Z)).
Proof.
  intros Hd Hne Ht. apply StringFacts.nonEmpty_true_iff in Hne.
  assert (nonEmpty (SalesHistory.fromDate f)
          && SalesHistory.laterThan (timeValue (SalesHistory.fromDate f))
               (Some t) = false <->
          (forall lower, SalesHistory.fromDate f <> "" ->
                         timeValue (SalesHistory.fromDate f) = Some lower ->
                         (lower <= t)%Z)) as Hlow.
  { pose proof (StringFacts.nonEmpty_true_iff (SalesHistory.fromDate f))
      as Hiff.
    unfold SalesHistory.laterThan.
    destruct (nonEmpty (SalesHistory.fromDate f)); simpl.
    - destruct (timeValue (SalesHistory.fromDate f)) as [lo|].
      + rewrite Z.ltb_ge. split.
        * intros H lower _ [= <-]. exact H.
        * intros H. apply H; [now apply Hiff | reflexivity].
      + split; [intros _ lower _ H; discriminate | reflexivity].
    - split; [|reflexivity].
      intros _ lower H. apply Hiff in H. discriminate. }
  assert (nonEmpty (SalesHistory.toDate f)
          && SalesHistory.earlierThan (timeValue (SalesHistory.toDate f))
               (Some t) = false <->
          (forall upper, SalesHistory.toDate f <> "" ->
                         timeValue (SalesHistory.toDate f) = Some upper ->
                         (t <= upper)%Z)) as Hhigh.
  { pose proof (StringFacts.nonEmpty_true_iff (SalesHistory.toDate f))
      as Hiff.
    unfold SalesHistory.earlierThan.
    destruct (nonEmpty (SalesHistory.toDate f)); simpl.
    - destruct (timeValue (SalesHistory.toDate f)) as [hi|].
      + rewrite Z.ltb_ge. split.
        * intros H upper _ [= <-]. exact H.
        * intros H. apply H; [now apply Hiff | reflexivity].
      + split; [intros _ upper _ H; discriminate | reflexivity].
    - split; [|reflexivity].
      intros _ upper H. apply Hiff in H. discriminate. }
  rewrite <- Hlow, <- Hhigh.
  unfold SalesHistory.matchesDateRange. rewrite Hd, Hne, Ht.
  destruct (nonEmpty (SalesHistory.fromDate f));
    destruct (nonEmpty (SalesHistory.toDate f)); simpl;
    destruct (SalesHistory.laterThan _ _);
    destruct (SalesHistory.earlierThan _ _); simpl; intuition congruence.
Qed.

Lemma sales_date_test_compares_instants_witness :
  @SalesHistory.matchesDateRange SalesSamples.runtime
    (SalesSamples.salesFilters "2024-01-01" "2024-01-15")
    (SalesSamples.sale (Some "2024-01-15T10:30:00.000Z")) = true
  <-> (forall lower, "2024-01-01" <> "" ->
                     SalesSamples.knownInstant "2024-01-01" = Some lower ->
                     (lower <= 1705314600000)%Z)
      /\ (forall upper, "2024-01-15" <> "" ->
                        SalesSamples.knownInstant "2024-01-15" = Some upper ->
                        (1705314600000 <= upper)%Z).
Proof.
  apply (sales_date_test_compares_instants SalesSamples.runtime
           (SalesSamples.salesFilters "2024-01-01" "2024-01-15")
           (SalesSamples.sale (Some "2024-01-15T10:30:00.000Z"))
           "2024-01-15T10:30:00.000Z" 1705314600000).
  - reflexivity.
  - discriminate.
  - reflexivity.
Defined.

(** X21.  The sales-history date test has no failing case, and treats bad
    dates in two ways: a sale whose date is present but does not parse
    passes every date range, while a sale without a date fails as soon as
    one bound is set (and passes when none is). *)
Theorem sales_date_test_on_bad_dates (T : TimeRuntime)
  (f : SalesHistory.Filters) (unparsed undated : SalesHistory.Sale)
  (d : string) :
  SalesHistory.transactionDate unparsed = Some d -> d <> "" ->
  timeValue d = None ->
  present (SalesHistory.transactionDate undated) = false ->
  SalesHistory.matchesDateRange f unparsed = true
  /\ (SalesHistory.fromDate f <> "" \/ SalesHistory.toDate f <> "" ->
      SalesHistory.matchesDateRange f undated = false)
  /\ (SalesHistory.fromDate f = "" -> SalesHistory.toDate f = "" ->
      SalesHistory.matchesDateRange f undated = true).
Proof.
  intros Hd Hne Hbad Hmissing. apply StringFacts.nonEmpty_true_iff in Hne.
  split; [|split].
  - unfold SalesHistory.matchesDateRange. rewrite Hd, Hne, Hbad.
    unfold SalesHistory.laterThan, SalesHistory.earlierThan.
    destruct (nonEmpty (SalesHistory.fromDate f)),
             (nonEmpty (SalesHistory.toDate f)); simpl;
      destruct (timeValue (SalesHistory.fromDate f)),
               (timeValue (SalesHistory.toDate f)); reflexivity.
  - intros Hany.
    assert (nonEmpty (SalesHistory.fromDate f)
            || nonEmpty (SalesHistory.toDate f) = true) as Hb.
    { apply orb_true_iff. destruct Hany as [H|H];
        apply StringFacts.nonEmpty_true_iff in H; auto. }
    unfold SalesHistory.matchesDateRange. rewrite Hb.
    destruct (SalesHistory.transactionDate undated) as [x|];
      [|reflexivity].
    simpl in Hmissing. now rewrite Hmissing.
  - intros Hf Ht. unfold SalesHistory.matchesDateRange.
    now rewrite Hf, Ht.
Qed.

Lemma sales_date_test_on_bad_dates_witness :
  @SalesHistory.matchesDateRange SalesSamples.runtime
    (SalesSamples.salesFilters "2024-01-01" "2024-01-15")
    (SalesSamples.sale (Some "N/A")) = true
  /\ @SalesHistory.matchesDateRange SalesSamples.runtime
       (SalesSamples.salesFilters "2024-01-01" "2024-01-15")
       (SalesSamples.sale None) = false.
Proof.
  destruct (sales_date_test_on_bad_dates SalesSamples.runtime
              (SalesSamples.salesFilters "2024-01-01" "2024-01-15")
              (SalesSamples.sale (Some "N/A")) (SalesSamples.sale None)
              "N/A" eq_refl ltac:(discriminate) eq_refl eq_refl)
    as (Hkept & Hdropped & _).
  split; [exact Hkept | apply Hdropped; left; discriminate].
Defined.

(** X22.  Clearing the expense filters lists exactly the expenses that
    have a description or a receipt number, in the original order, and
    cannot fail; an expense with neither stays hidden even with every
    filter cleared. *)
Theorem clear_filters_hides_unsearchable_expenses (S : StringRuntime) (R : DateRuntime)
  (expenses : list ExpenseManagement.Expense) :
  ExpenseManagement.filterExpenses ExpensePage.clearedFilters expenses
  = Normal (List.filter searchableExpense expenses).
Proof.
  unfold ExpenseManagement.filterExpenses.
  induction expenses as [|x l IH]; [reflexivity|].
  cbn [Array_filter List.filter]. rewrite IH.
  unfold ExpenseManagement.keeps, ExpenseManagement.matchesSearch,
    ExpenseManagement.matchesCategory, searchableExpense, optIncludes.
  simpl. rewrite ?CaseFacts.toLowerCase_empty.
  destruct (ExpenseManagement.description x) as [d|],
           (ExpenseManagement.receiptNumber x) as [n|]; simpl;
    rewrite ?includes_empty; reflexivity.
Qed.

(** X23.  With an empty search text [handleApplyFilter] keeps a sale only
    if it has an invoice number or its customer is in the customer list:
    it keeps exactly the sales of the list that have one of the two and
    pass the payment-method and date tests.  A sale with neither fails the
    search test whatever the search text, so it is never in the filtered
    list; the table, which falls back to all sales when the filtered list
    is empty, shows it exactly when it is one of the sales and the filter
    kept nothing. *)
Theorem sales_search_needs_invoice_or_customer (S : StringRuntime)
  (T : TimeRuntime)
  (customers : list SalesHistory.Customer) (f : SalesHistory.Filters)
  (sale : SalesHistory.Sale) :
  SalesHistory.searchTerm f = "" ->
  (truthy (SalesHistory.matchesSearch customers f sale) = true <->
   SalesHistory.invoiceNumber sale <> None \/
   exists c, In c customers /\
             SalesHistory.customerId sale
             = Some (SalesHistory.customerKey c))
  /\ (forall salesTransactions,
        In sale (SalesPage.handleApplyFilter customers f salesTransactions)
        <-> In sale salesTransactions /\
            (SalesHistory.invoiceNumber sale <> None \/
             exists c, In c customers /\
                       SalesHistory.customerId sale
                       = Some (SalesHistory.customerKey c)) /\
            SalesHistory.matchesPaymentMethod f sale = true /\
            SalesHistory.matchesDateRange f sale = true)
  /\ (SalesHistory.invoiceNumber sale = None ->
      SalesHistory.findCustomer customers sale = None ->
      forall g salesTransactions,
        SalesHistory.matchesSearch customers g sale = VBool false
        /\ truthy (SalesHistory.keeps customers g sale) = false
        /\ ~ In sale
               (SalesPage.handleApplyFilter customers g salesTransactions)
        /\ (In sale
              (SalesPage.displayedSales
                 (SalesPage.handleApplyFilter customers g salesTransactions)
                 salesTransactions)
            <-> In sale salesTransactions /\
                SalesPage.handleApplyFilter customers g salesTransactions
                = [])).
Proof.
  intros Hs.
  assert (truthy (SalesHistory.matchesSearch customers f sale) = true <->
          SalesHistory.invoiceNumber sale <> None \/
          exists c, In c customers /\
                    SalesHistory.customerId sale
                    = Some (SalesHistory.customerKey c)) as Hsearch.
  { unfold SalesHistory.matchesSearch, optIncludes.
    rewrite Hs, CaseFacts.toLowerCase_empty.
    destruct (SalesHistory.invoiceNumber sale) as [n|]; simpl.
    + rewrite includes_empty. simpl. split; [intros _; left|];
        [discriminate | reflexivity].
    + destruct (SalesHistory.findCustomer customers sale) as [c|] eqn:Hc;
        simpl.
      * rewrite includes_empty. simpl. split; [|reflexivity].
        intros _. right. exists c.
        unfold SalesHistory.findCustomer in Hc.
        apply find_some in Hc as [Hin Heq]. split; [exact Hin|].
        unfold seqOpt in Heq.
        destruct (SalesHistory.customerId sale) as [k|]; [|discriminate].
        apply String.eqb_eq in Heq. now subst.
      * split; [discriminate|].
        intros [H|[c [Hin Hk]]]; [contradiction|].
        unfold SalesHistory.findCustomer in Hc.
        pose proof (find_none _ _ Hc c Hin) as Hno.
        unfold seqOpt in Hno. rewrite Hk, String.eqb_refl in Hno.
        discriminate. }
  split; [exact Hsearch|]. split.
  - intros l. unfold SalesPage.handleApplyFilter.
    rewrite List.filter_In. unfold SalesHistory.keeps.
    rewrite !KeepFacts.truthy_vand, !andb_true_iff, Hsearch. simpl. tauto.
  - intros Hi Hc g l.
    assert (SalesHistory.matchesSearch customers g sale = VBool false)
      as Hm.
    { unfold SalesHistory.matchesSearch. now rewrite Hi, Hc. }
    assert (truthy (SalesHistory.keeps customers g sale) = false) as Hk.
    { unfold SalesHistory.keeps. now rewrite Hm. }
    assert (~ In sale (SalesPage.handleApplyFilter customers g l)) as Hout.
    { unfold SalesPage.handleApplyFilter. rewrite List.filter_In.
      intros [_ H]. congruence. }
    split; [exact Hm|]. split; [exact Hk|]. split; [exact Hout|].
    unfold SalesPage.displayedSales.
    destruct (SalesPage.handleApplyFilter customers g l) as [|y r] eqn:Hf;
      simpl.
    + tauto.
    + split; [intros H; now contradiction Hout | intros [_ H]; discriminate].
Qed.

Lemma sales_search_needs_invoice_or_customer_witness :
  ~ In SalesSamples.walkIn
      (@SalesPage.handleApplyFilter RefString.runtime SalesSamples.runtime
         [] (SalesSamples.salesFilters "" "")
         [SalesSamples.walkIn; SalesSamples.sale (Some "2024-01-15")])
  /\ In SalesSamples.walkIn
       (SalesPage.displayedSales
          (@SalesPage.handleApplyFilter RefString.runtime
             SalesSamples.runtime []
             (SalesSamples.salesFilters "" "") [SalesSamples.walkIn])
          [SalesSamples.walkIn]).
Proof.
  destruct (sales_search_needs_invoice_or_customer RefString.runtime
              SalesSamples.runtime []
              (SalesSamples.salesFilters "" "")
              SalesSamples.walkIn eq_refl)
    as (_ & _ & Hnone).
  split.
  - apply (Hnone eq_refl eq_refl (SalesSamples.salesFilters "" "")
             [SalesSamples.walkIn; SalesSamples.sale (Some "2024-01-15")]).
  - apply (Hnone eq_refl eq_refl (SalesSamples.salesFilters "" "")
             [SalesSamples.walkIn]).
    split; [now left | reflexivity].
Defined.
